(** * Nidaan patient page: visit submission pipeline

    A shallow embedding of the patient-facing recording pages of the Nidaan
    web client:

    - [apps/web/app/patient/page.tsx] (module [PatientPage]): the voice-orb
      page with [startAudioVisualization], [pollProcessingStatus] and
      [uploadAndProcess];
    - [unnamed/part_000] (module [Part000]): the card-layout variant of the
      same page, with its own [pollProcessingStatus] and [uploadAndProcess].

    Asynchronous functions are embedded in a small monad that threads the
    React state the setters write, records every call that leaves the
    component (backend requests, timers, console output) and carries
    promise rejection.  The backend ([audioAPI], [uploadToS3] of
    [@/lib/api]) is not part of the sources; it is a parameter of every
    definition, a record of scripted answers. *)

From Stdlib Require Import List String Ascii Bool Arith ZArith QArith Qminmax Lia.
From Stdlib Require Import Strings.Byte.
From Stdlib Require Import NArith DecimalString DecimalN.
Import ListNotations.
Close Scope Q_scope.
Open Scope string_scope.

(** ** JavaScript values *)

(** A thrown value that is an object (an [Error], an axios error); the
    code only ever reads its [message], which may be undefined.  A promise
    rejected with [undefined] or [null], on which reading [.message] would
    itself throw, is outside this model. *)
Record JsError : Type := mkError { message : option string }.

(** [a || d] where [a] is a possibly undefined string: the empty string and
    [undefined] are both falsy. *)
Definition or_default (a : option string) (d : string) : string :=
  match a with
  | Some s => if String.eqb s "" then d else s
  | None => d
  end.

(** ** String methods

    Strings are sequences of bytes (UTF-8).

    [n.toString()] of a non-negative integer below [2^53]: its decimal
    digits. *)
Definition toString (n : N) : string :=
  NilEmpty.string_of_uint (N.to_uint n).

Fixpoint repeat_char (c : ascii) (n : nat) : string :=
  match n with
  | O => ""
  | S n' => String c (repeat_char c n')
  end.

(** [s.padStart(targetLength, c)] for a one-character pad string. *)
Definition padStart (s : string) (targetLength : nat) (c : ascii) : string :=
  repeat_char c (targetLength - String.length s) ++ s.

(** [s.toLowerCase()].  The letters [A] to [Z] are mapped, every other byte
    is kept.  JavaScript also maps non-ASCII letters; the only two it sends
    into ASCII are U+212A (to [k]) and U+0130 (to [i] followed by U+0307),
    and neither can take part in a match of the words this file searches
    for: none has a [k], and none has an [i] in last position. *)
Definition lower (c : ascii) : ascii :=
  let n := nat_of_ascii c in
  if Nat.leb 65 n && Nat.leb n 90 then ascii_of_nat (n + 32) else c.

Fixpoint toLowerCase (s : string) : string :=
  match s with
  | EmptyString => EmptyString
  | String c rest => String (lower c) (toLowerCase rest)
  end.

(** [s.includes(search)] *)
Fixpoint includes (s search : string) : bool :=
  String.prefix search s ||
  match s with
  | EmptyString => false
  | String _ rest => includes rest search
  end.

(** The state a promise settles in, as seen by [await]. *)
Inductive Settled (A : Type) : Type :=
| Resolved (a : A)
| Rejected (e : JsError).
Arguments Resolved {A} a.
Arguments Rejected {A} e.

(** A [Blob] is its bytes; a blob of zero bytes is still an object, hence
    truthy. *)
Definition Blob : Type := list byte.

Module User.
Record t : Type := mk { user_id : string; clinic_id : string }.
End User.

Module VisitData.
Record t : Type := mk {
  patient_id : string;
  clinic_id : string;
  language_code : string;
  audio_duration_seconds : nat
}.
End VisitData.

Record Visit : Type := mkVisit { visit_id : string }.

Record UploadData : Type := mkUploadData {
  upload_url : string;
  audio_s3_key : string
}.

(** ** The backend

    [audioAPI] and [uploadToS3]: what each request settles to.  The answer
    of the status endpoint may change from one poll attempt to the next, so
    it is indexed by the attempt (the loop counter [i] of
    [pollProcessingStatus]); its payload is the [status] field of the
    response. *)
Record Api : Type := mkApi {
  createVisit : VisitData.t -> Settled Visit;
  getUploadUrl : string -> string -> Settled UploadData;
  uploadToS3 : string -> Blob -> Settled unit;
  processAudio : string -> string -> Settled unit;
  getProcessingStatus : string -> nat -> Settled string
}.

(** ** Calls that leave the component *)

Inductive Timer : Type :=
| Sleep            (* [await new Promise(resolve => setTimeout(resolve, ms))] *)
| ResetCallback.   (* [setTimeout(() => { ... reset() ... }, ms)] *)

Inductive Effect : Type :=
| CreateVisit (d : VisitData.t)
| GetUploadUrl (visitId fmt : string)
| UploadToS3 (url : string) (b : Blob)
| ProcessAudio (visitId key : string)
| GetProcessingStatus (visitId : string)
| SetTimeout (k : Timer) (ms : nat)
| ConsoleError (label : string) (e : JsError).

Definition is_status_query (c : Effect) : bool :=
  match c with GetProcessingStatus _ => true | _ => false end.

Definition is_sleep (c : Effect) : bool :=
  match c with SetTimeout Sleep _ => true | _ => false end.

Definition is_network (c : Effect) : bool :=
  match c with
  | CreateVisit _ | GetUploadUrl _ _ | UploadToS3 _ _
  | ProcessAudio _ _ | GetProcessingStatus _ => true
  | SetTimeout _ _ | ConsoleError _ _ => false
  end.

Definition count (p : Effect -> bool) (t : list Effect) : nat :=
  List.length (filter p t).

(** ** The monad of asynchronous component code *)

Record Run (S A : Type) : Type := mkRun {
  result : Settled A;
  final : S;
  trace : list Effect
}.
Arguments mkRun {S A} result final trace.
Arguments result {S A} r.
Arguments final {S A} r.
Arguments trace {S A} r.

Definition M (S A : Type) : Type := S -> Run S A.

(** A run with [t] in front of its trace. *)
Definition prepend {S A : Type} (t : list Effect) (r : Run S A) : Run S A :=
  match r with
  | mkRun res s t' => mkRun res s (t ++ t')
  end.

Definition ret {S A : Type} (a : A) : M S A :=
  fun s => mkRun (Resolved a) s [].

Definition bind {S A B : Type} (m : M S A) (k : A -> M S B) : M S B :=
  fun s =>
    match m s with
    | mkRun (Resolved a) s' t => prepend t (k a s')
    | mkRun (Rejected e) s' t => mkRun (Rejected e) s' t
    end.

(** [try { m } catch (error) { h error }] *)
Definition try_catch {S A : Type} (m : M S A) (h : JsError -> M S A) : M S A :=
  fun s =>
    match m s with
    | mkRun (Resolved a) s' t => mkRun (Resolved a) s' t
    | mkRun (Rejected e) s' t => prepend t (h e s')
    end.

(** [await] of a call that leaves the component. *)
Definition await {S A : Type} (c : Effect) (answer : Settled A) : M S A :=
  fun s => mkRun answer s [c].

(** A call that leaves the component and cannot throw. *)
Definition emit {S : Type} (c : Effect) : M S unit :=
  fun s => mkRun (Resolved tt) s [c].

(** A React state setter. *)
Definition modify {S : Type} (f : S -> S) : M S unit :=
  fun s => mkRun (Resolved tt) (f s) [].

Declare Scope js_scope.
Delimit Scope js_scope with js.
Notation "x <- m ;; k" := (bind m (fun x => k))
  (at level 61, m at next level, right associativity) : js_scope.
Notation "m ;; k" := (bind m (fun _ => k))
  (at level 61, right associativity) : js_scope.
Open Scope js_scope.

(** How a loop body leaves: falling through to the next iteration, or
    [return] from the enclosing function. *)
Inductive Flow : Type := Next | Return.

(** The terminal outcomes of the specification. *)
Inductive Outcome : Type :=
| completed
| failed (lastError : string)
| timedOut.

(** [retries = 30] *)
Definition default_retries : nat := 30.

(** ** The polling loop as the event loop runs it

    An [async] function runs without interruption from one [await] to the
    next and is suspended in between.  [Pc] is where [pollProcessingStatus]
    is suspended, [Input] what the event loop may deliver while it is. *)
Inductive Pc : Type :=
| AwaitStatus (i : nat)   (* [await audioAPI.getProcessingStatus(visitId)] of attempt [i] *)
| AwaitSleep (i : nat)    (* [await new Promise(... setTimeout(resolve, 2000))] of attempt [i] *)
| Done.                   (* the function has returned *)

Inductive Input : Type :=
| StatusSettled (r : Settled string)   (* the pending status request settles *)
| TimerFired                           (* the pending 2000 ms timer fires *)
| Teardown.                            (* the user navigates away: cancellation is requested *)

(** The statuses on which the [switch] returns from the function. *)
Definition terminal (status : string) : bool :=
  String.eqb status "COMPLETED" || String.eqb status "FAILED".

(** The statuses the [switch] has a [case] for. *)
Definition recognized (status : string) : bool :=
  String.eqb status "TRANSCRIBING" || String.eqb status "ANALYZING" || terminal status.

(** A poll attempt that does not end the loop: the request threw, or it
    returned a status that is neither [COMPLETED] nor [FAILED]. *)
Definition nonterminal (r : Settled string) : bool :=
  match r with
  | Resolved status => negb (terminal status)
  | Rejected _ => true
  end.

(** A poll attempt whose request returned, with a status that is neither
    [COMPLETED] nor [FAILED]. *)
Definition returned_nonterminal (r : Settled string) : bool :=
  match r with
  | Resolved status => negb (terminal status)
  | Rejected _ => false
  end.

(** * apps/web/app/patient/page.tsx *)

Module PatientPage.

Definition LANGUAGES : list string :=
  ["hi-IN"; "ta-IN"; "te-IN"; "mr-IN"; "bn-IN"; "en-IN"].

Inductive VoiceState : Type := idle | listening | processing | speaking | error.

(** The [useState] cells the pipeline writes. *)
Record State : Type := mkState {
  voiceState : VoiceState;
  statusMessage : string;
  visitId : option string;
  processingStage : string
}.

(** What the closure of [uploadAndProcess] captured at render time. *)
Record Props : Type := mkProps {
  user : option User.t;
  audioBlob : option Blob;
  duration : nat;
  language : string
}.

Definition setVoiceState (v : VoiceState) : M State unit :=
  modify (fun s => mkState v (statusMessage s) (visitId s) (processingStage s)).

Definition setStatusMessage (m : string) : M State unit :=
  modify (fun s => mkState (voiceState s) m (visitId s) (processingStage s)).

Definition setVisitId (v : option string) : M State unit :=
  modify (fun s => mkState (voiceState s) (statusMessage s) v (processingStage s)).

Definition setProcessingStage (p : string) : M State unit :=
  modify (fun s => mkState (voiceState s) (statusMessage s) (visitId s) p).

(** [switch (status.status) { ... }] of [pollProcessingStatus]: [Next] when
    control reaches the statement after the switch. *)
Definition switch_status (status : string) : M State Flow :=
  if String.eqb status "TRANSCRIBING" then
    setProcessingStage "Transcribing your voice..." ;;
    ret Next
  else if String.eqb status "ANALYZING" then
    setProcessingStage "AI analyzing symptoms..." ;;
    ret Next
  else if String.eqb status "COMPLETED" then
    setVoiceState speaking ;;
    setProcessingStage "Complete!" ;;
    setStatusMessage "Your doctor will review this shortly" ;;
    emit (SetTimeout ResetCallback 4000) ;;
    ret Return
  else if String.eqb status "FAILED" then
    setVoiceState error ;;
    setStatusMessage "Processing failed. Please try again." ;;
    ret Return
  else
    ret Next.

(** The body of the [for] loop at counter [i]. *)
Definition poll_attempt (api : Api) (visitId : string) (i : nat) : M State Flow :=
  try_catch
    (status <- await (GetProcessingStatus visitId)
                     (getProcessingStatus api visitId i) ;;
     flow <- switch_status status ;;
     match flow with
     | Return => ret Return
     | Next => emit (SetTimeout Sleep 2000) ;; ret Next
     end)
    (fun err => emit (ConsoleError "Error polling status:" err) ;; ret Next).

(** [for (; i < retries; i++)] with [n = retries - i] iterations left. *)
Fixpoint poll_loop (api : Api) (visitId : string) (n i : nat) : M State Flow :=
  match n with
  | O => ret Next
  | S n' =>
      flow <- poll_attempt api visitId i ;;
      match flow with
      | Return => ret Return
      | Next => poll_loop api visitId n' (S i)
      end
  end.

Definition pollProcessingStatus (api : Api) (visitId : string) (retries : nat)
  : M State unit :=
  flow <- poll_loop api visitId retries 0 ;;
  match flow with
  | Return => ret tt
  | Next =>
      setStatusMessage "Processing taking longer than expected." ;;
      setVoiceState idle
  end.

Definition uploadAndProcess (api : Api) (p : Props) : M State unit :=
  match audioBlob p with
  | None => ret tt
  | Some blob =>
      setVoiceState processing ;;
      setProcessingStage "Creating visit record..." ;;
      try_catch
        (let visitData :=
           VisitData.mk
             (or_default (option_map User.user_id (user p)) "DEMO_PATIENT")
             (or_default (option_map User.clinic_id (user p)) "CLINIC_DEMO")
             (language p)
             (duration p) in
         visit <- await (CreateVisit visitData) (createVisit api visitData) ;;
         setVisitId (Some (visit_id visit)) ;;
         setProcessingStage "Uploading audio..." ;;
         uploadData <- await (GetUploadUrl (visit_id visit) "webm")
                             (getUploadUrl api (visit_id visit) "webm") ;;
         await (UploadToS3 (upload_url uploadData) blob)
               (uploadToS3 api (upload_url uploadData) blob) ;;
         setProcessingStage "Starting AI analysis..." ;;
         await (ProcessAudio (visit_id visit) (audio_s3_key uploadData))
               (processAudio api (visit_id visit) (audio_s3_key uploadData)) ;;
         pollProcessingStatus api (visit_id visit) default_retries)
        (fun err =>
           emit (ConsoleError "Upload error:" err) ;;
           setVoiceState error ;;
           setStatusMessage (or_default (message err) "Upload failed"))
  end.

(** The terminal outcome the page shows, read off the state cells. *)
Definition outcome (s : State) : option Outcome :=
  match voiceState s with
  | speaking => Some completed
  | error => Some (failed (statusMessage s))
  | idle =>
      if String.eqb (statusMessage s) "Processing taking longer than expected."
      then Some timedOut else None
  | listening | processing => None
  end.

(** *** [pollProcessingStatus] between two awaits

    [enter] is the loop test at counter [i] followed by the request of the
    attempt, or by the code after the loop; [resume] is the code from the
    await the function is suspended at to the next one.  Nothing in the
    page listens to a teardown: no effect cleanup, no abort signal, no
    [clearTimeout]. *)
Definition enter (visitId : string) (retries i : nat) : M State Pc :=
  if Nat.ltb i retries then
    emit (GetProcessingStatus visitId) ;;
    ret (AwaitStatus i)
  else
    setStatusMessage "Processing taking longer than expected." ;;
    setVoiceState idle ;;
    ret Done.

Definition resume (visitId : string) (retries : nat) (pc : Pc) (input : Input)
  : M State Pc :=
  match pc, input with
  | AwaitStatus i, StatusSettled (Resolved status) =>
      flow <- switch_status status ;;
      match flow with
      | Return => ret Done
      | Next => emit (SetTimeout Sleep 2000) ;; ret (AwaitSleep i)
      end
  | AwaitStatus i, StatusSettled (Rejected err) =>
      emit (ConsoleError "Error polling status:" err) ;;
      enter visitId retries (S i)
  | AwaitSleep i, TimerFired => enter visitId retries (S i)
  | _, _ => ret pc
  end.

Fixpoint deliver (visitId : string) (retries : nat) (pc : Pc) (inputs : list Input)
  : M State Pc :=
  match inputs with
  | [] => ret pc
  | input :: rest =>
      pc' <- resume visitId retries pc input ;;
      deliver visitId retries pc' rest
  end.

(** The inputs of an undisturbed run: every request settles as the backend
    says and every timer fires. *)
Definition answer (api : Api) (visitId : string) (pc : Pc) : option Input :=
  match pc with
  | AwaitStatus i => Some (StatusSettled (getProcessingStatus api visitId i))
  | AwaitSleep _ => Some TimerFired
  | Done => None
  end.

Fixpoint drive (api : Api) (visitId : string) (retries fuel : nat) (pc : Pc)
  : M State Pc :=
  match fuel with
  | O => ret pc
  | S fuel' =>
      match answer api visitId pc with
      | None => ret pc
      | Some input =>
          pc' <- resume visitId retries pc input ;;
          drive api visitId retries fuel' pc'
      end
  end.

(** The call [pollProcessingStatus(visitId, retries)] and what follows when
    the event loop delivers [inputs]. *)
Definition poll_then (visitId : string) (retries : nat) (inputs : list Input)
  : M State Pc :=
  pc <- enter visitId retries 0 ;;
  deliver visitId retries pc inputs.

(** The call left undisturbed: two inputs per attempt are enough to reach
    the end of the function. *)
Definition poll_undisturbed (api : Api) (visitId : string) (retries : nat)
  : M State Pc :=
  pc <- enter visitId retries 0 ;;
  drive api visitId retries (2 * retries) pc.

(** *** Level meter: [startAudioVisualization]

    [analyserRef.current.fftSize = 256]; the analyser's
    [frequencyBinCount], the length of [dataArray], is half of it. *)
Definition fftSize : nat := 256.

Definition frequencyBinCount : nat := fftSize / 2.

(** An element of the [Uint8Array]. *)
Definition magnitude (b : byte) : Z := Z.of_N (Byte.to_N b).

(** [dataArray.reduce((a, b) => a + b)]: without an initial value the first
    element seeds the fold, and an empty array throws ([None]). *)
Definition reduce_add (dataArray : list byte) : option Z :=
  match dataArray with
  | [] => None
  | x :: rest => Some (fold_left (fun a b => (a + magnitude b)%Z) rest (magnitude x))
  end.

(** [dataArray.reduce(...) / dataArray.length] *)
Definition average (dataArray : list byte) : option Q :=
  match reduce_add dataArray with
  | Some total => Some (inject_Z total / inject_Z (Z.of_nat (List.length dataArray)))%Q
  | None => None
  end.

(** One cycle of [updateLevel]: the new value of the [audioLevel] cell.
    [analyser] is [None] when [analyserRef.current] is null and otherwise
    holds the bins [getByteFrequencyData] writes into [dataArray]. *)
Definition updateLevel (analyser : option (list byte)) (audioLevel : Q) : option Q :=
  match analyser with
  | Some dataArray =>
      match average dataArray with
      | Some avg => Some (Qmin 100 (avg * 1.5))%Q
      | None => None
      end
  | None => Some audioLevel
  end.

(** *** What voice mode renders of the submission

    [{audioBlob && voiceState === 'idle' && !statusMessage && ( ... )}]: the
    block with the Submit and Re-record buttons. *)
Definition submitShown (p : Props) (s : State) : bool :=
  match audioBlob p with Some _ => true | None => false end
  && match voiceState s with idle => true | _ => false end
  && String.eqb (statusMessage s) "".


(** *** [formatTime]

    [seconds] is the count of one-second ticks of the recording timer. *)
Definition formatTime (seconds : N) : string :=
  let mins := (seconds / 60)%N in
  let secs := (seconds mod 60)%N in
  toString mins ++ ":" ++ padStart (toString secs) 2 "0".

(** *** The language menu

    The entries of the [LANGUAGES] array with their display names. *)
Record Language : Type := mkLanguage {
  code : string;
  name : string;
  fullName : string
}.

Definition LANGUAGE_ENTRIES : list Language :=
  [mkLanguage "hi-IN" "हिन्दी" "Hindi";
   mkLanguage "ta-IN" "தமிழ்" "Tamil";
   mkLanguage "te-IN" "తెలుగు" "Telugu";
   mkLanguage "mr-IN" "मराठी" "Marathi";
   mkLanguage "bn-IN" "বাংলা" "Bengali";
   mkLanguage "en-IN" "English" "English"].

(** [LANGUAGES.find(l => l.code === language) || LANGUAGES[0]] *)
Definition selectedLanguage (language : string) : Language :=
  match find (fun l => String.eqb (code l) language) LANGUAGE_ENTRIES with
  | Some l => l
  | None => nth 0 LANGUAGE_ENTRIES (mkLanguage "" "" "")
  end.

(** *** Chat mode *)

Module Chat.

Inductive Role : Type := user | assistant | system.

Record ChatMessage : Type := mkMessage {
  id : string;
  role : Role;
  content : string;
  timestamp : N
}.

(** The [useState] cells of the chat. *)
Record State : Type := mkState {
  chatMessages : list ChatMessage;
  chatInput : string;
  isTyping : bool
}.

(** The state of a freshly mounted page, mounted at time [now]. *)
Definition mounted (now : N) : State :=
  mkState
    [mkMessage "1" assistant
       "Hello! I'm your AI health assistant. You can describe your symptoms here, and I'll help prepare information for your doctor. How are you feeling today?"
       now]
    "" false.

Definition headache_reply : string :=
  "I understand you're experiencing headaches. Can you tell me:

• How long have you had this headache?
• Is it on one side or both sides?
• On a scale of 1-10, how severe is the pain?
• Do you have any other symptoms like nausea or sensitivity to light?".

Definition fever_reply : string :=
  "I see you have a fever. Let me ask a few questions:

• What is your current temperature if you've measured it?
• When did the fever start?
• Do you have any other symptoms like cough, body aches, or chills?".

Definition chest_reply : string :=
  "⚠️ Chest-related symptoms need careful attention. Please describe:

• Is it a pain, pressure, or tightness?
• Does it spread to your arm, jaw, or back?
• Do you have shortness of breath?

If you're experiencing severe chest pain, please seek immediate medical attention.".

Definition stomach_reply : string :=
  "I'll help document your stomach issues. Please tell me:

• Where exactly is the pain?
• When did it start?
• Have you had any vomiting or diarrhea?
• What was the last thing you ate?".

Definition default_reply : string :=
  "Thank you for sharing that. To help your doctor better understand your condition, could you please describe:

• When did these symptoms start?
• How severe are they (mild, moderate, severe)?
• Is there anything that makes them better or worse?".

Definition generateAIResponse (input : string) : string :=
  let lower := toLowerCase input in
  if includes lower "headache" || includes lower "head pain" then
    headache_reply
  else if includes lower "fever" || includes lower "temperature" then
    fever_reply
  else if includes lower "chest" || includes lower "heart" then
    chest_reply
  else if includes lower "stomach" || includes lower "abdominal"
          || includes lower "vomit" then
    stomach_reply
  else
    default_reply.

(** The callback [handleChatSubmit] passes to [setTimeout]; [input] is the
    [chatInput] its closure captured and [now] the time it runs at. *)
Definition reply (input : string) (now : N) (s : State) : State :=
  let aiResponse :=
    mkMessage (toString (now + 1)) assistant (generateAIResponse input) now in
  mkState (chatMessages s ++ [aiResponse]) (chatInput s) false.

(** [handleChatSubmit] at time [now]: the new state and, when a reply was
    scheduled, its delay and the input it captured.  [trim] is
    [String.prototype.trim]. *)
Definition handleChatSubmit (trim : string -> string) (now : N) (s : State)
  : State * option (nat * string) :=
  if String.eqb (trim (chatInput s)) "" || isTyping s then
    (s, None)
  else
    let userMessage := mkMessage (toString now) user (chatInput s) now in
    (mkState (chatMessages s ++ [userMessage]) "" true,
     Some (1500, chatInput s)).

(** What can happen to the chat between two renders: the user edits the
    input field ([setChatInput]), submits the form, or a scheduled reply
    comes due. *)
Inductive Event : Type :=
| Typed (text : string)
| Submitted (now : N)
| ReplyDue (input : string) (now : N).

(** The chat state after [e]; the replies scheduled by it. *)
Definition react (trim : string -> string) (e : Event) (s : State)
  : State * option (nat * string) :=
  match e with
  | Typed text => (mkState (chatMessages s) text (isTyping s), None)
  | Submitted now => handleChatSubmit trim now s
  | ReplyDue input now => (reply input now s, None)
  end.

(** The chat after a sequence of events, with every reply scheduled on
    the way. *)
Fixpoint play (trim : string -> string) (events : list Event) (s : State)
  : State * list (nat * string) :=
  match events with
  | [] => (s, [])
  | e :: rest =>
      let (s', scheduled) := react trim e s in
      let (s'', later) := play trim rest s' in
      (s'', match scheduled with
            | Some r => r :: later
            | None => later
            end)
  end.

End Chat.

End PatientPage.

(** * unnamed/part_000 *)

Module Part000.

Definition LANGUAGES : list string :=
  ["hi-IN"; "ta-IN"; "te-IN"; "mr-IN"; "bn-IN"; "en-IN"].

Record State : Type := mkState {
  uploading : bool;
  visitId : option string;
  processingStatus : string
}.

Record Props : Type := mkProps {
  user : option User.t;
  audioBlob : option Blob;
  duration : nat;
  language : string
}.

Definition setUploading (u : bool) : M State unit :=
  modify (fun s => mkState u (visitId s) (processingStatus s)).

Definition setVisitId (v : option string) : M State unit :=
  modify (fun s => mkState (uploading s) v (processingStatus s)).

Definition setProcessingStatus (p : string) : M State unit :=
  modify (fun s => mkState (uploading s) (visitId s) p).

Definition switch_status (status : string) : M State Flow :=
  if String.eqb status "TRANSCRIBING" then
    setProcessingStatus "🎤 Transcribing your voice..." ;;
    ret Next
  else if String.eqb status "ANALYZING" then
    setProcessingStatus "🧠 AI analyzing symptoms..." ;;
    ret Next
  else if String.eqb status "COMPLETED" then
    setProcessingStatus "✅ Complete! Your doctor will review this shortly." ;;
    emit (SetTimeout ResetCallback 3000) ;;
    ret Return
  else if String.eqb status "FAILED" then
    setProcessingStatus "❌ Processing failed. Please try again." ;;
    setUploading false ;;
    ret Return
  else
    ret Next.

Definition poll_attempt (api : Api) (visitId : string) (i : nat) : M State Flow :=
  try_catch
    (status <- await (GetProcessingStatus visitId)
                     (getProcessingStatus api visitId i) ;;
     flow <- switch_status status ;;
     match flow with
     | Return => ret Return
     | Next => emit (SetTimeout Sleep 2000) ;; ret Next
     end)
    (fun err => emit (ConsoleError "Error polling status:" err) ;; ret Next).

Fixpoint poll_loop (api : Api) (visitId : string) (n i : nat) : M State Flow :=
  match n with
  | O => ret Next
  | S n' =>
      flow <- poll_attempt api visitId i ;;
      match flow with
      | Return => ret Return
      | Next => poll_loop api visitId n' (S i)
      end
  end.

Definition pollProcessingStatus (api : Api) (visitId : string) (retries : nat)
  : M State unit :=
  flow <- poll_loop api visitId retries 0 ;;
  match flow with
  | Return => ret tt
  | Next =>
      setProcessingStatus
        "Processing taking longer than expected. The doctor will be notified." ;;
      setUploading false
  end.

Definition uploadAndProcess (api : Api) (p : Props) : M State unit :=
  match audioBlob p with
  | None => ret tt
  | Some blob =>
      setUploading true ;;
      setProcessingStatus "📝 Creating visit record..." ;;
      try_catch
        (let visitData :=
           VisitData.mk
             (or_default (option_map User.user_id (user p)) "DEMO_PATIENT")
             (or_default (option_map User.clinic_id (user p)) "CLINIC_DEMO")
             (language p)
             (duration p) in
         visit <- await (CreateVisit visitData) (createVisit api visitData) ;;
         setVisitId (Some (visit_id visit)) ;;
         setProcessingStatus "🔗 Getting upload URL..." ;;
         uploadData <- await (GetUploadUrl (visit_id visit) "webm")
                             (getUploadUrl api (visit_id visit) "webm") ;;
         setProcessingStatus "📤 Uploading audio..." ;;
         await (UploadToS3 (upload_url uploadData) blob)
               (uploadToS3 api (upload_url uploadData) blob) ;;
         setProcessingStatus "🚀 Starting AI analysis..." ;;
         await (ProcessAudio (visit_id visit) (audio_s3_key uploadData))
               (processAudio api (visit_id visit) (audio_s3_key uploadData)) ;;
         pollProcessingStatus api (visit_id visit) default_retries)
        (fun err =>
           emit (ConsoleError "Upload error:" err) ;;
           setProcessingStatus
             ("❌ Error: " ++ or_default (message err) "Upload failed") ;;
           setUploading false)
  end.

(** The terminal outcome the page shows, read off the status line: the
    check mark is written by the [COMPLETED] branch only, the cross by the
    [FAILED] branch and the [catch] of [uploadAndProcess]. *)
Definition outcome (s : State) : option Outcome :=
  if String.eqb (processingStatus s)
       "✅ Complete! Your doctor will review this shortly."
  then Some completed
  else if String.prefix "❌" (processingStatus s)
  then Some (failed (processingStatus s))
  else if String.eqb (processingStatus s)
            "Processing taking longer than expected. The doctor will be notified."
          && negb (uploading s)
  then Some timedOut
  else None.

(** *** [pollProcessingStatus] between two awaits

    [enter] is the loop test at counter [i] followed by the request of the
    attempt, or by the code after the loop; [resume] is the code from the
    await the function is suspended at to the next one.  Nothing in the
    page listens to a teardown: no effect cleanup, no abort signal, no
    [clearTimeout]. *)
Definition enter (visitId : string) (retries i : nat) : M State Pc :=
  if Nat.ltb i retries then
    emit (GetProcessingStatus visitId) ;;
    ret (AwaitStatus i)
  else
    setProcessingStatus
      "Processing taking longer than expected. The doctor will be notified." ;;
    setUploading false ;;
    ret Done.

Definition resume (visitId : string) (retries : nat) (pc : Pc) (input : Input)
  : M State Pc :=
  match pc, input with
  | AwaitStatus i, StatusSettled (Resolved status) =>
      flow <- switch_status status ;;
      match flow with
      | Return => ret Done
      | Next => emit (SetTimeout Sleep 2000) ;; ret (AwaitSleep i)
      end
  | AwaitStatus i, StatusSettled (Rejected err) =>
      emit (ConsoleError "Error polling status:" err) ;;
      enter visitId retries (S i)
  | AwaitSleep i, TimerFired => enter visitId retries (S i)
  | _, _ => ret pc
  end.

Fixpoint deliver (visitId : string) (retries : nat) (pc : Pc) (inputs : list Input)
  : M State Pc :=
  match inputs with
  | [] => ret pc
  | input :: rest =>
      pc' <- resume visitId retries pc input ;;
      deliver visitId retries pc' rest
  end.

(** The inputs of an undisturbed run: every request settles as the backend
    says and every timer fires. *)
Definition answer (api : Api) (visitId : string) (pc : Pc) : option Input :=
  match pc with
  | AwaitStatus i => Some (StatusSettled (getProcessingStatus api visitId i))
  | AwaitSleep _ => Some TimerFired
  | Done => None
  end.

Fixpoint drive (api : Api) (visitId : string) (retries fuel : nat) (pc : Pc)
  : M State Pc :=
  match fuel with
  | O => ret pc
  | S fuel' =>
      match answer api visitId pc with
      | None => ret pc
      | Some input =>
          pc' <- resume visitId retries pc input ;;
          drive api visitId retries fuel' pc'
      end
  end.

(** The call [pollProcessingStatus(visitId, retries)] and what follows when
    the event loop delivers [inputs]. *)
Definition poll_then (visitId : string) (retries : nat) (inputs : list Input)
  : M State Pc :=
  pc <- enter visitId retries 0 ;;
  deliver visitId retries pc inputs.

(** The call left undisturbed: two inputs per attempt are enough to reach
    the end of the function. *)
Definition poll_undisturbed (api : Api) (visitId : string) (retries : nat)
  : M State Pc :=
  pc <- enter visitId retries 0 ;;
  drive api visitId retries (2 * retries) pc.

(** *** What the page renders of the submission

    [{audioBlob && !uploading && ( ... )}]: the Submit and Re-record
    buttons. *)
Definition submitShown (p : Props) (s : State) : bool :=
  match audioBlob p with Some _ => true | None => false end
  && negb (uploading s).


(** *** [formatTime]

    [seconds] is the count of one-second ticks of the recording timer. *)
Definition formatTime (seconds : N) : string :=
  let mins := (seconds / 60)%N in
  let secs := (seconds mod 60)%N in
  toString mins ++ ":" ++ padStart (toString secs) 2 "0".

End Part000.

(** * apps/web/app/login/page.tsx *)

Module LoginPage.

(** The fields of the response of [authAPI.login] the page reads. *)
Module Response.
Record t : Type := mk {
  access_token : string;
  user_id : string;
  name : string;
  role : string;
  clinic_id : string
}.
End Response.

(** The user object handed to [setAuth]. *)
Module AuthUser.
Record t : Type := mk {
  user_id : string;
  name : string;
  email : string;
  role : string;
  clinic_id : string
}.
End AuthUser.

(** A JavaScript value of which the page only tests the truthiness: a
    string, or anything else ([undefined], [null], a number, a boolean, an
    array, an object), known by whether it is truthy. *)
Inductive Value : Type :=
| Str (s : string)
| Other (isTruthy : bool).





Record State : Type := mkState {
  email : string;
  password : string;
  loading : bool;
  error : Value
}.






End LoginPage.

(** ** The level meter as the specification words it *)

(** The arithmetic mean of the bin magnitudes. *)
Definition spec_mean (bins : list byte) : Q :=
  (inject_Z (fold_right Z.add 0%Z (map PatientPage.magnitude bins))
   / inject_Z (Z.of_nat (List.length bins)))%Q.

(** The fixed gain factor. *)
Definition spec_gain : Q := 1.5%Q.

(** Clamping to the closed interval from [lo] to [hi]. *)
Definition spec_clamp (lo hi x : Q) : Q := Qmax lo (Qmin hi x).

Definition spec_level (bins : list byte) : Q :=
  spec_clamp 0 100 (spec_mean bins * spec_gain)%Q.

(** ** Reading a trace *)

Definition is_reset_timer (c : Effect) : bool :=
  match c with SetTimeout ResetCallback _ => true | _ => false end.

(** The pipeline stage a request belongs to; timers and log lines belong to
    none. *)
Inductive Stage : Type :=
| creatingVisit
| requestingUploadTarget
| uploading
| requestingProcessing
| polling.

Definition stage_of (c : Effect) : option Stage :=
  match c with
  | CreateVisit _ => Some creatingVisit
  | GetUploadUrl _ _ => Some requestingUploadTarget
  | UploadToS3 _ _ => Some uploading
  | ProcessAudio _ _ => Some requestingProcessing
  | GetProcessingStatus _ => Some polling
  | SetTimeout _ _ | ConsoleError _ _ => None
  end.

Fixpoint stages (t : list Effect) : list Stage :=
  match t with
  | [] => []
  | c :: rest =>
      match stage_of c with
      | Some stage => stage :: stages rest
      | None => stages rest
      end
  end.

(** The stages before polling, in the order [uploadAndProcess] goes through
    them. *)
Definition setup_stages : list Stage :=
  [creatingVisit; requestingUploadTarget; uploading; requestingProcessing].

(** ** Concrete inputs

    A backend on which every setup request succeeds and whose status
    endpoint follows a script, and the state of a freshly mounted page. *)
Definition scripted (statuses : nat -> Settled string) : Api :=
  mkApi (fun _ => Resolved (mkVisit "visit-1"))
        (fun _ _ => Resolved (mkUploadData "https://bucket/upload" "audio/visit-1.webm"))
        (fun _ _ => Resolved tt)
        (fun _ _ => Resolved tt)
        (fun _ i => statuses i).

(** As [scripted], with an object store that refuses the bytes. *)
Definition store_down (e : JsError) (statuses : nat -> Settled string) : Api :=
  mkApi (fun _ => Resolved (mkVisit "visit-1"))
        (fun _ _ => Resolved (mkUploadData "https://bucket/upload" "audio/visit-1.webm"))
        (fun _ _ => Rejected e)
        (fun _ _ => Resolved tt)
        (fun _ i => statuses i).

Definition page_mounted : PatientPage.State :=
  PatientPage.mkState PatientPage.idle "" None "".

Definition part_mounted : Part000.State :=
  Part000.mkState false None "".

(** The [visitData] object [uploadAndProcess] sends to [createVisit], on
    both pages. *)
Definition visitData_of (user : option User.t) (language : string) (duration : nat)
  : VisitData.t :=
  VisitData.mk (or_default (option_map User.user_id user) "DEMO_PATIENT")
               (or_default (option_map User.clinic_id user) "CLINIC_DEMO")
               language duration.

(** * Properties *)

(** ** Runs and traces *)

Lemma result_prepend {S A : Type} (t : list Effect) (r : Run S A) :
  result (prepend t r) = result r.
Proof. destruct r. reflexivity. Qed.

Lemma final_prepend {S A : Type} (t : list Effect) (r : Run S A) :
  final (prepend t r) = final r.
Proof. destruct r. reflexivity. Qed.

Lemma trace_prepend {S A : Type} (t : list Effect) (r : Run S A) :
  trace (prepend t r) = (t ++ trace r)%list.
Proof. destruct r. reflexivity. Qed.

Lemma prepend_nil {S A : Type} (r : Run S A) : prepend [] r = r.
Proof. destruct r. reflexivity. Qed.

Lemma prepend_prepend {S A : Type} (t u : list Effect) (r : Run S A) :
  prepend t (prepend u r) = prepend (t ++ u)%list r.
Proof. destruct r. simpl. rewrite app_assoc. reflexivity. Qed.

Lemma count_app (p : Effect -> bool) (a b : list Effect) :
  count p (a ++ b)%list = count p a + count p b.
Proof. unfold count. rewrite filter_app, length_app. reflexivity. Qed.

Lemma count_prepend {S A : Type} (p : Effect -> bool) (t : list Effect) (r : Run S A) :
  count p (trace (prepend t r)) = count p t + count p (trace r).
Proof. rewrite trace_prepend. apply count_app. Qed.

(** ** Running the monad one step *)


Lemma bind_modify {S B : Type} (f : S -> S) (k : unit -> M S B) (s : S) :
  bind (modify f) k s = k tt (f s).
Proof. unfold bind, modify. apply prepend_nil. Qed.

Lemma bind_await_resolved {S A B : Type} (c : Effect) (a : A) (k : A -> M S B) (s : S) :
  bind (await c (Resolved a)) k s = prepend [c] (k a s).
Proof. reflexivity. Qed.

Lemma bind_await_rejected {S A B : Type} (c : Effect) (e : JsError)
      (k : A -> M S B) (s : S) :
  bind (await c (@Rejected A e)) k s = mkRun (Rejected e) s [c].
Proof. reflexivity. Qed.

Lemma bind_assoc {S A B C : Type} (m : M S A) (f : A -> M S B) (g : B -> M S C) (s : S) :
  bind (bind m f) g s = bind m (fun a => bind (f a) g) s.
Proof.
  unfold bind. destruct (m s) as [[a | e] s' t]; [| reflexivity].
  destruct (f a s') as [[b | e] s'' t']; [| reflexivity].
  simpl. destruct (g b s'') as [r s3 t3]. simpl. rewrite app_assoc. reflexivity.
Qed.

Lemma try_catch_resolved {S A : Type} (m : M S A) (h : JsError -> M S A) (s : S) (a : A) :
  result (m s) = Resolved a -> try_catch m h s = m s.
Proof.
  unfold try_catch. destruct (m s) as [[a' | e] s' t]; simpl; [reflexivity | discriminate].
Qed.

Lemma try_catch_prepend_rejected {S A : Type} (m : M S A) (h : JsError -> M S A)
      (s s' : S) (t : list Effect) (e : JsError) :
  m s = mkRun (Rejected e) s' t -> try_catch m h s = prepend t (h e s').
Proof. unfold try_catch. intros ->. reflexivity. Qed.

Lemma try_catch_trace_prefix {S A : Type} (m : M S A) (h : JsError -> M S A) (s : S) :
  exists t, trace (try_catch m h s) = (trace (m s) ++ t)%list.
Proof.
  unfold try_catch. destruct (m s) as [[a | e] s' t].
  - exists []. symmetry. apply app_nil_r.
  - exists (trace (h e s')). apply trace_prepend.
Qed.

(** ** Statuses *)

Lemma terminal_cases (status : string) :
  terminal status = true -> status = "COMPLETED" \/ status = "FAILED".
Proof.
  unfold terminal. intros H. apply orb_true_iff in H.
  destruct H as [H | H]; apply String.eqb_eq in H; auto.
Qed.

Lemma unrecognized_not_terminal (status : string) :
  recognized status = false -> terminal status = false.
Proof.
  unfold recognized. intros H. apply orb_false_iff in H. apply H.
Qed.

(** Splits on the [case] labels of the [switch] for a status that is a
    variable, and drops the combinations no string satisfies. *)
Ltac switch_on status :=
  let T := fresh "T" in
  let A := fresh "A" in
  let C := fresh "C" in
  let F := fresh "F" in
  unfold terminal, recognized in *;
  destruct (String.eqb status "TRANSCRIBING") eqn:T;
  [ apply String.eqb_eq in T; subst status
  | destruct (String.eqb status "ANALYZING") eqn:A;
    [ apply String.eqb_eq in A; subst status
    | destruct (String.eqb status "COMPLETED") eqn:C;
      [ apply String.eqb_eq in C; subst status
      | destruct (String.eqb status "FAILED") eqn:F;
        [ apply String.eqb_eq in F; subst status | ] ] ] ];
  simpl in *; try discriminate.

(** ** apps/web/app/patient/page.tsx: one iteration of the loop *)

Section PatientPageLoop.

Variable api : Api.
Variable visitId : string.

Lemma page_switch_pending (status : string) (s : PatientPage.State) :
  terminal status = false ->
  PatientPage.switch_status status s
  = mkRun (Resolved Next) (final (PatientPage.switch_status status s)) [].
Proof.
  intros H. unfold PatientPage.switch_status.
  switch_on status; reflexivity.
Qed.

Lemma page_switch_unrecognized (status : string) (s : PatientPage.State) :
  recognized status = false ->
  PatientPage.switch_status status s = mkRun (Resolved Next) s [].
Proof.
  intros H. unfold PatientPage.switch_status.
  switch_on status; reflexivity.
Qed.

Lemma page_attempt_rejected (i : nat) (s : PatientPage.State) (e : JsError) :
  getProcessingStatus api visitId i = Rejected e ->
  PatientPage.poll_attempt api visitId i s
  = mkRun (Resolved Next) s
      [GetProcessingStatus visitId; ConsoleError "Error polling status:" e].
Proof.
  intros G. unfold PatientPage.poll_attempt.
  rewrite (try_catch_prepend_rejected _ _ s s [GetProcessingStatus visitId] e).
  - reflexivity.
  - rewrite G. reflexivity.
Qed.

Lemma page_attempt_pending (i : nat) (s : PatientPage.State) (status : string) :
  getProcessingStatus api visitId i = Resolved status ->
  terminal status = false ->
  PatientPage.poll_attempt api visitId i s
  = mkRun (Resolved Next) (final (PatientPage.switch_status status s))
      [GetProcessingStatus visitId; SetTimeout Sleep 2000].
Proof.
  intros G T. unfold PatientPage.poll_attempt.
  rewrite (try_catch_resolved _ _ s Next);
    rewrite G, bind_await_resolved; unfold bind at 1;
    rewrite (page_switch_pending status s T); reflexivity.
Qed.

Lemma page_attempt_completed (i : nat) (s : PatientPage.State) :
  getProcessingStatus api visitId i = Resolved "COMPLETED" ->
  PatientPage.poll_attempt api visitId i s
  = mkRun (Resolved Return) (PatientPage.mkState PatientPage.speaking
       "Your doctor will review this shortly" (PatientPage.visitId s) "Complete!")
      [GetProcessingStatus visitId; SetTimeout ResetCallback 4000].
Proof.
  intros G. unfold PatientPage.poll_attempt.
  rewrite (try_catch_resolved _ _ s Return); rewrite G; reflexivity.
Qed.

Lemma page_attempt_failed (i : nat) (s : PatientPage.State) :
  getProcessingStatus api visitId i = Resolved "FAILED" ->
  PatientPage.poll_attempt api visitId i s
  = mkRun (Resolved Return) (PatientPage.mkState PatientPage.error
       "Processing failed. Please try again." (PatientPage.visitId s)
       (PatientPage.processingStage s))
      [GetProcessingStatus visitId].
Proof.
  intros G. unfold PatientPage.poll_attempt.
  rewrite (try_catch_resolved _ _ s Return); rewrite G; reflexivity.
Qed.

Lemma page_loop_step (n i : nat) (s : PatientPage.State) :
  PatientPage.poll_loop api visitId (S n) i s
  = bind (PatientPage.poll_attempt api visitId i)
         (fun flow =>
            match flow with
            | Return => ret Return
            | Next => PatientPage.poll_loop api visitId n (S i)
            end) s.
Proof. reflexivity. Qed.

Lemma page_loop_rejected (n i : nat) (s : PatientPage.State) (e : JsError) :
  getProcessingStatus api visitId i = Rejected e ->
  PatientPage.poll_loop api visitId (S n) i s =
  prepend [GetProcessingStatus visitId; ConsoleError "Error polling status:" e]
          (PatientPage.poll_loop api visitId n (S i) s).
Proof.
  intros G. rewrite page_loop_step. unfold bind.
  rewrite (page_attempt_rejected i s e G). reflexivity.
Qed.

Lemma page_loop_pending (n i : nat) (s : PatientPage.State) (status : string) :
  getProcessingStatus api visitId i = Resolved status ->
  terminal status = false ->
  PatientPage.poll_loop api visitId (S n) i s =
  prepend [GetProcessingStatus visitId; SetTimeout Sleep 2000]
          (PatientPage.poll_loop api visitId n (S i)
             (final (PatientPage.switch_status status s))).
Proof.
  intros G T. rewrite page_loop_step. unfold bind.
  rewrite (page_attempt_pending i s status G T). reflexivity.
Qed.

Lemma page_loop_completed (n i : nat) (s : PatientPage.State) :
  getProcessingStatus api visitId i = Resolved "COMPLETED" ->
  PatientPage.poll_loop api visitId (S n) i s =
  mkRun (Resolved Return) (PatientPage.mkState PatientPage.speaking
       "Your doctor will review this shortly" (PatientPage.visitId s) "Complete!")
        [GetProcessingStatus visitId; SetTimeout ResetCallback 4000].
Proof.
  intros G. rewrite page_loop_step. unfold bind.
  rewrite (page_attempt_completed i s G). reflexivity.
Qed.

Lemma page_loop_failed (n i : nat) (s : PatientPage.State) :
  getProcessingStatus api visitId i = Resolved "FAILED" ->
  PatientPage.poll_loop api visitId (S n) i s =
  mkRun (Resolved Return) (PatientPage.mkState PatientPage.error
       "Processing failed. Please try again." (PatientPage.visitId s)
       (PatientPage.processingStage s))
        [GetProcessingStatus visitId].
Proof.
  intros G. rewrite page_loop_step. unfold bind.
  rewrite (page_attempt_failed i s G). reflexivity.
Qed.

End PatientPageLoop.

(** ** unnamed/part_000: one iteration of the loop *)

Section Part000Loop.

Variable api : Api.
Variable visitId : string.

Lemma part_switch_pending (status : string) (s : Part000.State) :
  terminal status = false ->
  Part000.switch_status status s
  = mkRun (Resolved Next) (final (Part000.switch_status status s)) [].
Proof.
  intros H. unfold Part000.switch_status.
  switch_on status; reflexivity.
Qed.

Lemma part_switch_unrecognized (status : string) (s : Part000.State) :
  recognized status = false ->
  Part000.switch_status status s = mkRun (Resolved Next) s [].
Proof.
  intros H. unfold Part000.switch_status.
  switch_on status; reflexivity.
Qed.

Lemma part_attempt_rejected (i : nat) (s : Part000.State) (e : JsError) :
  getProcessingStatus api visitId i = Rejected e ->
  Part000.poll_attempt api visitId i s
  = mkRun (Resolved Next) s
      [GetProcessingStatus visitId; ConsoleError "Error polling status:" e].
Proof.
  intros G. unfold Part000.poll_attempt.
  rewrite (try_catch_prepend_rejected _ _ s s [GetProcessingStatus visitId] e).
  - reflexivity.
  - rewrite G. reflexivity.
Qed.

Lemma part_attempt_pending (i : nat) (s : Part000.State) (status : string) :
  getProcessingStatus api visitId i = Resolved status ->
  terminal status = false ->
  Part000.poll_attempt api visitId i s
  = mkRun (Resolved Next) (final (Part000.switch_status status s))
      [GetProcessingStatus visitId; SetTimeout Sleep 2000].
Proof.
  intros G T. unfold Part000.poll_attempt.
  rewrite (try_catch_resolved _ _ s Next);
    rewrite G, bind_await_resolved; unfold bind at 1;
    rewrite (part_switch_pending status s T); reflexivity.
Qed.

Lemma part_attempt_completed (i : nat) (s : Part000.State) :
  getProcessingStatus api visitId i = Resolved "COMPLETED" ->
  Part000.poll_attempt api visitId i s
  = mkRun (Resolved Return) (Part000.mkState (Part000.uploading s) (Part000.visitId s)
       "✅ Complete! Your doctor will review this shortly.")
      [GetProcessingStatus visitId; SetTimeout ResetCallback 3000].
Proof.
  intros G. unfold Part000.poll_attempt.
  rewrite (try_catch_resolved _ _ s Return); rewrite G; reflexivity.
Qed.

Lemma part_attempt_failed (i : nat) (s : Part000.State) :
  getProcessingStatus api visitId i = Resolved "FAILED" ->
  Part000.poll_attempt api visitId i s
  = mkRun (Resolved Return) (Part000.mkState false (Part000.visitId s)
       "❌ Processing failed. Please try again.")
      [GetProcessingStatus visitId].
Proof.
  intros G. unfold Part000.poll_attempt.
  rewrite (try_catch_resolved _ _ s Return); rewrite G; reflexivity.
Qed.

Lemma part_loop_step (n i : nat) (s : Part000.State) :
  Part000.poll_loop api visitId (S n) i s
  = bind (Part000.poll_attempt api visitId i)
         (fun flow =>
            match flow with
            | Return => ret Return
            | Next => Part000.poll_loop api visitId n (S i)
            end) s.
Proof. reflexivity. Qed.

Lemma part_loop_rejected (n i : nat) (s : Part000.State) (e : JsError) :
  getProcessingStatus api visitId i = Rejected e ->
  Part000.poll_loop api visitId (S n) i s =
  prepend [GetProcessingStatus visitId; ConsoleError "Error polling status:" e]
          (Part000.poll_loop api visitId n (S i) s).
Proof.
  intros G. rewrite part_loop_step. unfold bind.
  rewrite (part_attempt_rejected i s e G). reflexivity.
Qed.

Lemma part_loop_pending (n i : nat) (s : Part000.State) (status : string) :
  getProcessingStatus api visitId i = Resolved status ->
  terminal status = false ->
  Part000.poll_loop api visitId (S n) i s =
  prepend [GetProcessingStatus visitId; SetTimeout Sleep 2000]
          (Part000.poll_loop api visitId n (S i)
             (final (Part000.switch_status status s))).
Proof.
  intros G T. rewrite part_loop_step. unfold bind.
  rewrite (part_attempt_pending i s status G T). reflexivity.
Qed.

Lemma part_loop_completed (n i : nat) (s : Part000.State) :
  getProcessingStatus api visitId i = Resolved "COMPLETED" ->
  Part000.poll_loop api visitId (S n) i s =
  mkRun (Resolved Return) (Part000.mkState (Part000.uploading s) (Part000.visitId s)
       "✅ Complete! Your doctor will review this shortly.")
        [GetProcessingStatus visitId; SetTimeout ResetCallback 3000].
Proof.
  intros G. rewrite part_loop_step. unfold bind.
  rewrite (part_attempt_completed i s G). reflexivity.
Qed.

Lemma part_loop_failed (n i : nat) (s : Part000.State) :
  getProcessingStatus api visitId i = Resolved "FAILED" ->
  Part000.poll_loop api visitId (S n) i s =
  mkRun (Resolved Return) (Part000.mkState false (Part000.visitId s)
       "❌ Processing failed. Please try again.")
        [GetProcessingStatus visitId].
Proof.
  intros G. rewrite part_loop_step. unfold bind.
  rewrite (part_attempt_failed i s G). reflexivity.
Qed.

End Part000Loop.

(** ** The loop never throws, and a status source that never ends it *)

Lemma page_loop_resolved (api : Api) (visitId : string) (n : nat) :
  forall (i : nat) (s : PatientPage.State),
    exists flow, result (PatientPage.poll_loop api visitId n i s) = Resolved flow.
Proof.
  induction n as [| n IH]; intros i s.
  - exists Next. reflexivity.
  - destruct (getProcessingStatus api visitId i) as [status | e] eqn:G.
    + destruct (terminal status) eqn:T.
      * destruct (terminal_cases status T); subst status.
        -- rewrite (page_loop_completed api visitId n i s G). eexists; reflexivity.
        -- rewrite (page_loop_failed api visitId n i s G). eexists; reflexivity.
      * rewrite (page_loop_pending api visitId n i s status G T).
        rewrite result_prepend. apply IH.
    + rewrite (page_loop_rejected api visitId n i s e G).
      rewrite result_prepend. apply IH.
Qed.

Lemma page_poll_resolved (api : Api) (visitId : string) (retries : nat)
      (s : PatientPage.State) :
  result (PatientPage.pollProcessingStatus api visitId retries s) = Resolved tt.
Proof.
  unfold PatientPage.pollProcessingStatus, bind.
  destruct (page_loop_resolved api visitId retries 0 s) as [flow R].
  destruct (PatientPage.poll_loop api visitId retries 0 s) as [res s' t].
  simpl in R. subst res. destruct flow; reflexivity.
Qed.

Lemma page_poll_trace (api : Api) (visitId : string) (retries : nat)
      (s : PatientPage.State) :
  trace (PatientPage.pollProcessingStatus api visitId retries s) =
  trace (PatientPage.poll_loop api visitId retries 0 s).
Proof.
  unfold PatientPage.pollProcessingStatus, bind.
  destruct (page_loop_resolved api visitId retries 0 s) as [flow R].
  destruct (PatientPage.poll_loop api visitId retries 0 s) as [res s' t].
  simpl in R. subst res. destruct flow; simpl; apply app_nil_r.
Qed.

Lemma page_loop_exhausts (api : Api) (visitId : string) (n : nat) :
  forall (i : nat) (s : PatientPage.State),
    (forall k, k < n -> nonterminal (getProcessingStatus api visitId (i + k)) = true) ->
    result (PatientPage.poll_loop api visitId n i s) = Resolved Next /\
    count is_status_query (trace (PatientPage.poll_loop api visitId n i s)) = n.
Proof.
  induction n as [| n IH]; intros i s H.
  - split; reflexivity.
  - assert (H0 : nonterminal (getProcessingStatus api visitId i) = true).
    { rewrite <- (Nat.add_0_r i). apply H. lia. }
    assert (HS : forall k, k < n ->
                 nonterminal (getProcessingStatus api visitId (S i + k)) = true).
    { intros k Hk. replace (S i + k) with (i + S k) by lia. apply H. lia. }
    destruct (getProcessingStatus api visitId i) as [status | e] eqn:G.
    + simpl in H0. apply negb_true_iff in H0.
      rewrite (page_loop_pending api visitId n i s status G H0).
      rewrite result_prepend, count_prepend.
      destruct (IH (S i) (final (PatientPage.switch_status status s)) HS) as [R C].
      split; [exact R | rewrite C; reflexivity].
    + rewrite (page_loop_rejected api visitId n i s e G).
      rewrite result_prepend, count_prepend.
      destruct (IH (S i) s HS) as [R C].
      split; [exact R | rewrite C; reflexivity].
Qed.

Lemma part_loop_resolved (api : Api) (visitId : string) (n : nat) :
  forall (i : nat) (s : Part000.State),
    exists flow, result (Part000.poll_loop api visitId n i s) = Resolved flow.
Proof.
  induction n as [| n IH]; intros i s.
  - exists Next. reflexivity.
  - destruct (getProcessingStatus api visitId i) as [status | e] eqn:G.
    + destruct (terminal status) eqn:T.
      * destruct (terminal_cases status T); subst status.
        -- rewrite (part_loop_completed api visitId n i s G). eexists; reflexivity.
        -- rewrite (part_loop_failed api visitId n i s G). eexists; reflexivity.
      * rewrite (part_loop_pending api visitId n i s status G T).
        rewrite result_prepend. apply IH.
    + rewrite (part_loop_rejected api visitId n i s e G).
      rewrite result_prepend. apply IH.
Qed.

Lemma part_poll_resolved (api : Api) (visitId : string) (retries : nat)
      (s : Part000.State) :
  result (Part000.pollProcessingStatus api visitId retries s) = Resolved tt.
Proof.
  unfold Part000.pollProcessingStatus, bind.
  destruct (part_loop_resolved api visitId retries 0 s) as [flow R].
  destruct (Part000.poll_loop api visitId retries 0 s) as [res s' t].
  simpl in R. subst res. destruct flow; reflexivity.
Qed.

Lemma part_poll_trace (api : Api) (visitId : string) (retries : nat)
      (s : Part000.State) :
  trace (Part000.pollProcessingStatus api visitId retries s) =
  trace (Part000.poll_loop api visitId retries 0 s).
Proof.
  unfold Part000.pollProcessingStatus, bind.
  destruct (part_loop_resolved api visitId retries 0 s) as [flow R].
  destruct (Part000.poll_loop api visitId retries 0 s) as [res s' t].
  simpl in R. subst res. destruct flow; simpl; apply app_nil_r.
Qed.

Lemma part_loop_exhausts (api : Api) (visitId : string) (n : nat) :
  forall (i : nat) (s : Part000.State),
    (forall k, k < n -> nonterminal (getProcessingStatus api visitId (i + k)) = true) ->
    result (Part000.poll_loop api visitId n i s) = Resolved Next /\
    count is_status_query (trace (Part000.poll_loop api visitId n i s)) = n.
Proof.
  induction n as [| n IH]; intros i s H.
  - split; reflexivity.
  - assert (H0 : nonterminal (getProcessingStatus api visitId i) = true).
    { rewrite <- (Nat.add_0_r i). apply H. lia. }
    assert (HS : forall k, k < n ->
                 nonterminal (getProcessingStatus api visitId (S i + k)) = true).
    { intros k Hk. replace (S i + k) with (i + S k) by lia. apply H. lia. }
    destruct (getProcessingStatus api visitId i) as [status | e] eqn:G.
    + simpl in H0. apply negb_true_iff in H0.
      rewrite (part_loop_pending api visitId n i s status G H0).
      rewrite result_prepend, count_prepend.
      destruct (IH (S i) (final (Part000.switch_status status s)) HS) as [R C].
      split; [exact R | rewrite C; reflexivity].
    + rewrite (part_loop_rejected api visitId n i s e G).
      rewrite result_prepend, count_prepend.
      destruct (IH (S i) s HS) as [R C].
      split; [exact R | rewrite C; reflexivity].
Qed.

Lemma page_poll_times_out (api : Api) (visitId : string) (retries : nat)
      (s : PatientPage.State) :
  (forall i, i < retries -> nonterminal (getProcessingStatus api visitId i) = true) ->
  count is_status_query
    (trace (PatientPage.pollProcessingStatus api visitId retries s)) = retries /\
  final (PatientPage.pollProcessingStatus api visitId retries s)
  = PatientPage.mkState PatientPage.idle "Processing taking longer than expected."
      (PatientPage.visitId
         (final (PatientPage.poll_loop api visitId retries 0 s)))
      (PatientPage.processingStage
         (final (PatientPage.poll_loop api visitId retries 0 s))).
Proof.
  intros H.
  destruct (page_loop_exhausts api visitId retries 0 s H) as [R C].
  split; [rewrite page_poll_trace; exact C |].
  unfold PatientPage.pollProcessingStatus, bind.
  destruct (PatientPage.poll_loop api visitId retries 0 s) as [res s' t].
  simpl in R. subst res. reflexivity.
Qed.

Lemma part_poll_times_out (api : Api) (visitId : string) (retries : nat)
      (s : Part000.State) :
  (forall i, i < retries -> nonterminal (getProcessingStatus api visitId i) = true) ->
  count is_status_query
    (trace (Part000.pollProcessingStatus api visitId retries s)) = retries /\
  final (Part000.pollProcessingStatus api visitId retries s)
  = Part000.mkState false
      (Part000.visitId (final (Part000.poll_loop api visitId retries 0 s)))
      "Processing taking longer than expected. The doctor will be notified.".
Proof.
  intros H.
  destruct (part_loop_exhausts api visitId retries 0 s H) as [R C].
  split; [rewrite part_poll_trace; exact C |].
  unfold Part000.pollProcessingStatus, bind.
  destruct (Part000.poll_loop api visitId retries 0 s) as [res s' t].
  simpl in R. subst res. reflexivity.
Qed.

(** C2.  When no poll attempt ends the loop (every request throws or
    returns a status other than [COMPLETED] and [FAILED]),
    [pollProcessingStatus] issues exactly [retries] status requests and
    then shows the timed-out outcome, which is not the failed one.  Holds
    for both pages. *)
Theorem poll_exhausted_times_out
        (api : Api) (visitId : string) (retries : nat)
        (s1 : PatientPage.State) (s2 : Part000.State) :
  (forall i, i < retries -> nonterminal (getProcessingStatus api visitId i) = true) ->
  (result (PatientPage.pollProcessingStatus api visitId retries s1) = Resolved tt /\
   count is_status_query
     (trace (PatientPage.pollProcessingStatus api visitId retries s1)) = retries /\
   PatientPage.outcome
     (final (PatientPage.pollProcessingStatus api visitId retries s1)) = Some timedOut /\
   PatientPage.voiceState
     (final (PatientPage.pollProcessingStatus api visitId retries s1))
     <> PatientPage.error) /\
  (result (Part000.pollProcessingStatus api visitId retries s2) = Resolved tt /\
   count is_status_query
     (trace (Part000.pollProcessingStatus api visitId retries s2)) = retries /\
   Part000.outcome
     (final (Part000.pollProcessingStatus api visitId retries s2)) = Some timedOut /\
   forall m, Part000.outcome
     (final (Part000.pollProcessingStatus api visitId retries s2)) <> Some (failed m)).
Proof.
  intros H. split.
  - destruct (page_poll_times_out api visitId retries s1 H) as [C F].
    split; [apply page_poll_resolved |]. split; [exact C |].
    rewrite F. split; [reflexivity | discriminate].
  - destruct (part_poll_times_out api visitId retries s2 H) as [C F].
    split; [apply part_poll_resolved |]. split; [exact C |].
    rewrite F. split; [reflexivity | discriminate].
Qed.

Lemma poll_exhausted_times_out_witness :
  count is_status_query
    (trace (PatientPage.pollProcessingStatus
              (scripted (fun _ => Resolved "TRANSCRIBING")) "visit-1" 30 page_mounted))
  = 30 /\
  PatientPage.outcome
    (final (PatientPage.pollProcessingStatus
              (scripted (fun _ => Resolved "TRANSCRIBING")) "visit-1" 30 page_mounted))
  = Some timedOut.
Proof.
  destruct (poll_exhausted_times_out
              (scripted (fun _ => Resolved "TRANSCRIBING")) "visit-1" 30
              page_mounted part_mounted) as [(_ & C & O & _) _].
  - intros i Hi. reflexivity.
  - split; [exact C | exact O].
Defined.

(** ** [uploadAndProcess] up to the hand-over to the polling loop *)

Section Setup.

Variable api : Api.
Variable user : option User.t.
Variable blob : Blob.
Variable duration : nat.
Variable language : string.

Lemma page_upload_hands_over (v : Visit) (u : UploadData) (s : PatientPage.State) :
  createVisit api (visitData_of user language duration) = Resolved v ->
  getUploadUrl api (visit_id v) "webm" = Resolved u ->
  uploadToS3 api (upload_url u) blob = Resolved tt ->
  processAudio api (visit_id v) (audio_s3_key u) = Resolved tt ->
  PatientPage.uploadAndProcess api
    (PatientPage.mkProps user (Some blob) duration language) s =
  prepend [CreateVisit (visitData_of user language duration);
           GetUploadUrl (visit_id v) "webm";
           UploadToS3 (upload_url u) blob;
           ProcessAudio (visit_id v) (audio_s3_key u)]
    (PatientPage.pollProcessingStatus api (visit_id v) default_retries 
       (PatientPage.mkState PatientPage.processing (PatientPage.statusMessage s)
          (Some (visit_id v)) "Starting AI analysis...")).
Proof.
  intros Hc Hg Hu Hp. unfold visitData_of in *.
  unfold PatientPage.uploadAndProcess.
  cbn [PatientPage.audioBlob PatientPage.user PatientPage.duration PatientPage.language].
  unfold PatientPage.setVoiceState, PatientPage.setProcessingStage, PatientPage.setVisitId,
    PatientPage.setStatusMessage.
  rewrite !bind_modify.
  match goal with
  | |- try_catch ?m ?h ?s0 = ?rhs =>
      assert (E : m s0 = rhs);
      [ | rewrite (try_catch_resolved m h s0 tt);
          [ exact E | rewrite E, result_prepend; apply page_poll_resolved ] ]
  end.
  cbv zeta.
  rewrite Hc, bind_await_resolved, !bind_modify.
  rewrite Hg, bind_await_resolved.
  rewrite Hu, bind_await_resolved, bind_modify.
  rewrite Hp, bind_await_resolved.
  rewrite !prepend_prepend. reflexivity.
Qed.

Lemma part_upload_hands_over (v : Visit) (u : UploadData) (s : Part000.State) :
  createVisit api (visitData_of user language duration) = Resolved v ->
  getUploadUrl api (visit_id v) "webm" = Resolved u ->
  uploadToS3 api (upload_url u) blob = Resolved tt ->
  processAudio api (visit_id v) (audio_s3_key u) = Resolved tt ->
  Part000.uploadAndProcess api
    (Part000.mkProps user (Some blob) duration language) s =
  prepend [CreateVisit (visitData_of user language duration);
           GetUploadUrl (visit_id v) "webm";
           UploadToS3 (upload_url u) blob;
           ProcessAudio (visit_id v) (audio_s3_key u)]
    (Part000.pollProcessingStatus api (visit_id v) default_retries 
       (Part000.mkState true (Some (visit_id v)) "🚀 Starting AI analysis...")).
Proof.
  intros Hc Hg Hu Hp. unfold visitData_of in *.
  unfold Part000.uploadAndProcess.
  cbn [Part000.audioBlob Part000.user Part000.duration Part000.language].
  unfold Part000.setUploading, Part000.setProcessingStatus, Part000.setVisitId.
  rewrite !bind_modify.
  match goal with
  | |- try_catch ?m ?h ?s0 = ?rhs =>
      assert (E : m s0 = rhs);
      [ | rewrite (try_catch_resolved m h s0 tt);
          [ exact E | rewrite E, result_prepend; apply part_poll_resolved ] ]
  end.
  cbv zeta.
  rewrite Hc, bind_await_resolved, !bind_modify.
  rewrite Hg, bind_await_resolved, bind_modify.
  rewrite Hu, bind_await_resolved, bind_modify.
  rewrite Hp, bind_await_resolved.
  rewrite !prepend_prepend. reflexivity.
Qed.

Lemma page_upload_store_fails (v : Visit) (u : UploadData) (e : JsError)
      (s : PatientPage.State) :
  createVisit api (visitData_of user language duration) = Resolved v ->
  getUploadUrl api (visit_id v) "webm" = Resolved u ->
  uploadToS3 api (upload_url u) blob = Rejected e ->
  PatientPage.uploadAndProcess api
    (PatientPage.mkProps user (Some blob) duration language) s =
  mkRun (Resolved tt) 
    (PatientPage.mkState PatientPage.error
       (or_default (message e) "Upload failed")
       (Some (visit_id v)) "Uploading audio...")
    [CreateVisit (visitData_of user language duration);
     GetUploadUrl (visit_id v) "webm";
     UploadToS3 (upload_url u) blob; ConsoleError "Upload error:" e].
Proof.
  intros Hc Hg Hu. unfold visitData_of in *.
  unfold PatientPage.uploadAndProcess.
  cbn [PatientPage.audioBlob PatientPage.user PatientPage.duration PatientPage.language].
  unfold PatientPage.setVoiceState, PatientPage.setProcessingStage, PatientPage.setVisitId,
    PatientPage.setStatusMessage.
  rewrite !bind_modify.
  match goal with
  | |- try_catch ?m ?h ?s0 = _ =>
      assert (E : m s0 = mkRun (Rejected e) 
                    (PatientPage.mkState PatientPage.processing
                       (PatientPage.statusMessage s) (Some (visit_id v))
                       "Uploading audio...")
                    [CreateVisit
                       (VisitData.mk
                          (or_default (option_map User.user_id user) "DEMO_PATIENT")
                          (or_default (option_map User.clinic_id user) "CLINIC_DEMO")
                          language duration);
                     GetUploadUrl (visit_id v) "webm";
                     UploadToS3 (upload_url u) blob]);
      [ | rewrite (try_catch_prepend_rejected m h s0 _ _ e E) ]
  end.
  - cbv zeta.
    rewrite Hc, bind_await_resolved, !bind_modify.
    rewrite Hg, bind_await_resolved.
    rewrite Hu, bind_await_rejected. reflexivity.
  - reflexivity.
Qed.

Lemma part_upload_store_fails (v : Visit) (u : UploadData) (e : JsError)
      (s : Part000.State) :
  createVisit api (visitData_of user language duration) = Resolved v ->
  getUploadUrl api (visit_id v) "webm" = Resolved u ->
  uploadToS3 api (upload_url u) blob = Rejected e ->
  Part000.uploadAndProcess api
    (Part000.mkProps user (Some blob) duration language) s =
  mkRun (Resolved tt) 
    (Part000.mkState false (Some (visit_id v))
       ("❌ Error: " ++ or_default (message e) "Upload failed"))
    [CreateVisit (visitData_of user language duration);
     GetUploadUrl (visit_id v) "webm";
     UploadToS3 (upload_url u) blob; ConsoleError "Upload error:" e].
Proof.
  intros Hc Hg Hu. unfold visitData_of in *.
  unfold Part000.uploadAndProcess.
  cbn [Part000.audioBlob Part000.user Part000.duration Part000.language].
  unfold Part000.setUploading, Part000.setProcessingStatus, Part000.setVisitId.
  rewrite !bind_modify.
  match goal with
  | |- try_catch ?m ?h ?s0 = _ =>
      assert (E : m s0 = mkRun (Rejected e) 
                    (Part000.mkState true (Some (visit_id v))
                       "📤 Uploading audio...")
                    [CreateVisit
                       (VisitData.mk
                          (or_default (option_map User.user_id user) "DEMO_PATIENT")
                          (or_default (option_map User.clinic_id user) "CLINIC_DEMO")
                          language duration);
                     GetUploadUrl (visit_id v) "webm";
                     UploadToS3 (upload_url u) blob]);
      [ | rewrite (try_catch_prepend_rejected m h s0 _ _ e E) ]
  end.
  - cbv zeta.
    rewrite Hc, bind_await_resolved, !bind_modify.
    rewrite Hg, bind_await_resolved, bind_modify.
    rewrite Hu, bind_await_rejected. reflexivity.
  - reflexivity.
Qed.

End Setup.

Lemma or_default_message (a : option string) (m d : string) :
  a = Some m -> m <> "" -> or_default a d = m.
Proof.
  intros -> H. unfold or_default.
  destruct (String.eqb_spec m ""); [contradiction | reflexivity].
Qed.

(** C7.  When visit creation and the upload-target request succeed and the
    transfer to the object store fails, [uploadAndProcess] ends in the
    failed outcome carrying the message of that error (its fallback text
    when the error has none), after the three setup calls and the log
    line: no processing trigger and no status request is issued.  Holds
    for both pages. *)
Theorem upload_failure_fails_before_polling
        (api : Api) (user : option User.t) (blob : Blob) (duration : nat)
        (language : string) (v : Visit) (u : UploadData) (e : JsError)
        (s1 : PatientPage.State) (s2 : Part000.State) :
  createVisit api (visitData_of user language duration) = Resolved v ->
  getUploadUrl api (visit_id v) "webm" = Resolved u ->
  uploadToS3 api (upload_url u) blob = Rejected e ->
  (PatientPage.outcome
     (final (PatientPage.uploadAndProcess api
               (PatientPage.mkProps user (Some blob) duration language) s1))
   = Some (failed (or_default (message e) "Upload failed")) /\
   (forall m, message e = Some m -> m <> "" ->
      PatientPage.outcome
        (final (PatientPage.uploadAndProcess api
                  (PatientPage.mkProps user (Some blob) duration language) s1))
      = Some (failed m)) /\
   trace (PatientPage.uploadAndProcess api
            (PatientPage.mkProps user (Some blob) duration language) s1)
   = [CreateVisit (visitData_of user language duration);
      GetUploadUrl (visit_id v) "webm"; UploadToS3 (upload_url u) blob;
      ConsoleError "Upload error:" e] /\
   count is_status_query
     (trace (PatientPage.uploadAndProcess api
               (PatientPage.mkProps user (Some blob) duration language) s1)) = 0) /\
  (Part000.outcome
     (final (Part000.uploadAndProcess api
               (Part000.mkProps user (Some blob) duration language) s2))
   = Some (failed ("❌ Error: " ++ or_default (message e) "Upload failed")) /\
   (forall m, message e = Some m -> m <> "" ->
      Part000.outcome
        (final (Part000.uploadAndProcess api
                  (Part000.mkProps user (Some blob) duration language) s2))
      = Some (failed ("❌ Error: " ++ m))) /\
   trace (Part000.uploadAndProcess api
            (Part000.mkProps user (Some blob) duration language) s2)
   = [CreateVisit (visitData_of user language duration);
      GetUploadUrl (visit_id v) "webm"; UploadToS3 (upload_url u) blob;
      ConsoleError "Upload error:" e] /\
   count is_status_query
     (trace (Part000.uploadAndProcess api
               (Part000.mkProps user (Some blob) duration language) s2)) = 0).
Proof.
  intros Hc Hg Hu. split.
  - rewrite (page_upload_store_fails api user blob duration language v u e s1 Hc Hg Hu).
    repeat split.
    intros m Hm Hne. cbn [final]. unfold PatientPage.outcome.
    cbn [PatientPage.voiceState PatientPage.statusMessage].
    rewrite (or_default_message _ m _ Hm Hne). reflexivity.
  - rewrite (part_upload_store_fails api user blob duration language v u e s2 Hc Hg Hu).
    repeat split.
    intros m Hm Hne. cbn [final]. unfold Part000.outcome.
    cbn [Part000.processingStatus].
    rewrite (or_default_message _ m _ Hm Hne). reflexivity.
Qed.

Lemma upload_failure_fails_before_polling_witness :
  PatientPage.outcome
    (final (PatientPage.uploadAndProcess
              (store_down (mkError (Some "Network Error")) (fun _ => Resolved "COMPLETED"))
              (PatientPage.mkProps None (Some ["x"%byte]) 4 "hi-IN") page_mounted))
  = Some (failed "Network Error") /\
  count is_status_query
    (trace (PatientPage.uploadAndProcess
              (store_down (mkError (Some "Network Error")) (fun _ => Resolved "COMPLETED"))
              (PatientPage.mkProps None (Some ["x"%byte]) 4 "hi-IN") page_mounted))
  = 0.
Proof.
  destruct (upload_failure_fails_before_polling
              (store_down (mkError (Some "Network Error")) (fun _ => Resolved "COMPLETED"))
              None ["x"%byte] 4 "hi-IN"
              (mkVisit "visit-1")
              (mkUploadData "https://bucket/upload" "audio/visit-1.webm")
              (mkError (Some "Network Error")) page_mounted part_mounted)
    as [(O & _ & _ & C) _].
  - reflexivity.
  - reflexivity.
  - reflexivity.
  - split; [exact O | exact C].
Defined.

(** ** The retry budget of a submission

    [uploadAndProcess] calls [pollProcessingStatus] without a second
    argument, so the budget is the default of 30: when the setup calls
    succeed and no attempt ends the loop, 30 status requests are made and
    the page shows the timed-out outcome. *)
Lemma page_submit_default_budget
      (api : Api) (user : option User.t) (blob : Blob) (duration : nat)
      (language : string) (v : Visit) (u : UploadData) (s : PatientPage.State) :
  createVisit api (visitData_of user language duration) = Resolved v ->
  getUploadUrl api (visit_id v) "webm" = Resolved u ->
  uploadToS3 api (upload_url u) blob = Resolved tt ->
  processAudio api (visit_id v) (audio_s3_key u) = Resolved tt ->
  (forall i, i < 30 -> nonterminal (getProcessingStatus api (visit_id v) i) = true) ->
  count is_status_query
    (trace (PatientPage.uploadAndProcess api
              (PatientPage.mkProps user (Some blob) duration language) s)) = 30 /\
  PatientPage.outcome
    (final (PatientPage.uploadAndProcess api
              (PatientPage.mkProps user (Some blob) duration language) s))
  = Some timedOut.
Proof.
  intros Hc Hg Hu Hp H.
  rewrite (page_upload_hands_over api user blob duration language v u s Hc Hg Hu Hp).
  rewrite count_prepend, final_prepend.
  match goal with
  | |- context [PatientPage.pollProcessingStatus _ _ _ ?s0] =>
      destruct (page_poll_times_out api (visit_id v) default_retries s0 H) as [C F]
  end.
  rewrite C, F. split; reflexivity.
Qed.

Lemma part_submit_default_budget
      (api : Api) (user : option User.t) (blob : Blob) (duration : nat)
      (language : string) (v : Visit) (u : UploadData) (s : Part000.State) :
  createVisit api (visitData_of user language duration) = Resolved v ->
  getUploadUrl api (visit_id v) "webm" = Resolved u ->
  uploadToS3 api (upload_url u) blob = Resolved tt ->
  processAudio api (visit_id v) (audio_s3_key u) = Resolved tt ->
  (forall i, i < 30 -> nonterminal (getProcessingStatus api (visit_id v) i) = true) ->
  count is_status_query
    (trace (Part000.uploadAndProcess api
              (Part000.mkProps user (Some blob) duration language) s)) = 30 /\
  Part000.outcome
    (final (Part000.uploadAndProcess api
              (Part000.mkProps user (Some blob) duration language) s))
  = Some timedOut.
Proof.
  intros Hc Hg Hu Hp H.
  rewrite (part_upload_hands_over api user blob duration language v u s Hc Hg Hu Hp).
  rewrite count_prepend, final_prepend.
  match goal with
  | |- context [Part000.pollProcessingStatus _ _ _ ?s0] =>
      destruct (part_poll_times_out api (visit_id v) default_retries s0 H) as [C F]
  end.
  rewrite C, F. split; reflexivity.
Qed.

(** ** Two pending attempts and a completed one *)

Lemma page_poll_three (api : Api) (visitId : string) (n : nat) (s : PatientPage.State) :
  getProcessingStatus api visitId 0 = Resolved "TRANSCRIBING" ->
  getProcessingStatus api visitId 1 = Resolved "ANALYZING" ->
  getProcessingStatus api visitId 2 = Resolved "COMPLETED" ->
  PatientPage.pollProcessingStatus api visitId (S (S (S n))) s =
  mkRun (Resolved tt)
    (PatientPage.mkState PatientPage.speaking "Your doctor will review this shortly"
       (PatientPage.visitId s) "Complete!")
    [GetProcessingStatus visitId; SetTimeout Sleep 2000;
     GetProcessingStatus visitId; SetTimeout Sleep 2000;
     GetProcessingStatus visitId; SetTimeout ResetCallback 4000].
Proof.
  intros H0 H1 H2. unfold PatientPage.pollProcessingStatus, bind.
  rewrite (page_loop_pending api visitId _ 0 s _ H0 eq_refl).
  rewrite (page_loop_pending api visitId _ 1 _ _ H1 eq_refl).
  rewrite (page_loop_completed api visitId _ 2 _ H2).
  reflexivity.
Qed.

Lemma part_poll_three (api : Api) (visitId : string) (n : nat) (s : Part000.State) :
  getProcessingStatus api visitId 0 = Resolved "TRANSCRIBING" ->
  getProcessingStatus api visitId 1 = Resolved "ANALYZING" ->
  getProcessingStatus api visitId 2 = Resolved "COMPLETED" ->
  Part000.pollProcessingStatus api visitId (S (S (S n))) s =
  mkRun (Resolved tt)
    (Part000.mkState (Part000.uploading s) (Part000.visitId s)
       "✅ Complete! Your doctor will review this shortly.")
    [GetProcessingStatus visitId; SetTimeout Sleep 2000;
     GetProcessingStatus visitId; SetTimeout Sleep 2000;
     GetProcessingStatus visitId; SetTimeout ResetCallback 3000].
Proof.
  intros H0 H1 H2. unfold Part000.pollProcessingStatus, bind.
  rewrite (part_loop_pending api visitId _ 0 s _ H0 eq_refl).
  rewrite (part_loop_pending api visitId _ 1 _ _ H1 eq_refl).
  rewrite (part_loop_completed api visitId _ 2 _ H2).
  reflexivity.
Qed.

(** C3.  When every setup call succeeds and the status endpoint answers
    [TRANSCRIBING], [ANALYZING], [COMPLETED] to the first three attempts,
    [uploadAndProcess] ends in the completed outcome after exactly three
    status requests and two 2000 ms waits; the last call of the run is the
    reset timer of the [COMPLETED] branch, not a wait.  Holds for both
    pages. *)
Theorem submit_completes_after_three_polls
        (api : Api) (user : option User.t) (blob : Blob) (duration : nat)
        (language : string) (v : Visit) (u : UploadData)
        (s1 : PatientPage.State) (s2 : Part000.State) :
  createVisit api (visitData_of user language duration) = Resolved v ->
  getUploadUrl api (visit_id v) "webm" = Resolved u ->
  uploadToS3 api (upload_url u) blob = Resolved tt ->
  processAudio api (visit_id v) (audio_s3_key u) = Resolved tt ->
  getProcessingStatus api (visit_id v) 0 = Resolved "TRANSCRIBING" ->
  getProcessingStatus api (visit_id v) 1 = Resolved "ANALYZING" ->
  getProcessingStatus api (visit_id v) 2 = Resolved "COMPLETED" ->
  (PatientPage.outcome
     (final (PatientPage.uploadAndProcess api
               (PatientPage.mkProps user (Some blob) duration language) s1))
   = Some completed /\
   trace (PatientPage.uploadAndProcess api
            (PatientPage.mkProps user (Some blob) duration language) s1)
   = [CreateVisit (visitData_of user language duration);
      GetUploadUrl (visit_id v) "webm"; UploadToS3 (upload_url u) blob;
      ProcessAudio (visit_id v) (audio_s3_key u);
      GetProcessingStatus (visit_id v); SetTimeout Sleep 2000;
      GetProcessingStatus (visit_id v); SetTimeout Sleep 2000;
      GetProcessingStatus (visit_id v); SetTimeout ResetCallback 4000] /\
   count is_status_query
     (trace (PatientPage.uploadAndProcess api
               (PatientPage.mkProps user (Some blob) duration language) s1)) = 3 /\
   count is_sleep
     (trace (PatientPage.uploadAndProcess api
               (PatientPage.mkProps user (Some blob) duration language) s1)) = 2) /\
  (Part000.outcome
     (final (Part000.uploadAndProcess api
               (Part000.mkProps user (Some blob) duration language) s2))
   = Some completed /\
   trace (Part000.uploadAndProcess api
            (Part000.mkProps user (Some blob) duration language) s2)
   = [CreateVisit (visitData_of user language duration);
      GetUploadUrl (visit_id v) "webm"; UploadToS3 (upload_url u) blob;
      ProcessAudio (visit_id v) (audio_s3_key u);
      GetProcessingStatus (visit_id v); SetTimeout Sleep 2000;
      GetProcessingStatus (visit_id v); SetTimeout Sleep 2000;
      GetProcessingStatus (visit_id v); SetTimeout ResetCallback 3000] /\
   count is_status_query
     (trace (Part000.uploadAndProcess api
               (Part000.mkProps user (Some blob) duration language) s2)) = 3 /\
   count is_sleep
     (trace (Part000.uploadAndProcess api
               (Part000.mkProps user (Some blob) duration language) s2)) = 2).
Proof.
  intros Hc Hg Hu Hp H0 H1 H2. split.
  - rewrite (page_upload_hands_over api user blob duration language v u s1 Hc Hg Hu Hp).
    unfold default_retries.
    rewrite (page_poll_three api (visit_id v) 27 _ H0 H1 H2).
    repeat split.
  - rewrite (part_upload_hands_over api user blob duration language v u s2 Hc Hg Hu Hp).
    unfold default_retries.
    rewrite (part_poll_three api (visit_id v) 27 _ H0 H1 H2).
    repeat split.
Qed.

Lemma submit_completes_after_three_polls_witness :
  PatientPage.outcome
    (final (PatientPage.uploadAndProcess
              (scripted (fun i => match i with
                                  | 0 => Resolved "TRANSCRIBING"
                                  | 1 => Resolved "ANALYZING"
                                  | _ => Resolved "COMPLETED"
                                  end))
              (PatientPage.mkProps None (Some ["x"%byte]) 4 "hi-IN") page_mounted))
  = Some completed /\
  count is_sleep
    (trace (PatientPage.uploadAndProcess
              (scripted (fun i => match i with
                                  | 0 => Resolved "TRANSCRIBING"
                                  | 1 => Resolved "ANALYZING"
                                  | _ => Resolved "COMPLETED"
                                  end))
              (PatientPage.mkProps None (Some ["x"%byte]) 4 "hi-IN") page_mounted))
  = 2.
Proof.
  destruct (submit_completes_after_three_polls
              (scripted (fun i => match i with
                                  | 0 => Resolved "TRANSCRIBING"
                                  | 1 => Resolved "ANALYZING"
                                  | _ => Resolved "COMPLETED"
                                  end))
              None ["x"%byte] 4 "hi-IN"
              (mkVisit "visit-1")
              (mkUploadData "https://bucket/upload" "audio/visit-1.webm")
              page_mounted part_mounted)
    as [(O & _ & _ & W) _]; try reflexivity.
  split; [exact O | exact W].
Defined.

(** ** Transport errors inside the loop *)

Lemma page_poll_error_then_completed (api : Api) (visitId : string) (n : nat)
      (e : JsError) (s : PatientPage.State) :
  getProcessingStatus api visitId 0 = Rejected e ->
  getProcessingStatus api visitId 1 = Resolved "COMPLETED" ->
  PatientPage.pollProcessingStatus api visitId (S (S n)) s =
  mkRun (Resolved tt)
    (PatientPage.mkState PatientPage.speaking "Your doctor will review this shortly"
       (PatientPage.visitId s) "Complete!")
    [GetProcessingStatus visitId; ConsoleError "Error polling status:" e;
     GetProcessingStatus visitId; SetTimeout ResetCallback 4000].
Proof.
  intros H0 H1. unfold PatientPage.pollProcessingStatus, bind.
  rewrite (page_loop_rejected api visitId _ 0 s e H0).
  rewrite (page_loop_completed api visitId _ 1 _ H1).
  reflexivity.
Qed.

Lemma part_poll_error_then_completed (api : Api) (visitId : string) (n : nat)
      (e : JsError) (s : Part000.State) :
  getProcessingStatus api visitId 0 = Rejected e ->
  getProcessingStatus api visitId 1 = Resolved "COMPLETED" ->
  Part000.pollProcessingStatus api visitId (S (S n)) s =
  mkRun (Resolved tt)
    (Part000.mkState (Part000.uploading s) (Part000.visitId s)
       "✅ Complete! Your doctor will review this shortly.")
    [GetProcessingStatus visitId; ConsoleError "Error polling status:" e;
     GetProcessingStatus visitId; SetTimeout ResetCallback 3000].
Proof.
  intros H0 H1. unfold Part000.pollProcessingStatus, bind.
  rewrite (part_loop_rejected api visitId _ 0 s e H0).
  rewrite (part_loop_completed api visitId _ 1 _ H1).
  reflexivity.
Qed.

(** C4.  A status request that throws is swallowed by the [catch] of the
    loop body: [pollProcessingStatus] never rejects; an attempt that throws
    only writes the log line, changes no state cell and is followed by the
    rest of the loop from the next counter; and when the first attempt
    throws and the second returns [COMPLETED], the run ends in the
    completed outcome.  Holds for both pages. *)
Theorem poll_transport_error_swallowed (api : Api) (visitId : string) :
  (forall retries s1 s2,
     result (PatientPage.pollProcessingStatus api visitId retries s1) = Resolved tt /\
     result (Part000.pollProcessingStatus api visitId retries s2) = Resolved tt) /\
  (forall n i e s1 s2,
     getProcessingStatus api visitId i = Rejected e ->
     PatientPage.poll_loop api visitId (S n) i s1 =
       prepend [GetProcessingStatus visitId; ConsoleError "Error polling status:" e]
               (PatientPage.poll_loop api visitId n (S i) s1) /\
     Part000.poll_loop api visitId (S n) i s2 =
       prepend [GetProcessingStatus visitId; ConsoleError "Error polling status:" e]
               (Part000.poll_loop api visitId n (S i) s2)) /\
  (forall retries e s1 s2,
     2 <= retries ->
     getProcessingStatus api visitId 0 = Rejected e ->
     getProcessingStatus api visitId 1 = Resolved "COMPLETED" ->
     PatientPage.outcome
       (final (PatientPage.pollProcessingStatus api visitId retries s1))
     = Some completed /\
     Part000.outcome
       (final (Part000.pollProcessingStatus api visitId retries s2))
     = Some completed).
Proof.
  split; [| split].
  - intros retries s1 s2. split.
    + apply page_poll_resolved.
    + apply part_poll_resolved.
  - intros n i e s1 s2 H. split.
    + apply page_loop_rejected; exact H.
    + apply part_loop_rejected; exact H.
  - intros retries e s1 s2 Hr H0 H1.
    destruct retries as [| [| n]]; try lia.
    rewrite (page_poll_error_then_completed api visitId n e s1 H0 H1).
    rewrite (part_poll_error_then_completed api visitId n e s2 H0 H1).
    split; reflexivity.
Qed.

Lemma poll_transport_error_swallowed_witness :
  PatientPage.outcome
    (final (PatientPage.pollProcessingStatus
              (scripted (fun i => match i with
                                  | 0 => Rejected (mkError (Some "Failed to fetch"))
                                  | _ => Resolved "COMPLETED"
                                  end))
              "visit-1" 30 page_mounted))
  = Some completed /\
  Part000.outcome
    (final (Part000.pollProcessingStatus
              (scripted (fun i => match i with
                                  | 0 => Rejected (mkError (Some "Failed to fetch"))
                                  | _ => Resolved "COMPLETED"
                                  end))
              "visit-1" 30 part_mounted))
  = Some completed.
Proof.
  apply (proj2 (proj2 (poll_transport_error_swallowed
                         (scripted (fun i => match i with
                                             | 0 => Rejected (mkError (Some "Failed to fetch"))
                                             | _ => Resolved "COMPLETED"
                                             end))
                         "visit-1"))
           30 (mkError (Some "Failed to fetch")) page_mounted part_mounted).
  - lia.
  - reflexivity.
  - reflexivity.
Defined.

(** C6.  A poll attempt whose request returns a status the [switch] has no
    [case] for does not end the loop and changes no state cell: the 2000 ms
    wait follows the request, and then the rest of the loop from the next
    counter.  Holds for both pages. *)
Theorem poll_unrecognized_status_keeps_polling
        (api : Api) (visitId : string) (n i : nat) (status : string)
        (s1 : PatientPage.State) (s2 : Part000.State) :
  getProcessingStatus api visitId i = Resolved status ->
  recognized status = false ->
  PatientPage.poll_loop api visitId (S n) i s1 =
    prepend [GetProcessingStatus visitId; SetTimeout Sleep 2000]
            (PatientPage.poll_loop api visitId n (S i) s1) /\
  Part000.poll_loop api visitId (S n) i s2 =
    prepend [GetProcessingStatus visitId; SetTimeout Sleep 2000]
            (Part000.poll_loop api visitId n (S i) s2).
Proof.
  intros G U. pose proof (unrecognized_not_terminal status U) as T. split.
  - rewrite (page_loop_pending api visitId n i s1 status G T).
    rewrite (page_switch_unrecognized status s1 U). reflexivity.
  - rewrite (part_loop_pending api visitId n i s2 status G T).
    rewrite (part_switch_unrecognized status s2 U). reflexivity.
Qed.

Lemma poll_unrecognized_status_keeps_polling_witness :
  PatientPage.poll_loop (scripted (fun _ => Resolved "QUEUED")) "visit-1" 30 0 page_mounted =
    prepend [GetProcessingStatus "visit-1"; SetTimeout Sleep 2000]
            (PatientPage.poll_loop (scripted (fun _ => Resolved "QUEUED")) "visit-1" 29 1
               page_mounted) /\
  Part000.poll_loop (scripted (fun _ => Resolved "QUEUED")) "visit-1" 30 0 part_mounted =
    prepend [GetProcessingStatus "visit-1"; SetTimeout Sleep 2000]
            (Part000.poll_loop (scripted (fun _ => Resolved "QUEUED")) "visit-1" 29 1
               part_mounted).
Proof.
  apply (poll_unrecognized_status_keeps_polling
           (scripted (fun _ => Resolved "QUEUED")) "visit-1" 29 0 "QUEUED"
           page_mounted part_mounted).
  - reflexivity.
  - reflexivity.
Defined.


(** ** Waits and attempts *)

Lemma page_attempt_waits (api : Api) (visitId : string) (i : nat)
      (s : PatientPage.State) :
  count is_sleep (trace (PatientPage.poll_attempt api visitId i s)) =
  if returned_nonterminal (getProcessingStatus api visitId i) then 1 else 0.
Proof.
  destruct (getProcessingStatus api visitId i) as [status | e] eqn:G.
  - destruct (terminal status) eqn:T.
    + destruct (terminal_cases status T); subst status.
      * rewrite (page_attempt_completed api visitId i s G). reflexivity.
      * rewrite (page_attempt_failed api visitId i s G). reflexivity.
    + rewrite (page_attempt_pending api visitId i s status G T).
      simpl. rewrite T. reflexivity.
  - rewrite (page_attempt_rejected api visitId i s e G). reflexivity.
Qed.

(** The attempts among [i], ..., [i + attempts - 1] whose request returned
    a status that does not end the loop. *)
Lemma page_loop_waits (api : Api) (visitId : string) (n : nat) :
  forall (i : nat) (s : PatientPage.State),
    count is_sleep (trace (PatientPage.poll_loop api visitId n i s)) =
    List.length
      (filter (fun k => returned_nonterminal (getProcessingStatus api visitId k))
              (seq i (count is_status_query
                        (trace (PatientPage.poll_loop api visitId n i s))))).
Proof.
  induction n as [| n IH]; intros i s.
  - reflexivity.
  - destruct (getProcessingStatus api visitId i) as [status | e] eqn:G.
    + destruct (terminal status) eqn:T.
      * destruct (terminal_cases status T); subst status.
        -- rewrite (page_loop_completed api visitId n i s G). simpl.
           rewrite G. reflexivity.
        -- rewrite (page_loop_failed api visitId n i s G). simpl.
           rewrite G. reflexivity.
      * rewrite (page_loop_pending api visitId n i s status G T).
        rewrite !count_prepend. simpl. rewrite G. simpl. rewrite T. simpl.
        f_equal. apply IH.
    + rewrite (page_loop_rejected api visitId n i s e G).
      rewrite !count_prepend. simpl. rewrite G. simpl. apply IH.
Qed.

Lemma part_attempt_waits (api : Api) (visitId : string) (i : nat)
      (s : Part000.State) :
  count is_sleep (trace (Part000.poll_attempt api visitId i s)) =
  if returned_nonterminal (getProcessingStatus api visitId i) then 1 else 0.
Proof.
  destruct (getProcessingStatus api visitId i) as [status | e] eqn:G.
  - destruct (terminal status) eqn:T.
    + destruct (terminal_cases status T); subst status.
      * rewrite (part_attempt_completed api visitId i s G). reflexivity.
      * rewrite (part_attempt_failed api visitId i s G). reflexivity.
    + rewrite (part_attempt_pending api visitId i s status G T).
      simpl. rewrite T. reflexivity.
  - rewrite (part_attempt_rejected api visitId i s e G). reflexivity.
Qed.

(** The attempts among [i], ..., [i + attempts - 1] whose request returned
    a status that does not end the loop. *)
Lemma part_loop_waits (api : Api) (visitId : string) (n : nat) :
  forall (i : nat) (s : Part000.State),
    count is_sleep (trace (Part000.poll_loop api visitId n i s)) =
    List.length
      (filter (fun k => returned_nonterminal (getProcessingStatus api visitId k))
              (seq i (count is_status_query
                        (trace (Part000.poll_loop api visitId n i s))))).
Proof.
  induction n as [| n IH]; intros i s.
  - reflexivity.
  - destruct (getProcessingStatus api visitId i) as [status | e] eqn:G.
    + destruct (terminal status) eqn:T.
      * destruct (terminal_cases status T); subst status.
        -- rewrite (part_loop_completed api visitId n i s G). simpl.
           rewrite G. reflexivity.
        -- rewrite (part_loop_failed api visitId n i s G). simpl.
           rewrite G. reflexivity.
      * rewrite (part_loop_pending api visitId n i s status G T).
        rewrite !count_prepend. simpl. rewrite G. simpl. rewrite T. simpl.
        f_equal. apply IH.
    + rewrite (part_loop_rejected api visitId n i s e G).
      rewrite !count_prepend. simpl. rewrite G. simpl. apply IH.
Qed.

(** C9.  When the status request of an attempt throws, the loop goes on
    at once to the next attempt: the request and the log line are followed
    by the rest of the loop from the next counter, with no wait in between
    and the state unchanged.  When the request returns a status other than
    [COMPLETED] and [FAILED], the 2000 ms wait follows the request and then
    the rest of the loop.  So an attempt is followed by the wait exactly
    when its request returned such a status, and over a whole run of
    [pollProcessingStatus] the number of waits is the number of attempts
    issued whose request returned such a status, which can be less than
    the number of attempts.  Holds for both pages. *)
Theorem poll_waits_only_after_returned_attempts
        (api : Api) (visitId : string) (retries i : nat)
        (s1 : PatientPage.State) (s2 : Part000.State) :
  (count is_sleep (trace (PatientPage.poll_attempt api visitId i s1)) =
     (if returned_nonterminal (getProcessingStatus api visitId i) then 1 else 0) /\
   count is_sleep (trace (PatientPage.pollProcessingStatus api visitId retries s1)) =
     List.length
       (filter (fun k => returned_nonterminal (getProcessingStatus api visitId k))
               (seq 0 (count is_status_query
                         (trace (PatientPage.pollProcessingStatus
                                   api visitId retries s1))))) /\
   (forall n e,
      getProcessingStatus api visitId i = Rejected e ->
      PatientPage.poll_loop api visitId (S n) i s1 =
        prepend [GetProcessingStatus visitId; ConsoleError "Error polling status:" e]
                (PatientPage.poll_loop api visitId n (S i) s1)) /\
   (forall n status,
      getProcessingStatus api visitId i = Resolved status ->
      terminal status = false ->
      PatientPage.poll_loop api visitId (S n) i s1 =
        prepend [GetProcessingStatus visitId; SetTimeout Sleep 2000]
                (PatientPage.poll_loop api visitId n (S i)
                   (final (PatientPage.switch_status status s1))))) /\
  (count is_sleep (trace (Part000.poll_attempt api visitId i s2)) =
     (if returned_nonterminal (getProcessingStatus api visitId i) then 1 else 0) /\
   count is_sleep (trace (Part000.pollProcessingStatus api visitId retries s2)) =
     List.length
       (filter (fun k => returned_nonterminal (getProcessingStatus api visitId k))
               (seq 0 (count is_status_query
                         (trace (Part000.pollProcessingStatus
                                   api visitId retries s2))))) /\
   (forall n e,
      getProcessingStatus api visitId i = Rejected e ->
      Part000.poll_loop api visitId (S n) i s2 =
        prepend [GetProcessingStatus visitId; ConsoleError "Error polling status:" e]
                (Part000.poll_loop api visitId n (S i) s2)) /\
   (forall n status,
      getProcessingStatus api visitId i = Resolved status ->
      terminal status = false ->
      Part000.poll_loop api visitId (S n) i s2 =
        prepend [GetProcessingStatus visitId; SetTimeout Sleep 2000]
                (Part000.poll_loop api visitId n (S i)
                   (final (Part000.switch_status status s2))))).
Proof.
  split; (split; [| split; [| split]]).
  - apply page_attempt_waits.
  - rewrite page_poll_trace. apply page_loop_waits.
  - intros n e G. apply page_loop_rejected, G.
  - intros n status G T. apply page_loop_pending; assumption.
  - apply part_attempt_waits.
  - rewrite part_poll_trace. apply part_loop_waits.
  - intros n e G. apply part_loop_rejected, G.
  - intros n status G T. apply part_loop_pending; assumption.
Qed.

Lemma poll_waits_only_after_returned_attempts_witness :
  PatientPage.poll_loop
    (scripted (fun i => match i with
                        | 0 => Rejected (mkError (Some "Failed to fetch"))
                        | _ => Resolved "ANALYZING"
                        end))
    "visit-1" 30 0 page_mounted
  = prepend [GetProcessingStatus "visit-1";
             ConsoleError "Error polling status:" (mkError (Some "Failed to fetch"))]
      (PatientPage.poll_loop
         (scripted (fun i => match i with
                             | 0 => Rejected (mkError (Some "Failed to fetch"))
                             | _ => Resolved "ANALYZING"
                             end))
         "visit-1" 29 1 page_mounted) /\
  Part000.poll_loop
    (scripted (fun i => match i with
                        | 0 => Rejected (mkError (Some "Failed to fetch"))
                        | _ => Resolved "ANALYZING"
                        end))
    "visit-1" 29 1 part_mounted
  = prepend [GetProcessingStatus "visit-1"; SetTimeout Sleep 2000]
      (Part000.poll_loop
         (scripted (fun i => match i with
                             | 0 => Rejected (mkError (Some "Failed to fetch"))
                             | _ => Resolved "ANALYZING"
                             end))
         "visit-1" 28 2
         (final (Part000.switch_status "ANALYZING" part_mounted))).
Proof.
  split.
  - apply (proj1 (proj2 (proj2 (proj1
             (poll_waits_only_after_returned_attempts
                (scripted (fun i => match i with
                                    | 0 => Rejected (mkError (Some "Failed to fetch"))
                                    | _ => Resolved "ANALYZING"
                                    end))
                "visit-1" 30 0 page_mounted part_mounted))))
             29 (mkError (Some "Failed to fetch"))).
    reflexivity.
  - apply (proj2 (proj2 (proj2 (proj2
             (poll_waits_only_after_returned_attempts
                (scripted (fun i => match i with
                                    | 0 => Rejected (mkError (Some "Failed to fetch"))
                                    | _ => Resolved "ANALYZING"
                                    end))
                "visit-1" 30 1 page_mounted part_mounted))))
             28 "ANALYZING").
    + reflexivity.
    + reflexivity.
Defined.

(** An instance of C9: of three attempts the first throws, so there is one
    wait for three requests. *)
Example poll_waits_one_of_three :
  count is_status_query
    (trace (PatientPage.pollProcessingStatus
              (scripted (fun i => match i with
                                  | 0 => Rejected (mkError None)
                                  | 1 => Resolved "ANALYZING"
                                  | _ => Resolved "COMPLETED"
                                  end))
              "visit-1" 30 page_mounted)) = 3 /\
  count is_sleep
    (trace (PatientPage.pollProcessingStatus
              (scripted (fun i => match i with
                                  | 0 => Rejected (mkError None)
                                  | 1 => Resolved "ANALYZING"
                                  | _ => Resolved "COMPLETED"
                                  end))
              "visit-1" 30 page_mounted)) = 1.
Proof. split; reflexivity. Qed.


(** ** The guard of [uploadAndProcess] *)

Lemma bind_await_head {S A B : Type} (c : Effect) (answer : Settled A)
      (k : A -> M S B) (s : S) (t : list Effect) :
  hd_error (trace (bind (await c answer) k s) ++ t) = Some c.
Proof.
  unfold bind, await. destruct answer; [rewrite trace_prepend |]; reflexivity.
Qed.

Lemma page_upload_first_call (api : Api) (user : option User.t) (blob : Blob)
      (duration : nat) (language : string) (s : PatientPage.State) :
  hd_error (trace (PatientPage.uploadAndProcess api
                     (PatientPage.mkProps user (Some blob) duration language) s))
  = Some (CreateVisit (visitData_of user language duration)).
Proof.
  unfold PatientPage.uploadAndProcess.
  cbn [PatientPage.audioBlob PatientPage.user PatientPage.duration PatientPage.language].
  unfold PatientPage.setVoiceState, PatientPage.setProcessingStage.
  rewrite !bind_modify.
  match goal with
  | |- context [try_catch ?m ?h ?s0] =>
      destruct (try_catch_trace_prefix m h s0) as [t E]; rewrite E
  end.
  cbv zeta. apply bind_await_head.
Qed.

Lemma part_upload_first_call (api : Api) (user : option User.t) (blob : Blob)
      (duration : nat) (language : string) (s : Part000.State) :
  hd_error (trace (Part000.uploadAndProcess api
                     (Part000.mkProps user (Some blob) duration language) s))
  = Some (CreateVisit (visitData_of user language duration)).
Proof.
  unfold Part000.uploadAndProcess.
  cbn [Part000.audioBlob Part000.user Part000.duration Part000.language].
  unfold Part000.setUploading, Part000.setProcessingStatus.
  rewrite !bind_modify.
  match goal with
  | |- context [try_catch ?m ?h ?s0] =>
      destruct (try_catch_trace_prefix m h s0) as [t E]; rewrite E
  end.
  cbv zeta. apply bind_await_head.
Qed.

Lemma network_head (c : Effect) (t : list Effect) :
  hd_error t = Some c -> is_network c = true -> count is_network t <> 0.
Proof.
  destruct t as [| c' t']; simpl; intros H N; [discriminate |].
  injection H as ->. unfold count. simpl. rewrite N. simpl. discriminate.
Qed.

(** C10.  With no recording in the store ([audioBlob] is null)
    [uploadAndProcess] returns at its first line: it resolves, every state
    cell keeps its value (stage, status message, visit id and the shown
    outcome included) and no call leaves the component.  Holds for both
    pages. *)
Theorem submit_without_recording_changes_nothing
        (api : Api) (user : option User.t) (duration : nat) (language : string)
        (s1 : PatientPage.State) (s2 : Part000.State) :
  PatientPage.uploadAndProcess api
    (PatientPage.mkProps user None duration language) s1
  = mkRun (Resolved tt) s1 [] /\
  Part000.uploadAndProcess api
    (Part000.mkProps user None duration language) s2
  = mkRun (Resolved tt) s2 [].
Proof. split; reflexivity. Qed.

(** C1 as stated fails.  On a backend where every call succeeds, a
    recording of zero bytes in a supported language and a one-byte
    recording in the unsupported language [fr-FR] are both submitted: five
    requests are sent, the first of them the visit creation with that
    language, and the outcome is completed, not failed.  With no recording
    at all nothing is sent, but no outcome is reported either. *)
Lemma submit_validation_counterexample :
  (count is_network
     (trace (PatientPage.uploadAndProcess (scripted (fun _ => Resolved "COMPLETED"))
               (PatientPage.mkProps None (Some []) 0 "hi-IN") page_mounted)) = 5 /\
   PatientPage.outcome
     (final (PatientPage.uploadAndProcess (scripted (fun _ => Resolved "COMPLETED"))
               (PatientPage.mkProps None (Some []) 0 "hi-IN") page_mounted))
   = Some completed) /\
  (~ In "fr-FR" PatientPage.LANGUAGES /\
   hd_error
     (trace (PatientPage.uploadAndProcess (scripted (fun _ => Resolved "COMPLETED"))
               (PatientPage.mkProps None (Some ["x"%byte]) 4 "fr-FR") page_mounted))
   = Some (CreateVisit (VisitData.mk "DEMO_PATIENT" "CLINIC_DEMO" "fr-FR" 4)) /\
   count is_network
     (trace (PatientPage.uploadAndProcess (scripted (fun _ => Resolved "COMPLETED"))
               (PatientPage.mkProps None (Some ["x"%byte]) 4 "fr-FR") page_mounted)) = 5 /\
   PatientPage.outcome
     (final (PatientPage.uploadAndProcess (scripted (fun _ => Resolved "COMPLETED"))
               (PatientPage.mkProps None (Some ["x"%byte]) 4 "fr-FR") page_mounted))
   = Some completed) /\
  (PatientPage.outcome
     (final (PatientPage.uploadAndProcess (scripted (fun _ => Resolved "COMPLETED"))
               (PatientPage.mkProps None None 0 "hi-IN") page_mounted))
   = None) /\
  (~ In "fr-FR" Part000.LANGUAGES /\
   count is_network
     (trace (Part000.uploadAndProcess (scripted (fun _ => Resolved "COMPLETED"))
               (Part000.mkProps None (Some []) 0 "fr-FR") part_mounted)) = 5 /\
   Part000.outcome
     (final (Part000.uploadAndProcess (scripted (fun _ => Resolved "COMPLETED"))
               (Part000.mkProps None (Some []) 0 "fr-FR") part_mounted))
   = Some completed).
Proof.
  repeat split; try reflexivity.
  - simpl. intros H. repeat (destruct H as [H | H]; [discriminate |]). exact H.
  - simpl. intros H. repeat (destruct H as [H | H]; [discriminate |]). exact H.
Qed.

(** C1, amended.  [uploadAndProcess] sends no request exactly when there is
    no recording ([audioBlob] is null), and then it returns without
    touching the state, so without reporting a failure.  Any recording that
    is present, whatever its size, is submitted in whatever [language] the
    store holds: the first call is [createVisit] with that language code.
    Holds for both pages. *)
Theorem submit_guards_only_missing_recording
        (api : Api) (user : option User.t) (audioBlob : option Blob)
        (duration : nat) (language : string)
        (s1 : PatientPage.State) (s2 : Part000.State) :
  ((count is_network
      (trace (PatientPage.uploadAndProcess api
                (PatientPage.mkProps user audioBlob duration language) s1)) = 0
    <-> audioBlob = None) /\
   (audioBlob = None ->
    final (PatientPage.uploadAndProcess api
             (PatientPage.mkProps user audioBlob duration language) s1) = s1) /\
   (audioBlob <> None ->
    hd_error (trace (PatientPage.uploadAndProcess api
                       (PatientPage.mkProps user audioBlob duration language) s1))
    = Some (CreateVisit (visitData_of user language duration)))) /\
  ((count is_network
      (trace (Part000.uploadAndProcess api
                (Part000.mkProps user audioBlob duration language) s2)) = 0
    <-> audioBlob = None) /\
   (audioBlob = None ->
    final (Part000.uploadAndProcess api
             (Part000.mkProps user audioBlob duration language) s2) = s2) /\
   (audioBlob <> None ->
    hd_error (trace (Part000.uploadAndProcess api
                       (Part000.mkProps user audioBlob duration language) s2))
    = Some (CreateVisit (visitData_of user language duration)))).
Proof.
  destruct audioBlob as [blob |].
  - pose proof (page_upload_first_call api user blob duration language s1) as H1.
    pose proof (part_upload_first_call api user blob duration language s2) as H2.
    split; (split; [split | split]);
      try discriminate; try (intros _; assumption).
    + intros C. exfalso. exact (network_head _ _ H1 eq_refl C).
    + intros C. exfalso. exact (network_head _ _ H2 eq_refl C).
  - split; (split; [split | split]); try reflexivity; try contradiction.
Qed.

Lemma submit_guards_only_missing_recording_witness :
  hd_error
    (trace (PatientPage.uploadAndProcess (scripted (fun _ => Resolved "COMPLETED"))
              (PatientPage.mkProps None (Some []) 4 "fr-FR") page_mounted))
  = Some (CreateVisit (visitData_of None "fr-FR" 4)).
Proof.
  apply (proj2 (proj2 (proj1 (submit_guards_only_missing_recording
                                (scripted (fun _ => Resolved "COMPLETED"))
                                None (Some []) 4 "fr-FR" page_mounted part_mounted)))).
  discriminate.
Defined.

(** ** The level meter *)

Lemma magnitude_bounds (b : byte) : (0 <= PatientPage.magnitude b <= 255)%Z.
Proof.
  unfold PatientPage.magnitude. pose proof (Byte.to_N_bounded b). lia.
Qed.

Lemma fold_left_add (rest : list byte) :
  forall a : Z,
    fold_left (fun a b => (a + PatientPage.magnitude b)%Z) rest a
    = (a + fold_right Z.add 0%Z (map PatientPage.magnitude rest))%Z.
Proof.
  induction rest as [| b rest IH]; intros a; simpl.
  - lia.
  - rewrite IH. lia.
Qed.

Lemma sum_bounds (bins : list byte) :
  (0 <= fold_right Z.add 0%Z (map PatientPage.magnitude bins)
     <= 255 * Z.of_nat (List.length bins))%Z.
Proof.
  induction bins as [| b bins IH].
  - simpl. lia.
  - cbn [map fold_right List.length]. pose proof (magnitude_bounds b). lia.
Qed.

(** On a non-empty array [reduce] returns the sum of the magnitudes. *)
Lemma reduce_add_sum (dataArray : list byte) :
  dataArray <> [] ->
  PatientPage.reduce_add dataArray
  = Some (fold_right Z.add 0%Z (map PatientPage.magnitude dataArray)).
Proof.
  destruct dataArray as [| x rest]; [contradiction |]. intros _.
  unfold PatientPage.reduce_add. rewrite fold_left_add. reflexivity.
Qed.

Lemma bins_nonempty (dataArray : list byte) :
  List.length dataArray = PatientPage.frequencyBinCount -> dataArray <> [].
Proof. intros H E. subst dataArray. discriminate H. Qed.

Lemma spec_mean_nonneg (bins : list byte) : (0 <= spec_mean bins)%Q.
Proof.
  unfold spec_mean, Qdiv. apply Qmult_le_0_compat.
  - rewrite <- (Zle_Qle 0). apply sum_bounds.
  - apply Qinv_le_0_compat. rewrite <- (Zle_Qle 0). lia.
Qed.

(** The model computes with rationals where the browser computes with
    binary64 numbers.  For the 128 bins of the analyser nothing is lost:
    the sum is an integer below [2^15], the mean is that integer over
    [2^7], and the scaled mean is an integer below [2^17] over [2^8], all
    of which binary64 represents exactly. *)
Lemma level_arithmetic_is_exact (dataArray : list byte) :
  List.length dataArray = PatientPage.frequencyBinCount ->
  exists total : Z,
    PatientPage.reduce_add dataArray = Some total /\
    (0 <= total <= 32640)%Z /\
    PatientPage.average dataArray = Some (inject_Z total / inject_Z 128)%Q /\
    (inject_Z total / inject_Z 128 == total # 128)%Q /\
    (inject_Z total / inject_Z 128 * 1.5 == 3 * total # 256)%Q.
Proof.
  intros L.
  exists (fold_right Z.add 0%Z (map PatientPage.magnitude dataArray)).
  pose proof (reduce_add_sum dataArray (bins_nonempty dataArray L)) as R.
  pose proof (sum_bounds dataArray) as B. rewrite L in B.
  split; [exact R |]. split; [exact B |]. split.
  - unfold PatientPage.average. rewrite R, L. reflexivity.
  - split.
    + rewrite (Qmake_Qdiv _ 128). reflexivity.
    + rewrite <- (Qmake_Qdiv _ 128).
      generalize (fold_right Z.add 0%Z (map PatientPage.magnitude dataArray)).
      intros total. unfold Qeq, Qmult. cbn [Qnum Qden]. lia.
Qed.

(** C8.  On a cycle of [updateLevel] with the analyser present, the value
    passed to [setAudioLevel] is the arithmetic mean of the 128 bin
    magnitudes times the gain 1.5, clamped to the interval from 0 to 100,
    and so lies in that interval. *)
Theorem level_is_clamped_scaled_mean (dataArray : list byte) (audioLevel : Q) :
  List.length dataArray = PatientPage.frequencyBinCount ->
  exists level : Q,
    PatientPage.updateLevel (Some dataArray) audioLevel = Some level /\
    (level == spec_level dataArray)%Q /\
    (0 <= level)%Q /\ (level <= 100)%Q.
Proof.
  intros L.
  pose proof (reduce_add_sum dataArray (bins_nonempty dataArray L)) as R.
  assert (N : (0 <= Qmin 100 (spec_mean dataArray * 1.5))%Q).
  { apply Q.min_glb; [discriminate |].
    apply Qmult_le_0_compat; [apply spec_mean_nonneg | discriminate]. }
  exists (Qmin 100 (spec_mean dataArray * 1.5))%Q. split; [| split; [| split]].
  - unfold PatientPage.updateLevel, PatientPage.average. rewrite R. reflexivity.
  - unfold spec_level, spec_clamp, spec_gain. symmetry. apply Q.max_r. exact N.
  - exact N.
  - apply Q.le_min_l.
Qed.

Lemma level_is_clamped_scaled_mean_witness :
  exists level : Q,
    PatientPage.updateLevel (Some (repeat "100"%byte 128)) 0 = Some level /\
    (level == spec_level (repeat "100"%byte 128))%Q /\
    (0 <= level)%Q /\ (level <= 100)%Q.
Proof.
  apply (level_is_clamped_scaled_mean (repeat "100"%byte 128) 0).
  reflexivity.
Defined.


(** ** The loop and the event loop *)

Lemma bind_of_prepend {S A B : Type} (m m' : M S A) (k : A -> M S B)
      (s s' : S) (t : list Effect) :
  m s = prepend t (m' s') -> bind m k s = prepend t (bind m' k s').
Proof.
  unfold bind. intros ->.
  destruct (m' s') as [[a | e] s'' t']; simpl; [| reflexivity].
  destruct (k a s'') as [r s3 t3]. simpl. rewrite app_assoc. reflexivity.
Qed.

Lemma bind_of_resolved {S A B : Type} (m : M S A) (k : A -> M S B)
      (s s' : S) (a : A) (t : list Effect) :
  m s = mkRun (Resolved a) s' t -> bind m k s = prepend t (k a s').
Proof. unfold bind. intros ->. reflexivity. Qed.

Section PatientPageEvents.

Variable api : Api.
Variable visitId : string.
Variable retries : nat.

Lemma page_drive_done (fuel : nat) (s : PatientPage.State) :
  PatientPage.drive api visitId retries fuel Done s = mkRun (Resolved Done) s [].
Proof. destruct fuel; reflexivity. Qed.

Lemma page_drive_status (fuel i : nat) (s : PatientPage.State) :
  PatientPage.drive api visitId retries (S fuel) (AwaitStatus i) s
  = bind (PatientPage.resume visitId retries (AwaitStatus i)
            (StatusSettled (getProcessingStatus api visitId i)))
         (PatientPage.drive api visitId retries fuel) s.
Proof. reflexivity. Qed.

Lemma page_drive_sleep (fuel i : nat) (s : PatientPage.State) :
  PatientPage.drive api visitId retries (S fuel) (AwaitSleep i) s
  = bind (PatientPage.enter visitId retries (S i))
         (PatientPage.drive api visitId retries fuel) s.
Proof. reflexivity. Qed.

Lemma page_enter_next (i : nat) (s : PatientPage.State) :
  i < retries ->
  PatientPage.enter visitId retries i s
  = mkRun (Resolved (AwaitStatus i)) s [GetProcessingStatus visitId].
Proof.
  intros H. unfold PatientPage.enter.
  rewrite (proj2 (Nat.ltb_lt i retries) H). reflexivity.
Qed.

Lemma page_enter_last (s : PatientPage.State) :
  PatientPage.enter visitId retries retries s
  = mkRun (Resolved Done)
      (PatientPage.mkState PatientPage.idle "Processing taking longer than expected."
         (PatientPage.visitId s) (PatientPage.processingStage s)) [].
Proof.
  unfold PatientPage.enter. rewrite Nat.ltb_irrefl. reflexivity.
Qed.

Lemma page_resume_rejected (i : nat) (e : JsError) (s : PatientPage.State) :
  PatientPage.resume visitId retries (AwaitStatus i) (StatusSettled (Rejected e)) s
  = prepend [ConsoleError "Error polling status:" e]
            (PatientPage.enter visitId retries (S i) s).
Proof. reflexivity. Qed.

Lemma page_resume_pending (i : nat) (status : string) (s : PatientPage.State) :
  terminal status = false ->
  PatientPage.resume visitId retries (AwaitStatus i) (StatusSettled (Resolved status)) s
  = mkRun (Resolved (AwaitSleep i)) (final (PatientPage.switch_status status s))
      [SetTimeout Sleep 2000].
Proof.
  intros T. cbn [PatientPage.resume]. unfold bind at 1.
  rewrite (page_switch_pending status s T). reflexivity.
Qed.

(** Left undisturbed, the suspended function does what the loop does:
    from counter [i] with [n] iterations left it ends in the same state and
    has made the same calls as [poll_loop] followed by the code after the
    loop. *)
Lemma page_drive_refines (n : nat) :
  forall (i : nat) (s : PatientPage.State) (fuel : nat),
    i + n = retries -> 2 * n <= fuel ->
    bind (PatientPage.enter visitId retries i)
         (PatientPage.drive api visitId retries fuel) s
    = bind (bind (PatientPage.poll_loop api visitId n i)
              (fun flow =>
                 match flow with
                 | Return => ret tt
                 | Next =>
                     PatientPage.setStatusMessage
                       "Processing taking longer than expected." ;;
                     PatientPage.setVoiceState PatientPage.idle
                 end))
           (fun _ => ret Done) s.
Proof.
  induction n as [| n IH]; intros i s fuel Hi Hf.
  - assert (i = retries) by lia. subst i.
    rewrite (bind_of_resolved _ _ _ _ _ _ (page_enter_last s)).
    rewrite page_drive_done. reflexivity.
  - destruct fuel as [| [| fuel]]; try lia.
    rewrite (bind_of_resolved _ _ _ _ _ _ (page_enter_next i s ltac:(lia))).
    rewrite page_drive_status.
    destruct (getProcessingStatus api visitId i) as [status | e] eqn:G.
    + destruct (terminal status) eqn:T.
      * destruct (terminal_cases status T); subst status.
        -- unfold bind at 2 3. rewrite (page_loop_completed api visitId n i s G).
           reflexivity.
        -- unfold bind at 2 3. rewrite (page_loop_failed api visitId n i s G).
           reflexivity.
      * rewrite (bind_of_resolved _ _ _ _ _ _ (page_resume_pending i status s T)).
        rewrite page_drive_sleep.
        rewrite (IH (S i) _ fuel) by lia.
        rewrite (bind_of_prepend _ _ _ _ _ _
                   (bind_of_prepend _ _ _ _ _ _
                      (page_loop_pending api visitId n i s status G T))).
        rewrite !prepend_prepend. reflexivity.
    + rewrite (bind_of_prepend _ _ _ _ _ _ (page_resume_rejected i e s)).
      rewrite (IH (S i) _ (S fuel)) by lia.
      rewrite (bind_of_prepend _ _ _ _ _ _
                 (bind_of_prepend _ _ _ _ _ _
                    (page_loop_rejected api visitId n i s e G))).
      rewrite !prepend_prepend. reflexivity.
Qed.

Lemma page_undisturbed_is_poll (s : PatientPage.State) :
  PatientPage.poll_undisturbed api visitId retries s
  = mkRun (Resolved Done)
      (final (PatientPage.pollProcessingStatus api visitId retries s))
      (trace (PatientPage.pollProcessingStatus api visitId retries s)).
Proof.
  unfold PatientPage.poll_undisturbed.
  etransitivity;
    [exact (page_drive_refines retries 0 s (2 * retries) eq_refl (le_n _)) |].
  change (bind (PatientPage.poll_loop api visitId retries 0) _)
    with (PatientPage.pollProcessingStatus api visitId retries).
  unfold bind at 1.
  pose proof (page_poll_resolved api visitId retries s) as R.
  destruct (PatientPage.pollProcessingStatus api visitId retries s) as [res s' t].
  simpl in R. subst res. simpl. rewrite app_nil_r. reflexivity.
Qed.




End PatientPageEvents.

Section Part000Events.

Variable api : Api.
Variable visitId : string.
Variable retries : nat.

Lemma part_drive_done (fuel : nat) (s : Part000.State) :
  Part000.drive api visitId retries fuel Done s = mkRun (Resolved Done) s [].
Proof. destruct fuel; reflexivity. Qed.

Lemma part_drive_status (fuel i : nat) (s : Part000.State) :
  Part000.drive api visitId retries (S fuel) (AwaitStatus i) s
  = bind (Part000.resume visitId retries (AwaitStatus i)
            (StatusSettled (getProcessingStatus api visitId i)))
         (Part000.drive api visitId retries fuel) s.
Proof. reflexivity. Qed.

Lemma part_drive_sleep (fuel i : nat) (s : Part000.State) :
  Part000.drive api visitId retries (S fuel) (AwaitSleep i) s
  = bind (Part000.enter visitId retries (S i))
         (Part000.drive api visitId retries fuel) s.
Proof. reflexivity. Qed.

Lemma part_enter_next (i : nat) (s : Part000.State) :
  i < retries ->
  Part000.enter visitId retries i s
  = mkRun (Resolved (AwaitStatus i)) s [GetProcessingStatus visitId].
Proof.
  intros H. unfold Part000.enter.
  rewrite (proj2 (Nat.ltb_lt i retries) H). reflexivity.
Qed.

Lemma part_enter_last (s : Part000.State) :
  Part000.enter visitId retries retries s
  = mkRun (Resolved Done)
      (Part000.mkState false (Part000.visitId s)
         "Processing taking longer than expected. The doctor will be notified.") [].
Proof.
  unfold Part000.enter. rewrite Nat.ltb_irrefl. reflexivity.
Qed.

Lemma part_resume_rejected (i : nat) (e : JsError) (s : Part000.State) :
  Part000.resume visitId retries (AwaitStatus i) (StatusSettled (Rejected e)) s
  = prepend [ConsoleError "Error polling status:" e]
            (Part000.enter visitId retries (S i) s).
Proof. reflexivity. Qed.

Lemma part_resume_pending (i : nat) (status : string) (s : Part000.State) :
  terminal status = false ->
  Part000.resume visitId retries (AwaitStatus i) (StatusSettled (Resolved status)) s
  = mkRun (Resolved (AwaitSleep i)) (final (Part000.switch_status status s))
      [SetTimeout Sleep 2000].
Proof.
  intros T. cbn [Part000.resume]. unfold bind at 1.
  rewrite (part_switch_pending status s T). reflexivity.
Qed.

(** Left undisturbed, the suspended function does what the loop does:
    from counter [i] with [n] iterations left it ends in the same state and
    has made the same calls as [poll_loop] followed by the code after the
    loop. *)
Lemma part_drive_refines (n : nat) :
  forall (i : nat) (s : Part000.State) (fuel : nat),
    i + n = retries -> 2 * n <= fuel ->
    bind (Part000.enter visitId retries i)
         (Part000.drive api visitId retries fuel) s
    = bind (bind (Part000.poll_loop api visitId n i)
              (fun flow =>
                 match flow with
                 | Return => ret tt
                 | Next =>
                     Part000.setProcessingStatus
                       "Processing taking longer than expected. The doctor will be notified." ;;
                     Part000.setUploading false
                 end))
           (fun _ => ret Done) s.
Proof.
  induction n as [| n IH]; intros i s fuel Hi Hf.
  - assert (i = retries) by lia. subst i.
    rewrite (bind_of_resolved _ _ _ _ _ _ (part_enter_last s)).
    rewrite part_drive_done. reflexivity.
  - destruct fuel as [| [| fuel]]; try lia.
    rewrite (bind_of_resolved _ _ _ _ _ _ (part_enter_next i s ltac:(lia))).
    rewrite part_drive_status.
    destruct (getProcessingStatus api visitId i) as [status | e] eqn:G.
    + destruct (terminal status) eqn:T.
      * destruct (terminal_cases status T); subst status.
        -- unfold bind at 2 3. rewrite (part_loop_completed api visitId n i s G).
           reflexivity.
        -- unfold bind at 2 3. rewrite (part_loop_failed api visitId n i s G).
           reflexivity.
      * rewrite (bind_of_resolved _ _ _ _ _ _ (part_resume_pending i status s T)).
        rewrite part_drive_sleep.
        rewrite (IH (S i) _ fuel) by lia.
        rewrite (bind_of_prepend _ _ _ _ _ _
                   (bind_of_prepend _ _ _ _ _ _
                      (part_loop_pending api visitId n i s status G T))).
        rewrite !prepend_prepend. reflexivity.
    + rewrite (bind_of_prepend _ _ _ _ _ _ (part_resume_rejected i e s)).
      rewrite (IH (S i) _ (S fuel)) by lia.
      rewrite (bind_of_prepend _ _ _ _ _ _
                 (bind_of_prepend _ _ _ _ _ _
                    (part_loop_rejected api visitId n i s e G))).
      rewrite !prepend_prepend. reflexivity.
Qed.

Lemma part_undisturbed_is_poll (s : Part000.State) :
  Part000.poll_undisturbed api visitId retries s
  = mkRun (Resolved Done)
      (final (Part000.pollProcessingStatus api visitId retries s))
      (trace (Part000.pollProcessingStatus api visitId retries s)).
Proof.
  unfold Part000.poll_undisturbed.
  etransitivity;
    [exact (part_drive_refines retries 0 s (2 * retries) eq_refl (le_n _)) |].
  change (bind (Part000.poll_loop api visitId retries 0) _)
    with (Part000.pollProcessingStatus api visitId retries).
  unfold bind at 1.
  pose proof (part_poll_resolved api visitId retries s) as R.
  destruct (Part000.pollProcessingStatus api visitId retries s) as [res s' t].
  simpl in R. subst res. simpl. rewrite app_nil_r. reflexivity.
Qed.




End Part000Events.




(** * Further properties *)

(** ** The other ways [uploadAndProcess] reaches its [catch] *)

Section SetupFailures.

Variable api : Api.
Variable user : option User.t.
Variable blob : Blob.
Variable duration : nat.
Variable language : string.

Lemma page_upload_create_fails (e : JsError) (s : PatientPage.State) :
  createVisit api (visitData_of user language duration) = Rejected e ->
  PatientPage.uploadAndProcess api
    (PatientPage.mkProps user (Some blob) duration language) s =
  mkRun (Resolved tt) 
    (PatientPage.mkState PatientPage.error
       (or_default (message e) "Upload failed")
       (PatientPage.visitId s) "Creating visit record...")
    [CreateVisit (visitData_of user language duration);
     ConsoleError "Upload error:" e].
Proof.
  intros Hc. unfold visitData_of in *.
  unfold PatientPage.uploadAndProcess.
  cbn [PatientPage.audioBlob PatientPage.user PatientPage.duration PatientPage.language].
  unfold PatientPage.setVoiceState, PatientPage.setProcessingStage, PatientPage.setVisitId,
    PatientPage.setStatusMessage.
  rewrite !bind_modify.
  match goal with
  | |- try_catch ?m ?h ?s0 = _ =>
      rewrite (try_catch_prepend_rejected m h s0 s0
                 [CreateVisit
                    (VisitData.mk
                       (or_default (option_map User.user_id user) "DEMO_PATIENT")
                       (or_default (option_map User.clinic_id user) "CLINIC_DEMO")
                       language duration)] e)
  end.
  - reflexivity.
  - cbv zeta. rewrite Hc. reflexivity.
Qed.

Lemma page_upload_target_fails (v : Visit) (e : JsError) (s : PatientPage.State) :
  createVisit api (visitData_of user language duration) = Resolved v ->
  getUploadUrl api (visit_id v) "webm" = Rejected e ->
  PatientPage.uploadAndProcess api
    (PatientPage.mkProps user (Some blob) duration language) s =
  mkRun (Resolved tt) 
    (PatientPage.mkState PatientPage.error
       (or_default (message e) "Upload failed")
       (Some (visit_id v)) "Uploading audio...")
    [CreateVisit (visitData_of user language duration);
     GetUploadUrl (visit_id v) "webm";
     ConsoleError "Upload error:" e].
Proof.
  intros Hc Hg. unfold visitData_of in *.
  unfold PatientPage.uploadAndProcess.
  cbn [PatientPage.audioBlob PatientPage.user PatientPage.duration PatientPage.language].
  unfold PatientPage.setVoiceState, PatientPage.setProcessingStage, PatientPage.setVisitId,
    PatientPage.setStatusMessage.
  rewrite !bind_modify.
  match goal with
  | |- try_catch ?m ?h ?s0 = _ =>
      assert (E : m s0 = mkRun (Rejected e) 
                    (PatientPage.mkState PatientPage.processing
                       (PatientPage.statusMessage s) (Some (visit_id v))
                       "Uploading audio...")
                    [CreateVisit
                       (VisitData.mk
                          (or_default (option_map User.user_id user) "DEMO_PATIENT")
                          (or_default (option_map User.clinic_id user) "CLINIC_DEMO")
                          language duration);
                     GetUploadUrl (visit_id v) "webm"]);
      [ | rewrite (try_catch_prepend_rejected m h s0 _ _ e E) ]
  end.
  - cbv zeta.
    rewrite Hc, bind_await_resolved, !bind_modify.
    rewrite Hg, bind_await_rejected. reflexivity.
  - reflexivity.
Qed.

Lemma page_upload_trigger_fails (v : Visit) (u : UploadData) (e : JsError)
      (s : PatientPage.State) :
  createVisit api (visitData_of user language duration) = Resolved v ->
  getUploadUrl api (visit_id v) "webm" = Resolved u ->
  uploadToS3 api (upload_url u) blob = Resolved tt ->
  processAudio api (visit_id v) (audio_s3_key u) = Rejected e ->
  PatientPage.uploadAndProcess api
    (PatientPage.mkProps user (Some blob) duration language) s =
  mkRun (Resolved tt) 
    (PatientPage.mkState PatientPage.error
       (or_default (message e) "Upload failed")
       (Some (visit_id v)) "Starting AI analysis...")
    [CreateVisit (visitData_of user language duration);
     GetUploadUrl (visit_id v) "webm";
     UploadToS3 (upload_url u) blob;
     ProcessAudio (visit_id v) (audio_s3_key u);
     ConsoleError "Upload error:" e].
Proof.
  intros Hc Hg Hu Hp. unfold visitData_of in *.
  unfold PatientPage.uploadAndProcess.
  cbn [PatientPage.audioBlob PatientPage.user PatientPage.duration PatientPage.language].
  unfold PatientPage.setVoiceState, PatientPage.setProcessingStage, PatientPage.setVisitId,
    PatientPage.setStatusMessage.
  rewrite !bind_modify.
  match goal with
  | |- try_catch ?m ?h ?s0 = _ =>
      assert (E : m s0 = mkRun (Rejected e) 
                    (PatientPage.mkState PatientPage.processing
                       (PatientPage.statusMessage s) (Some (visit_id v))
                       "Starting AI analysis...")
                    [CreateVisit
                       (VisitData.mk
                          (or_default (option_map User.user_id user) "DEMO_PATIENT")
                          (or_default (option_map User.clinic_id user) "CLINIC_DEMO")
                          language duration);
                     GetUploadUrl (visit_id v) "webm";
                     UploadToS3 (upload_url u) blob;
                     ProcessAudio (visit_id v) (audio_s3_key u)]);
      [ | rewrite (try_catch_prepend_rejected m h s0 _ _ e E) ]
  end.
  - cbv zeta.
    rewrite Hc, bind_await_resolved, !bind_modify.
    rewrite Hg, bind_await_resolved.
    rewrite Hu, bind_await_resolved, bind_modify.
    rewrite Hp, bind_await_rejected. reflexivity.
  - reflexivity.
Qed.

Lemma part_upload_create_fails (e : JsError) (s : Part000.State) :
  createVisit api (visitData_of user language duration) = Rejected e ->
  Part000.uploadAndProcess api
    (Part000.mkProps user (Some blob) duration language) s =
  mkRun (Resolved tt) 
    (Part000.mkState false (Part000.visitId s)
       ("❌ Error: " ++ or_default (message e) "Upload failed"))
    [CreateVisit (visitData_of user language duration);
     ConsoleError "Upload error:" e].
Proof.
  intros Hc. unfold visitData_of in *.
  unfold Part000.uploadAndProcess.
  cbn [Part000.audioBlob Part000.user Part000.duration Part000.language].
  unfold Part000.setUploading, Part000.setProcessingStatus, Part000.setVisitId.
  rewrite !bind_modify.
  match goal with
  | |- try_catch ?m ?h ?s0 = _ =>
      rewrite (try_catch_prepend_rejected m h s0 s0
                 [CreateVisit
                    (VisitData.mk
                       (or_default (option_map User.user_id user) "DEMO_PATIENT")
                       (or_default (option_map User.clinic_id user) "CLINIC_DEMO")
                       language duration)] e)
  end.
  - reflexivity.
  - cbv zeta. rewrite Hc. reflexivity.
Qed.

Lemma part_upload_target_fails (v : Visit) (e : JsError) (s : Part000.State) :
  createVisit api (visitData_of user language duration) = Resolved v ->
  getUploadUrl api (visit_id v) "webm" = Rejected e ->
  Part000.uploadAndProcess api
    (Part000.mkProps user (Some blob) duration language) s =
  mkRun (Resolved tt) 
    (Part000.mkState false (Some (visit_id v))
       ("❌ Error: " ++ or_default (message e) "Upload failed"))
    [CreateVisit (visitData_of user language duration);
     GetUploadUrl (visit_id v) "webm";
     ConsoleError "Upload error:" e].
Proof.
  intros Hc Hg. unfold visitData_of in *.
  unfold Part000.uploadAndProcess.
  cbn [Part000.audioBlob Part000.user Part000.duration Part000.language].
  unfold Part000.setUploading, Part000.setProcessingStatus, Part000.setVisitId.
  rewrite !bind_modify.
  match goal with
  | |- try_catch ?m ?h ?s0 = _ =>
      assert (E : m s0 = mkRun (Rejected e) 
                    (Part000.mkState true (Some (visit_id v))
                       "🔗 Getting upload URL...")
                    [CreateVisit
                       (VisitData.mk
                          (or_default (option_map User.user_id user) "DEMO_PATIENT")
                          (or_default (option_map User.clinic_id user) "CLINIC_DEMO")
                          language duration);
                     GetUploadUrl (visit_id v) "webm"]);
      [ | rewrite (try_catch_prepend_rejected m h s0 _ _ e E) ]
  end.
  - cbv zeta.
    rewrite Hc, bind_await_resolved, !bind_modify.
    rewrite Hg, bind_await_rejected. reflexivity.
  - reflexivity.
Qed.

Lemma part_upload_trigger_fails (v : Visit) (u : UploadData) (e : JsError)
      (s : Part000.State) :
  createVisit api (visitData_of user language duration) = Resolved v ->
  getUploadUrl api (visit_id v) "webm" = Resolved u ->
  uploadToS3 api (upload_url u) blob = Resolved tt ->
  processAudio api (visit_id v) (audio_s3_key u) = Rejected e ->
  Part000.uploadAndProcess api
    (Part000.mkProps user (Some blob) duration language) s =
  mkRun (Resolved tt) 
    (Part000.mkState false (Some (visit_id v))
       ("❌ Error: " ++ or_default (message e) "Upload failed"))
    [CreateVisit (visitData_of user language duration);
     GetUploadUrl (visit_id v) "webm";
     UploadToS3 (upload_url u) blob;
     ProcessAudio (visit_id v) (audio_s3_key u);
     ConsoleError "Upload error:" e].
Proof.
  intros Hc Hg Hu Hp. unfold visitData_of in *.
  unfold Part000.uploadAndProcess.
  cbn [Part000.audioBlob Part000.user Part000.duration Part000.language].
  unfold Part000.setUploading, Part000.setProcessingStatus, Part000.setVisitId.
  rewrite !bind_modify.
  match goal with
  | |- try_catch ?m ?h ?s0 = _ =>
      assert (E : m s0 = mkRun (Rejected e) 
                    (Part000.mkState true (Some (visit_id v))
                       "🚀 Starting AI analysis...")
                    [CreateVisit
                       (VisitData.mk
                          (or_default (option_map User.user_id user) "DEMO_PATIENT")
                          (or_default (option_map User.clinic_id user) "CLINIC_DEMO")
                          language duration);
                     GetUploadUrl (visit_id v) "webm";
                     UploadToS3 (upload_url u) blob;
                     ProcessAudio (visit_id v) (audio_s3_key u)]);
      [ | rewrite (try_catch_prepend_rejected m h s0 _ _ e E) ]
  end.
  - cbv zeta.
    rewrite Hc, bind_await_resolved, !bind_modify.
    rewrite Hg, bind_await_resolved, bind_modify.
    rewrite Hu, bind_await_resolved, bind_modify.
    rewrite Hp, bind_await_rejected. reflexivity.
  - reflexivity.
Qed.

End SetupFailures.

(** ** apps/web/app/patient/page.tsx: induction on the iterations of the loop *)

Section PatientPageRuns.

Variable api : Api.
Variable visitId : string.

(** A property of every run of the loop follows from its five cases: the
    counter has reached the budget, the request threw, it returned a status
    that keeps the loop going, it returned [COMPLETED], it returned
    [FAILED]. *)
Lemma page_loop_cases
      (P : nat -> nat -> PatientPage.State -> Run PatientPage.State Flow -> Prop) :
  (forall i s, P 0 i s (mkRun (Resolved Next) s [])) ->
  (forall n i s e,
      getProcessingStatus api visitId i = Rejected e ->
      P n (S i) s (PatientPage.poll_loop api visitId n (S i) s) ->
      P (S n) i s
        (prepend [GetProcessingStatus visitId; ConsoleError "Error polling status:" e]
                 (PatientPage.poll_loop api visitId n (S i) s))) ->
  (forall n i s status,
      getProcessingStatus api visitId i = Resolved status ->
      terminal status = false ->
      P n (S i) (final (PatientPage.switch_status status s))
        (PatientPage.poll_loop api visitId n (S i) (final (PatientPage.switch_status status s))) ->
      P (S n) i s
        (prepend [GetProcessingStatus visitId; SetTimeout Sleep 2000]
                 (PatientPage.poll_loop api visitId n (S i)
                    (final (PatientPage.switch_status status s))))) ->
  (forall n i s,
      getProcessingStatus api visitId i = Resolved "COMPLETED" ->
      P (S n) i s
        (mkRun (Resolved Return) (PatientPage.mkState PatientPage.speaking
              "Your doctor will review this shortly" (PatientPage.visitId s) "Complete!")
           [GetProcessingStatus visitId; SetTimeout ResetCallback 4000])) ->
  (forall n i s,
      getProcessingStatus api visitId i = Resolved "FAILED" ->
      P (S n) i s
        (mkRun (Resolved Return) (PatientPage.mkState PatientPage.error
              "Processing failed. Please try again." (PatientPage.visitId s)
              (PatientPage.processingStage s))
           [GetProcessingStatus visitId])) ->
  forall n i s, P n i s (PatientPage.poll_loop api visitId n i s).
Proof.
  intros H0 Hrej Hpend Hcomp Hfail.
  induction n as [| n IH]; intros i s.
  - apply H0.
  - destruct (getProcessingStatus api visitId i) as [status | e] eqn:G.
    + destruct (terminal status) eqn:T.
      * destruct (terminal_cases status T); subst status.
        -- rewrite (page_loop_completed api visitId n i s G). apply Hcomp, G.
        -- rewrite (page_loop_failed api visitId n i s G). apply Hfail, G.
      * rewrite (page_loop_pending api visitId n i s status G T).
        apply (Hpend n i s status G T), IH.
    + rewrite (page_loop_rejected api visitId n i s e G).
      apply (Hrej n i s e G), IH.
Qed.

Lemma page_loop_bounds (n i : nat) (s : PatientPage.State) :
  count is_status_query (trace (PatientPage.poll_loop api visitId n i s)) <= n /\
  count is_sleep (trace (PatientPage.poll_loop api visitId n i s))
  <= count is_status_query (trace (PatientPage.poll_loop api visitId n i s)) /\
  stages (trace (PatientPage.poll_loop api visitId n i s))
  = repeat polling (count is_status_query (trace (PatientPage.poll_loop api visitId n i s))) /\
  (forall e, ~ In (ConsoleError "Upload error:" e)
               (trace (PatientPage.poll_loop api visitId n i s))).
Proof.
  apply (page_loop_cases
           (fun n _ _ r =>
              count is_status_query (trace r) <= n /\
              count is_sleep (trace r) <= count is_status_query (trace r) /\
              stages (trace r) = repeat polling (count is_status_query (trace r)) /\
              (forall e, ~ In (ConsoleError "Upload error:" e) (trace r)))).
  - intros. split; [| split; [| split]]; simpl; auto.
  - intros n0 i0 s0 e _ (A & B & C & D). rewrite !count_prepend, trace_prepend.
    cbn [app stages stage_of]. rewrite C.
    split; [| split; [| split]]; unfold count in *; simpl; try lia; try reflexivity.
    intros e' [He | [He | He]]; [discriminate He | discriminate He | exact (D e' He)].
  - intros n0 i0 s0 status _ _ (A & B & C & D). rewrite !count_prepend, trace_prepend.
    cbn [app stages stage_of]. rewrite C.
    split; [| split; [| split]]; unfold count in *; simpl; try lia; try reflexivity.
    intros e' [He | [He | He]]; [discriminate He | discriminate He | exact (D e' He)].
  - intros. split; [| split; [| split]]; unfold count in *; simpl; try lia; try reflexivity.
    intros e' [He | [He | He]]; [discriminate He | discriminate He | exact He].
  - intros. split; [| split; [| split]]; unfold count in *; simpl; try lia; try reflexivity.
    intros e' [He | He]; [discriminate He | exact He].
Qed.

(** How the loop leaves.  Falling out of the loop, it has changed nothing
    but the stage text and set no reset timer; returning, it has shown
    the completed state and set the one reset timer, or shown the failed
    state and set none.  It never touches the visit id. *)
Lemma page_loop_leaves (n i : nat) (s : PatientPage.State) :
  PatientPage.visitId (final (PatientPage.poll_loop api visitId n i s)) = PatientPage.visitId s /\
  match result (PatientPage.poll_loop api visitId n i s) with
  | Resolved Next =>
      PatientPage.voiceState (final (PatientPage.poll_loop api visitId n i s))
      = PatientPage.voiceState s /\
      PatientPage.statusMessage (final (PatientPage.poll_loop api visitId n i s))
      = PatientPage.statusMessage s /\
      count is_reset_timer (trace (PatientPage.poll_loop api visitId n i s)) = 0 /\
      count is_status_query (trace (PatientPage.poll_loop api visitId n i s)) = n
  | Resolved Return =>
      (PatientPage.outcome (final (PatientPage.poll_loop api visitId n i s)) = Some completed /\
       count is_reset_timer (trace (PatientPage.poll_loop api visitId n i s)) = 1) \/
      (PatientPage.outcome (final (PatientPage.poll_loop api visitId n i s))
       = Some (failed "Processing failed. Please try again.") /\
       PatientPage.voiceState (final (PatientPage.poll_loop api visitId n i s))
       = PatientPage.error /\
       count is_reset_timer (trace (PatientPage.poll_loop api visitId n i s)) = 0)
  | Rejected _ => False
  end.
Proof.
  apply (page_loop_cases
           (fun n _ s r =>
              PatientPage.visitId (final r) = PatientPage.visitId s /\
              match result r with
              | Resolved Next =>
                  PatientPage.voiceState (final r) = PatientPage.voiceState s /\
                  PatientPage.statusMessage (final r) = PatientPage.statusMessage s /\
                  count is_reset_timer (trace r) = 0 /\
                  count is_status_query (trace r) = n
              | Resolved Return =>
                  (PatientPage.outcome (final r) = Some completed /\
                   count is_reset_timer (trace r) = 1) \/
                  (PatientPage.outcome (final r) = Some (failed "Processing failed. Please try again.") /\
                   PatientPage.voiceState (final r) = PatientPage.error /\
                   count is_reset_timer (trace r) = 0)
              | Rejected _ => False
              end)).
  - intros; repeat split.
  - intros n0 i0 s0 e _ [V H].
    rewrite result_prepend, final_prepend, !count_prepend. split; [exact V |].
    destruct (result (PatientPage.poll_loop api visitId n0 (S i0) s0)) as [[|] |];
      [| | exact H].
    + destruct H as (A & B & C & Q).
      repeat split; try assumption; unfold count in *; simpl; lia.
    + destruct H as [[O C] | (O & X & C)]; [left | right];
        repeat split; try assumption; unfold count in *; simpl; lia.
  - intros n0 i0 s0 status _ T [V H].
    rewrite result_prepend, final_prepend, !count_prepend.
    assert (K : PatientPage.visitId (final (PatientPage.switch_status status s0))
                = PatientPage.visitId s0 /\
                PatientPage.voiceState (final (PatientPage.switch_status status s0))
                = PatientPage.voiceState s0 /\
                PatientPage.statusMessage (final (PatientPage.switch_status status s0))
                = PatientPage.statusMessage s0).
    { unfold PatientPage.switch_status. clear V H. switch_on status; repeat split. }
    split; [rewrite V; apply K |].
    destruct (result (PatientPage.poll_loop api visitId n0 (S i0)
                        (final (PatientPage.switch_status status s0)))) as [[|] |];
      [| | exact H].
    + destruct H as (A & B & C & Q), K as (_ & K1 & K2).
      repeat split; try congruence; unfold count in *; simpl; lia.
    + destruct H as [[O C] | (O & X & C)]; [left | right];
        repeat split; try assumption; unfold count in *; simpl; lia.
  - intros. split; [reflexivity |]. left. split; reflexivity.
  - intros. split; [reflexivity |]. right. repeat split.
Qed.

End PatientPageRuns.

(** ** unnamed/part_000: induction on the iterations of the loop *)

Section Part000Runs.

Variable api : Api.
Variable visitId : string.

(** A property of every run of the loop follows from its five cases: the
    counter has reached the budget, the request threw, it returned a status
    that keeps the loop going, it returned [COMPLETED], it returned
    [FAILED]. *)
Lemma part_loop_cases
      (P : nat -> nat -> Part000.State -> Run Part000.State Flow -> Prop) :
  (forall i s, P 0 i s (mkRun (Resolved Next) s [])) ->
  (forall n i s e,
      getProcessingStatus api visitId i = Rejected e ->
      P n (S i) s (Part000.poll_loop api visitId n (S i) s) ->
      P (S n) i s
        (prepend [GetProcessingStatus visitId; ConsoleError "Error polling status:" e]
                 (Part000.poll_loop api visitId n (S i) s))) ->
  (forall n i s status,
      getProcessingStatus api visitId i = Resolved status ->
      terminal status = false ->
      P n (S i) (final (Part000.switch_status status s))
        (Part000.poll_loop api visitId n (S i) (final (Part000.switch_status status s))) ->
      P (S n) i s
        (prepend [GetProcessingStatus visitId; SetTimeout Sleep 2000]
                 (Part000.poll_loop api visitId n (S i)
                    (final (Part000.switch_status status s))))) ->
  (forall n i s,
      getProcessingStatus api visitId i = Resolved "COMPLETED" ->
      P (S n) i s
        (mkRun (Resolved Return) (Part000.mkState (Part000.uploading s) (Part000.visitId s)
              "✅ Complete! Your doctor will review this shortly.")
           [GetProcessingStatus visitId; SetTimeout ResetCallback 3000])) ->
  (forall n i s,
      getProcessingStatus api visitId i = Resolved "FAILED" ->
      P (S n) i s
        (mkRun (Resolved Return) (Part000.mkState false (Part000.visitId s)
              "❌ Processing failed. Please try again.")
           [GetProcessingStatus visitId])) ->
  forall n i s, P n i s (Part000.poll_loop api visitId n i s).
Proof.
  intros H0 Hrej Hpend Hcomp Hfail.
  induction n as [| n IH]; intros i s.
  - apply H0.
  - destruct (getProcessingStatus api visitId i) as [status | e] eqn:G.
    + destruct (terminal status) eqn:T.
      * destruct (terminal_cases status T); subst status.
        -- rewrite (part_loop_completed api visitId n i s G). apply Hcomp, G.
        -- rewrite (part_loop_failed api visitId n i s G). apply Hfail, G.
      * rewrite (part_loop_pending api visitId n i s status G T).
        apply (Hpend n i s status G T), IH.
    + rewrite (part_loop_rejected api visitId n i s e G).
      apply (Hrej n i s e G), IH.
Qed.

Lemma part_loop_bounds (n i : nat) (s : Part000.State) :
  count is_status_query (trace (Part000.poll_loop api visitId n i s)) <= n /\
  count is_sleep (trace (Part000.poll_loop api visitId n i s))
  <= count is_status_query (trace (Part000.poll_loop api visitId n i s)) /\
  stages (trace (Part000.poll_loop api visitId n i s))
  = repeat polling (count is_status_query (trace (Part000.poll_loop api visitId n i s))) /\
  (forall e, ~ In (ConsoleError "Upload error:" e)
               (trace (Part000.poll_loop api visitId n i s))).
Proof.
  apply (part_loop_cases
           (fun n _ _ r =>
              count is_status_query (trace r) <= n /\
              count is_sleep (trace r) <= count is_status_query (trace r) /\
              stages (trace r) = repeat polling (count is_status_query (trace r)) /\
              (forall e, ~ In (ConsoleError "Upload error:" e) (trace r)))).
  - intros. split; [| split; [| split]]; simpl; auto.
  - intros n0 i0 s0 e _ (A & B & C & D). rewrite !count_prepend, trace_prepend.
    cbn [app stages stage_of]. rewrite C.
    split; [| split; [| split]]; unfold count in *; simpl; try lia; try reflexivity.
    intros e' [He | [He | He]]; [discriminate He | discriminate He | exact (D e' He)].
  - intros n0 i0 s0 status _ _ (A & B & C & D). rewrite !count_prepend, trace_prepend.
    cbn [app stages stage_of]. rewrite C.
    split; [| split; [| split]]; unfold count in *; simpl; try lia; try reflexivity.
    intros e' [He | [He | He]]; [discriminate He | discriminate He | exact (D e' He)].
  - intros. split; [| split; [| split]]; unfold count in *; simpl; try lia; try reflexivity.
    intros e' [He | [He | He]]; [discriminate He | discriminate He | exact He].
  - intros. split; [| split; [| split]]; unfold count in *; simpl; try lia; try reflexivity.
    intros e' [He | He]; [discriminate He | exact He].
Qed.

(** How the loop leaves.  Falling out of the loop, it has changed nothing
    but the stage text and set no reset timer; returning, it has shown
    the completed state and set the one reset timer, or shown the failed
    state and set none.  It never touches the visit id. *)
Lemma part_loop_leaves (n i : nat) (s : Part000.State) :
  Part000.visitId (final (Part000.poll_loop api visitId n i s)) = Part000.visitId s /\
  match result (Part000.poll_loop api visitId n i s) with
  | Resolved Next =>
      Part000.uploading (final (Part000.poll_loop api visitId n i s))
      = Part000.uploading s /\
      count is_reset_timer (trace (Part000.poll_loop api visitId n i s)) = 0 /\
      count is_status_query (trace (Part000.poll_loop api visitId n i s)) = n
  | Resolved Return =>
      (Part000.outcome (final (Part000.poll_loop api visitId n i s)) = Some completed /\
       count is_reset_timer (trace (Part000.poll_loop api visitId n i s)) = 1) \/
      (Part000.outcome (final (Part000.poll_loop api visitId n i s))
       = Some (failed "❌ Processing failed. Please try again.") /\
       Part000.uploading (final (Part000.poll_loop api visitId n i s)) = false /\
       count is_reset_timer (trace (Part000.poll_loop api visitId n i s)) = 0)
  | Rejected _ => False
  end.
Proof.
  apply (part_loop_cases
           (fun n _ s r =>
              Part000.visitId (final r) = Part000.visitId s /\
              match result r with
              | Resolved Next =>
                  Part000.uploading (final r) = Part000.uploading s /\
                  count is_reset_timer (trace r) = 0 /\
                  count is_status_query (trace r) = n
              | Resolved Return =>
                  (Part000.outcome (final r) = Some completed /\
                   count is_reset_timer (trace r) = 1) \/
                  (Part000.outcome (final r) = Some (failed "❌ Processing failed. Please try again.") /\
                   Part000.uploading (final r) = false /\
                   count is_reset_timer (trace r) = 0)
              | Rejected _ => False
              end)).
  - intros; repeat split.
  - intros n0 i0 s0 e _ [V H].
    rewrite result_prepend, final_prepend, !count_prepend. split; [exact V |].
    destruct (result (Part000.poll_loop api visitId n0 (S i0) s0)) as [[|] |];
      [| | exact H].
    + destruct H as (A & C & Q).
      repeat split; try assumption; unfold count in *; simpl; lia.
    + destruct H as [[O C] | (O & X & C)]; [left | right];
        repeat split; try assumption; unfold count in *; simpl; lia.
  - intros n0 i0 s0 status _ T [V H].
    rewrite result_prepend, final_prepend, !count_prepend.
    assert (K : Part000.visitId (final (Part000.switch_status status s0))
                = Part000.visitId s0 /\
                Part000.uploading (final (Part000.switch_status status s0))
                = Part000.uploading s0).
    { unfold Part000.switch_status. clear V H. switch_on status; repeat split. }
    split; [rewrite V; apply K |].
    destruct (result (Part000.poll_loop api visitId n0 (S i0)
                        (final (Part000.switch_status status s0)))) as [[|] |];
      [| | exact H].
    + destruct H as (A & C & Q), K as (_ & K1).
      repeat split; try congruence; unfold count in *; simpl; lia.
    + destruct H as [[O C] | (O & X & C)]; [left | right];
        repeat split; try assumption; unfold count in *; simpl; lia.
  - intros. split; [reflexivity |]. left. split; reflexivity.
  - intros. split; [reflexivity |]. right. repeat split.
Qed.

End Part000Runs.

(** ** Every run of [pollProcessingStatus] *)

Lemma page_poll_ends (api : Api) (visitId : string) (retries : nat) (s : PatientPage.State) :
  PatientPage.visitId (final (PatientPage.pollProcessingStatus api visitId retries s))
  = PatientPage.visitId s /\
  ((PatientPage.outcome (final (PatientPage.pollProcessingStatus api visitId retries s))
    = Some completed /\
    count is_reset_timer (trace (PatientPage.pollProcessingStatus api visitId retries s)) = 1) \/
   (PatientPage.outcome (final (PatientPage.pollProcessingStatus api visitId retries s))
    = Some (failed "Processing failed. Please try again.") /\
    count is_reset_timer (trace (PatientPage.pollProcessingStatus api visitId retries s)) = 0) \/
   (PatientPage.outcome (final (PatientPage.pollProcessingStatus api visitId retries s))
    = Some timedOut /\
    count is_reset_timer (trace (PatientPage.pollProcessingStatus api visitId retries s)) = 0 /\
    count is_status_query (trace (PatientPage.pollProcessingStatus api visitId retries s))
    = retries)).
Proof.
  pose proof (page_loop_leaves api visitId retries 0 s) as [V H].
  unfold PatientPage.pollProcessingStatus, bind.
  destruct (PatientPage.poll_loop api visitId retries 0 s) as [[[|] | e] f t];
    cbn [result final trace] in V, H; [| | contradiction].
  - unfold PatientPage.setStatusMessage, PatientPage.setVoiceState, modify. cbn [prepend result final trace].
    rewrite !app_nil_r. destruct H as (_ & _ & C & Q).
    split; [exact V |]. right. right. repeat split; assumption.
  - unfold ret. cbn [prepend result final trace]. rewrite app_nil_r.
    split; [exact V |].
    destruct H as [[O C] | (O & _ & C)]; [left | right; left]; split; assumption.
Qed.

Lemma page_poll_bounds (api : Api) (visitId : string) (retries : nat) (s : PatientPage.State) :
  count is_status_query (trace (PatientPage.pollProcessingStatus api visitId retries s))
  <= retries /\
  count is_sleep (trace (PatientPage.pollProcessingStatus api visitId retries s))
  <= count is_status_query (trace (PatientPage.pollProcessingStatus api visitId retries s)) /\
  stages (trace (PatientPage.pollProcessingStatus api visitId retries s))
  = repeat polling
      (count is_status_query (trace (PatientPage.pollProcessingStatus api visitId retries s))).
Proof.
  rewrite page_poll_trace.
  destruct (page_loop_bounds api visitId retries 0 s) as (A & B & C & _).
  repeat split; assumption.
Qed.

(** The attempts before the first one that ends the loop: one request
    each, no reset timer, and the loop goes on from there. *)
Lemma page_loop_skips (api : Api) (visitId : string) (k : nat) :
  forall (n i : nat) (s : PatientPage.State),
    (forall j, j < k -> nonterminal (getProcessingStatus api visitId (i + j)) = true) ->
    exists (t : list Effect) (s' : PatientPage.State),
      PatientPage.poll_loop api visitId (k + n) i s
      = prepend t (PatientPage.poll_loop api visitId n (i + k) s') /\
      count is_status_query t = k /\
      count is_reset_timer t = 0.
Proof.
  induction k as [| k IH]; intros n i s H.
  - exists [], s. rewrite Nat.add_0_r, prepend_nil. repeat split.
  - assert (H0 : nonterminal (getProcessingStatus api visitId i) = true).
    { rewrite <- (Nat.add_0_r i). apply H. lia. }
    assert (HS : forall j, j < k ->
                 nonterminal (getProcessingStatus api visitId (S i + j)) = true).
    { intros j Hj. replace (S i + j) with (i + S j) by lia. apply H. lia. }
    replace (i + S k) with (S i + k) by lia. cbn [Nat.add].
    destruct (getProcessingStatus api visitId i) as [status | e] eqn:G.
    + simpl in H0. apply negb_true_iff in H0.
      destruct (IH n (S i) (final (PatientPage.switch_status status s)) HS)
        as (t & s' & E & Q & R).
      exists ([GetProcessingStatus visitId; SetTimeout Sleep 2000] ++ t)%list, s'.
      rewrite (page_loop_pending api visitId (k + n) i s status G H0), E.
      rewrite prepend_prepend, !count_app, Q, R. repeat split.
    + destruct (IH n (S i) s HS) as (t & s' & E & Q & R).
      exists ([GetProcessingStatus visitId;
               ConsoleError "Error polling status:" e] ++ t)%list, s'.
      rewrite (page_loop_rejected api visitId (k + n) i s e G), E.
      rewrite prepend_prepend, !count_app, Q, R. repeat split.
Qed.

Lemma page_poll_first_terminal (api : Api) (visitId : string) (retries k : nat)
      (status : string) (s : PatientPage.State) :
  k < retries ->
  (forall j, j < k -> nonterminal (getProcessingStatus api visitId j) = true) ->
  getProcessingStatus api visitId k = Resolved status ->
  terminal status = true ->
  count is_status_query (trace (PatientPage.pollProcessingStatus api visitId retries s))
  = S k /\
  PatientPage.outcome (final (PatientPage.pollProcessingStatus api visitId retries s))
  = Some (if String.eqb status "COMPLETED" then completed
          else failed "Processing failed. Please try again.").
Proof.
  intros Hk H G T.
  destruct (page_loop_skips api visitId k (retries - k) 0 s H) as (t & s' & E & Q & _).
  replace (k + (retries - k)) with retries in E by lia.
  destruct (retries - k) as [| m] eqn:Hm; [lia |]. cbn [Nat.add] in E.
  unfold PatientPage.pollProcessingStatus, bind. rewrite E.
  destruct (terminal_cases status T); subst status.
  - rewrite (page_loop_completed api visitId m k s' G).
    cbn [prepend ret result final trace]. rewrite app_nil_r, count_app, Q.
    split; [unfold count; simpl; lia | reflexivity].
  - rewrite (page_loop_failed api visitId m k s' G).
    cbn [prepend ret result final trace]. rewrite app_nil_r, count_app, Q.
    split; [unfold count; simpl; lia | reflexivity].
Qed.

Lemma part_poll_ends (api : Api) (visitId : string) (retries : nat) (s : Part000.State) :
  Part000.visitId (final (Part000.pollProcessingStatus api visitId retries s))
  = Part000.visitId s /\
  ((Part000.outcome (final (Part000.pollProcessingStatus api visitId retries s))
    = Some completed /\
    count is_reset_timer (trace (Part000.pollProcessingStatus api visitId retries s)) = 1) \/
   (Part000.outcome (final (Part000.pollProcessingStatus api visitId retries s))
    = Some (failed "❌ Processing failed. Please try again.") /\
    count is_reset_timer (trace (Part000.pollProcessingStatus api visitId retries s)) = 0) \/
   (Part000.outcome (final (Part000.pollProcessingStatus api visitId retries s))
    = Some timedOut /\
    count is_reset_timer (trace (Part000.pollProcessingStatus api visitId retries s)) = 0 /\
    count is_status_query (trace (Part000.pollProcessingStatus api visitId retries s))
    = retries)).
Proof.
  pose proof (part_loop_leaves api visitId retries 0 s) as [V H].
  unfold Part000.pollProcessingStatus, bind.
  destruct (Part000.poll_loop api visitId retries 0 s) as [[[|] | e] f t];
    cbn [result final trace] in V, H; [| | contradiction].
  - unfold Part000.setProcessingStatus, Part000.setUploading, modify. cbn [prepend result final trace].
    rewrite !app_nil_r. destruct H as (_ & C & Q).
    split; [exact V |]. right. right. repeat split; assumption.
  - unfold ret. cbn [prepend result final trace]. rewrite app_nil_r.
    split; [exact V |].
    destruct H as [[O C] | (O & _ & C)]; [left | right; left]; split; assumption.
Qed.

Lemma part_poll_bounds (api : Api) (visitId : string) (retries : nat) (s : Part000.State) :
  count is_status_query (trace (Part000.pollProcessingStatus api visitId retries s))
  <= retries /\
  count is_sleep (trace (Part000.pollProcessingStatus api visitId retries s))
  <= count is_status_query (trace (Part000.pollProcessingStatus api visitId retries s)) /\
  stages (trace (Part000.pollProcessingStatus api visitId retries s))
  = repeat polling
      (count is_status_query (trace (Part000.pollProcessingStatus api visitId retries s))).
Proof.
  rewrite part_poll_trace.
  destruct (part_loop_bounds api visitId retries 0 s) as (A & B & C & _).
  repeat split; assumption.
Qed.

(** The attempts before the first one that ends the loop: one request
    each, no reset timer, and the loop goes on from there. *)
Lemma part_loop_skips (api : Api) (visitId : string) (k : nat) :
  forall (n i : nat) (s : Part000.State),
    (forall j, j < k -> nonterminal (getProcessingStatus api visitId (i + j)) = true) ->
    exists (t : list Effect) (s' : Part000.State),
      Part000.poll_loop api visitId (k + n) i s
      = prepend t (Part000.poll_loop api visitId n (i + k) s') /\
      count is_status_query t = k /\
      count is_reset_timer t = 0.
Proof.
  induction k as [| k IH]; intros n i s H.
  - exists [], s. rewrite Nat.add_0_r, prepend_nil. repeat split.
  - assert (H0 : nonterminal (getProcessingStatus api visitId i) = true).
    { rewrite <- (Nat.add_0_r i). apply H. lia. }
    assert (HS : forall j, j < k ->
                 nonterminal (getProcessingStatus api visitId (S i + j)) = true).
    { intros j Hj. replace (S i + j) with (i + S j) by lia. apply H. lia. }
    replace (i + S k) with (S i + k) by lia. cbn [Nat.add].
    destruct (getProcessingStatus api visitId i) as [status | e] eqn:G.
    + simpl in H0. apply negb_true_iff in H0.
      destruct (IH n (S i) (final (Part000.switch_status status s)) HS)
        as (t & s' & E & Q & R).
      exists ([GetProcessingStatus visitId; SetTimeout Sleep 2000] ++ t)%list, s'.
      rewrite (part_loop_pending api visitId (k + n) i s status G H0), E.
      rewrite prepend_prepend, !count_app, Q, R. repeat split.
    + destruct (IH n (S i) s HS) as (t & s' & E & Q & R).
      exists ([GetProcessingStatus visitId;
               ConsoleError "Error polling status:" e] ++ t)%list, s'.
      rewrite (part_loop_rejected api visitId (k + n) i s e G), E.
      rewrite prepend_prepend, !count_app, Q, R. repeat split.
Qed.

Lemma part_poll_first_terminal (api : Api) (visitId : string) (retries k : nat)
      (status : string) (s : Part000.State) :
  k < retries ->
  (forall j, j < k -> nonterminal (getProcessingStatus api visitId j) = true) ->
  getProcessingStatus api visitId k = Resolved status ->
  terminal status = true ->
  count is_status_query (trace (Part000.pollProcessingStatus api visitId retries s))
  = S k /\
  Part000.outcome (final (Part000.pollProcessingStatus api visitId retries s))
  = Some (if String.eqb status "COMPLETED" then completed
          else failed "❌ Processing failed. Please try again.").
Proof.
  intros Hk H G T.
  destruct (part_loop_skips api visitId k (retries - k) 0 s H) as (t & s' & E & Q & _).
  replace (k + (retries - k)) with retries in E by lia.
  destruct (retries - k) as [| m] eqn:Hm; [lia |]. cbn [Nat.add] in E.
  unfold Part000.pollProcessingStatus, bind. rewrite E.
  destruct (terminal_cases status T); subst status.
  - rewrite (part_loop_completed api visitId m k s' G).
    cbn [prepend ret result final trace]. rewrite app_nil_r, count_app, Q.
    split; [unfold count; simpl; lia | reflexivity].
  - rewrite (part_loop_failed api visitId m k s' G).
    cbn [prepend ret result final trace]. rewrite app_nil_r, count_app, Q.
    split; [unfold count; simpl; lia | reflexivity].
Qed.

(** ** Every run of [uploadAndProcess] *)

(** The five ways through [uploadAndProcess], by what the four setup
    requests settle to. *)
Ltac page_paths api user blob duration language s :=
  let v := fresh "v" in
  let u := fresh "u" in
  let e := fresh "e" in
  let Hc := fresh "Hc" in
  let Hg := fresh "Hg" in
  let Hu := fresh "Hu" in
  let Hp := fresh "Hp" in
  destruct (createVisit api (visitData_of user language duration)) as [v | e] eqn:Hc;
  [ destruct (getUploadUrl api (visit_id v) "webm") as [u | e] eqn:Hg;
    [ destruct (uploadToS3 api (upload_url u) blob) as [[] | e] eqn:Hu;
      [ destruct (processAudio api (visit_id v) (audio_s3_key u)) as [[] | e] eqn:Hp;
        [ rewrite (page_upload_hands_over api user blob duration language v u s
                     Hc Hg Hu Hp)
        | rewrite (page_upload_trigger_fails api user blob duration language v u e s
                     Hc Hg Hu Hp) ]
      | rewrite (page_upload_store_fails api user blob duration language v u e s
                   Hc Hg Hu) ]
    | rewrite (page_upload_target_fails api user blob duration language v e s Hc Hg) ]
  | rewrite (page_upload_create_fails api user blob duration language e s Hc) ].

Lemma page_submit_caught (api : Api) (user : option User.t) (blob : Blob)
      (duration : nat) (language : string) (e : JsError) (s : PatientPage.State) :
  In (ConsoleError "Upload error:" e)
     (trace (PatientPage.uploadAndProcess api
               (PatientPage.mkProps user (Some blob) duration language) s)) ->
  PatientPage.outcome
    (final (PatientPage.uploadAndProcess api
              (PatientPage.mkProps user (Some blob) duration language) s))
  = Some (failed (or_default (message e) "Upload failed")) /\
  count is_status_query
    (trace (PatientPage.uploadAndProcess api
              (PatientPage.mkProps user (Some blob) duration language) s)) = 0.
Proof.
  page_paths api user blob duration language s.
  - rewrite trace_prepend, page_poll_trace. cbn [app]. intros H. exfalso.
    destruct H as [H | [H | [H | [H | H]]]]; try discriminate H.
    match goal with
    | H : In _ (trace (PatientPage.poll_loop api ?vid ?n 0 ?s0)) |- _ =>
        destruct (page_loop_bounds api vid n 0 s0) as (_ & _ & _ & D); exact (D e H)
    end.
  - cbn [trace final]. intros H.
    destruct H as [H | [H | [H | [H | [H | H]]]]]; try discriminate H; [| contradiction].
    injection H as <-. split; reflexivity.
  - cbn [trace final]. intros H.
    destruct H as [H | [H | [H | [H | H]]]]; try discriminate H; [| contradiction].
    injection H as <-. split; reflexivity.
  - cbn [trace final]. intros H.
    destruct H as [H | [H | [H | H]]]; try discriminate H; [| contradiction].
    injection H as <-. split; reflexivity.
  - cbn [trace final]. intros H.
    destruct H as [H | [H | H]]; try discriminate H; [| contradiction].
    injection H as <-. split; reflexivity.
Qed.

Lemma page_submit_stages (api : Api) (user : option User.t) (blob : Blob)
      (duration : nat) (language : string) (s : PatientPage.State) :
  exists k m,
    stages (trace (PatientPage.uploadAndProcess api
                     (PatientPage.mkProps user (Some blob) duration language) s))
    = (firstn k setup_stages ++ repeat polling m)%list /\
    1 <= k <= 4 /\ m <= default_retries /\ (0 < m -> k = 4).
Proof.
  page_paths api user blob duration language s.
  - rewrite trace_prepend. cbn [app stages stage_of].
    match goal with
    | |- context [PatientPage.pollProcessingStatus api ?vid ?n ?s0] =>
        destruct (page_poll_bounds api vid n s0) as (A & _ & C)
    end.
    exists 4. eexists. rewrite C. split; [reflexivity |].
    split; [lia |]. split; [exact A | reflexivity].
  - exists 4, 0. cbn. repeat split; lia.
  - exists 3, 0. cbn. repeat split; lia.
  - exists 2, 0. cbn. repeat split; lia.
  - exists 1, 0. cbn. repeat split; lia.
Qed.

Lemma page_submit_visit_id (api : Api) (user : option User.t) (blob : Blob)
      (duration : nat) (language : string) (s : PatientPage.State) :
  PatientPage.visitId
    (final (PatientPage.uploadAndProcess api
              (PatientPage.mkProps user (Some blob) duration language) s))
  = match createVisit api (visitData_of user language duration) with
    | Resolved visit => Some (visit_id visit)
    | Rejected _ => PatientPage.visitId s
    end.
Proof.
  page_paths api user blob duration language s; try reflexivity.
  rewrite final_prepend.
  match goal with
  | |- context [PatientPage.pollProcessingStatus api ?vid ?n ?s0] =>
      destruct (page_poll_ends api vid n s0) as [V _]; rewrite V
  end.
  reflexivity.
Qed.

(** The five ways through [uploadAndProcess], by what the four setup
    requests settle to. *)
Ltac part_paths api user blob duration language s :=
  let v := fresh "v" in
  let u := fresh "u" in
  let e := fresh "e" in
  let Hc := fresh "Hc" in
  let Hg := fresh "Hg" in
  let Hu := fresh "Hu" in
  let Hp := fresh "Hp" in
  destruct (createVisit api (visitData_of user language duration)) as [v | e] eqn:Hc;
  [ destruct (getUploadUrl api (visit_id v) "webm") as [u | e] eqn:Hg;
    [ destruct (uploadToS3 api (upload_url u) blob) as [[] | e] eqn:Hu;
      [ destruct (processAudio api (visit_id v) (audio_s3_key u)) as [[] | e] eqn:Hp;
        [ rewrite (part_upload_hands_over api user blob duration language v u s
                     Hc Hg Hu Hp)
        | rewrite (part_upload_trigger_fails api user blob duration language v u e s
                     Hc Hg Hu Hp) ]
      | rewrite (part_upload_store_fails api user blob duration language v u e s
                   Hc Hg Hu) ]
    | rewrite (part_upload_target_fails api user blob duration language v e s Hc Hg) ]
  | rewrite (part_upload_create_fails api user blob duration language e s Hc) ].

Lemma part_submit_caught (api : Api) (user : option User.t) (blob : Blob)
      (duration : nat) (language : string) (e : JsError) (s : Part000.State) :
  In (ConsoleError "Upload error:" e)
     (trace (Part000.uploadAndProcess api
               (Part000.mkProps user (Some blob) duration language) s)) ->
  Part000.outcome
    (final (Part000.uploadAndProcess api
              (Part000.mkProps user (Some blob) duration language) s))
  = Some (failed ("❌ Error: " ++ or_default (message e) "Upload failed")) /\
  count is_status_query
    (trace (Part000.uploadAndProcess api
              (Part000.mkProps user (Some blob) duration language) s)) = 0.
Proof.
  part_paths api user blob duration language s.
  - rewrite trace_prepend, part_poll_trace. cbn [app]. intros H. exfalso.
    destruct H as [H | [H | [H | [H | H]]]]; try discriminate H.
    match goal with
    | H : In _ (trace (Part000.poll_loop api ?vid ?n 0 ?s0)) |- _ =>
        destruct (part_loop_bounds api vid n 0 s0) as (_ & _ & _ & D); exact (D e H)
    end.
  - cbn [trace final]. intros H.
    destruct H as [H | [H | [H | [H | [H | H]]]]]; try discriminate H; [| contradiction].
    injection H as <-. split; reflexivity.
  - cbn [trace final]. intros H.
    destruct H as [H | [H | [H | [H | H]]]]; try discriminate H; [| contradiction].
    injection H as <-. split; reflexivity.
  - cbn [trace final]. intros H.
    destruct H as [H | [H | [H | H]]]; try discriminate H; [| contradiction].
    injection H as <-. split; reflexivity.
  - cbn [trace final]. intros H.
    destruct H as [H | [H | H]]; try discriminate H; [| contradiction].
    injection H as <-. split; reflexivity.
Qed.

Lemma part_submit_stages (api : Api) (user : option User.t) (blob : Blob)
      (duration : nat) (language : string) (s : Part000.State) :
  exists k m,
    stages (trace (Part000.uploadAndProcess api
                     (Part000.mkProps user (Some blob) duration language) s))
    = (firstn k setup_stages ++ repeat polling m)%list /\
    1 <= k <= 4 /\ m <= default_retries /\ (0 < m -> k = 4).
Proof.
  part_paths api user blob duration language s.
  - rewrite trace_prepend. cbn [app stages stage_of].
    match goal with
    | |- context [Part000.pollProcessingStatus api ?vid ?n ?s0] =>
        destruct (part_poll_bounds api vid n s0) as (A & _ & C)
    end.
    exists 4. eexists. rewrite C. split; [reflexivity |].
    split; [lia |]. split; [exact A | reflexivity].
  - exists 4, 0. cbn. repeat split; lia.
  - exists 3, 0. cbn. repeat split; lia.
  - exists 2, 0. cbn. repeat split; lia.
  - exists 1, 0. cbn. repeat split; lia.
Qed.

Lemma part_submit_visit_id (api : Api) (user : option User.t) (blob : Blob)
      (duration : nat) (language : string) (s : Part000.State) :
  Part000.visitId
    (final (Part000.uploadAndProcess api
              (Part000.mkProps user (Some blob) duration language) s))
  = match createVisit api (visitData_of user language duration) with
    | Resolved visit => Some (visit_id visit)
    | Rejected _ => Part000.visitId s
    end.
Proof.
  part_paths api user blob duration language s; try reflexivity.
  rewrite final_prepend.
  match goal with
  | |- context [Part000.pollProcessingStatus api ?vid ?n ?s0] =>
      destruct (part_poll_ends api vid n s0) as [V _]; rewrite V
  end.
  reflexivity.
Qed.

(** ** What the pages render when [uploadAndProcess] has returned *)






(** X1.  Whatever the backend answers, [pollProcessingStatus] makes at
    most [retries] status requests, waits 2000 ms at most once per
    request, and sends nothing but status requests.  Holds for both
    pages. *)
Theorem poll_stays_within_budget
        (api : Api) (visitId : string) (retries : nat)
        (s1 : PatientPage.State) (s2 : Part000.State) :
  (count is_status_query
     (trace (PatientPage.pollProcessingStatus api visitId retries s1)) <= retries /\
   count is_sleep (trace (PatientPage.pollProcessingStatus api visitId retries s1))
   <= count is_status_query
        (trace (PatientPage.pollProcessingStatus api visitId retries s1)) /\
   stages (trace (PatientPage.pollProcessingStatus api visitId retries s1))
   = repeat polling
       (count is_status_query
          (trace (PatientPage.pollProcessingStatus api visitId retries s1)))) /\
  (count is_status_query
     (trace (Part000.pollProcessingStatus api visitId retries s2)) <= retries /\
   count is_sleep (trace (Part000.pollProcessingStatus api visitId retries s2))
   <= count is_status_query
        (trace (Part000.pollProcessingStatus api visitId retries s2)) /\
   stages (trace (Part000.pollProcessingStatus api visitId retries s2))
   = repeat polling
       (count is_status_query
          (trace (Part000.pollProcessingStatus api visitId retries s2)))).
Proof.
  split.
  - apply page_poll_bounds.
  - apply part_poll_bounds.
Qed.

(** X2.  Every run of [pollProcessingStatus] leaves the visit id as it was
    and ends in one of three ways: completed, with exactly one reset timer
    set; failed with the fixed processing-failed message, with no reset
    timer; or timed out, with no reset timer and only after all [retries]
    requests were made.  So a failed or timed-out state is never cleared by
    a timer.  Holds for both pages. *)
Theorem poll_ends_in_one_of_three_outcomes
        (api : Api) (visitId : string) (retries : nat)
        (s1 : PatientPage.State) (s2 : Part000.State) :
  (PatientPage.visitId (final (PatientPage.pollProcessingStatus api visitId retries s1))
   = PatientPage.visitId s1 /\
   ((PatientPage.outcome
       (final (PatientPage.pollProcessingStatus api visitId retries s1))
     = Some completed /\
     count is_reset_timer
       (trace (PatientPage.pollProcessingStatus api visitId retries s1)) = 1) \/
    (PatientPage.outcome
       (final (PatientPage.pollProcessingStatus api visitId retries s1))
     = Some (failed "Processing failed. Please try again.") /\
     count is_reset_timer
       (trace (PatientPage.pollProcessingStatus api visitId retries s1)) = 0) \/
    (PatientPage.outcome
       (final (PatientPage.pollProcessingStatus api visitId retries s1))
     = Some timedOut /\
     count is_reset_timer
       (trace (PatientPage.pollProcessingStatus api visitId retries s1)) = 0 /\
     count is_status_query
       (trace (PatientPage.pollProcessingStatus api visitId retries s1)) = retries))) /\
  (Part000.visitId (final (Part000.pollProcessingStatus api visitId retries s2))
   = Part000.visitId s2 /\
   ((Part000.outcome (final (Part000.pollProcessingStatus api visitId retries s2))
     = Some completed /\
     count is_reset_timer
       (trace (Part000.pollProcessingStatus api visitId retries s2)) = 1) \/
    (Part000.outcome (final (Part000.pollProcessingStatus api visitId retries s2))
     = Some (failed "❌ Processing failed. Please try again.") /\
     count is_reset_timer
       (trace (Part000.pollProcessingStatus api visitId retries s2)) = 0) \/
    (Part000.outcome (final (Part000.pollProcessingStatus api visitId retries s2))
     = Some timedOut /\
     count is_reset_timer
       (trace (Part000.pollProcessingStatus api visitId retries s2)) = 0 /\
     count is_status_query
       (trace (Part000.pollProcessingStatus api visitId retries s2)) = retries))).
Proof.
  split.
  - apply page_poll_ends.
  - apply part_poll_ends.
Qed.

(** X3.  The first attempt that returns [COMPLETED] or [FAILED] decides the
    run: when attempt [k] is within the budget, no earlier attempt ended
    the loop (each threw or returned some other status) and attempt [k]
    returns a terminal status, exactly [k + 1] status requests are made and
    the outcome is completed for [COMPLETED] and failed for [FAILED].
    Holds for both pages. *)
Theorem poll_stops_at_first_terminal_status
        (api : Api) (visitId : string) (retries k : nat) (status : string)
        (s1 : PatientPage.State) (s2 : Part000.State) :
  k < retries ->
  (forall j, j < k -> nonterminal (getProcessingStatus api visitId j) = true) ->
  getProcessingStatus api visitId k = Resolved status ->
  terminal status = true ->
  (count is_status_query
     (trace (PatientPage.pollProcessingStatus api visitId retries s1)) = S k /\
   PatientPage.outcome (final (PatientPage.pollProcessingStatus api visitId retries s1))
   = Some (if String.eqb status "COMPLETED" then completed
           else failed "Processing failed. Please try again.")) /\
  (count is_status_query
     (trace (Part000.pollProcessingStatus api visitId retries s2)) = S k /\
   Part000.outcome (final (Part000.pollProcessingStatus api visitId retries s2))
   = Some (if String.eqb status "COMPLETED" then completed
           else failed "❌ Processing failed. Please try again.")).
Proof.
  intros Hk H G T. split.
  - apply page_poll_first_terminal; assumption.
  - apply part_poll_first_terminal; assumption.
Qed.

Lemma poll_stops_at_first_terminal_status_witness :
  count is_status_query
    (trace (PatientPage.pollProcessingStatus
              (scripted (fun i => match i with
                                  | 0 => Rejected (mkError None)
                                  | 1 => Resolved "QUEUED"
                                  | _ => Resolved "FAILED"
                                  end))
              "visit-1" 30 page_mounted)) = 3 /\
  PatientPage.outcome
    (final (PatientPage.pollProcessingStatus
              (scripted (fun i => match i with
                                  | 0 => Rejected (mkError None)
                                  | 1 => Resolved "QUEUED"
                                  | _ => Resolved "FAILED"
                                  end))
              "visit-1" 30 page_mounted))
  = Some (failed "Processing failed. Please try again.").
Proof.
  apply (proj1 (poll_stops_at_first_terminal_status
                  (scripted (fun i => match i with
                                      | 0 => Rejected (mkError None)
                                      | 1 => Resolved "QUEUED"
                                      | _ => Resolved "FAILED"
                                      end))
                  "visit-1" 30 2 "FAILED" page_mounted part_mounted
                  ltac:(lia)
                  ltac:(intros [| [| j]] Hj; [reflexivity | reflexivity | lia])
                  eq_refl eq_refl)).
Defined.


(** X5.  Whenever the [catch] of [uploadAndProcess] runs (the trace has
    its log line for an error [e]), the outcome is failed with the message
    of [e], or the fallback text when it has none, and not a single status
    request has been made: only the setup requests can reach that [catch],
    an error while polling never does.  Holds for both pages. *)
Theorem submit_catch_means_failed_before_polling
        (api : Api) (user : option User.t) (blob : Blob) (duration : nat)
        (language : string) (e : JsError)
        (s1 : PatientPage.State) (s2 : Part000.State) :
  (In (ConsoleError "Upload error:" e)
      (trace (PatientPage.uploadAndProcess api
                (PatientPage.mkProps user (Some blob) duration language) s1)) ->
   PatientPage.outcome
     (final (PatientPage.uploadAndProcess api
               (PatientPage.mkProps user (Some blob) duration language) s1))
   = Some (failed (or_default (message e) "Upload failed")) /\
   count is_status_query
     (trace (PatientPage.uploadAndProcess api
               (PatientPage.mkProps user (Some blob) duration language) s1)) = 0) /\
  (In (ConsoleError "Upload error:" e)
      (trace (Part000.uploadAndProcess api
                (Part000.mkProps user (Some blob) duration language) s2)) ->
   Part000.outcome
     (final (Part000.uploadAndProcess api
               (Part000.mkProps user (Some blob) duration language) s2))
   = Some (failed ("❌ Error: " ++ or_default (message e) "Upload failed")) /\
   count is_status_query
     (trace (Part000.uploadAndProcess api
               (Part000.mkProps user (Some blob) duration language) s2)) = 0).
Proof.
  split.
  - apply page_submit_caught.
  - apply part_submit_caught.
Qed.

Lemma submit_catch_means_failed_before_polling_witness :
  PatientPage.outcome
    (final (PatientPage.uploadAndProcess
              (store_down (mkError (Some "Network Error")) (fun _ => Resolved "COMPLETED"))
              (PatientPage.mkProps None (Some ["x"%byte]) 4 "hi-IN") page_mounted))
  = Some (failed (or_default (Some "Network Error") "Upload failed")) /\
  count is_status_query
    (trace (PatientPage.uploadAndProcess
              (store_down (mkError (Some "Network Error")) (fun _ => Resolved "COMPLETED"))
              (PatientPage.mkProps None (Some ["x"%byte]) 4 "hi-IN") page_mounted))
  = 0.
Proof.
  apply (proj1 (submit_catch_means_failed_before_polling
                  (store_down (mkError (Some "Network Error"))
                     (fun _ => Resolved "COMPLETED"))
                  None ["x"%byte] 4 "hi-IN" (mkError (Some "Network Error"))
                  page_mounted part_mounted)).
  right. right. right. left. reflexivity.
Defined.

(** X6.  The requests of a submission follow the stages in order: visit
    creation, upload target, upload, processing trigger, then status
    requests.  A run makes the first [k] of the four setup requests, once
    each, for some [k] from 1 to 4, and then at most 30 status requests,
    and none unless all four setup requests were made.  Holds for both
    pages. *)
Theorem submit_requests_follow_the_stages
        (api : Api) (user : option User.t) (blob : Blob) (duration : nat)
        (language : string) (s1 : PatientPage.State) (s2 : Part000.State) :
  (exists k m,
     stages (trace (PatientPage.uploadAndProcess api
                      (PatientPage.mkProps user (Some blob) duration language) s1))
     = (firstn k setup_stages ++ repeat polling m)%list /\
     1 <= k <= 4 /\ m <= 30 /\ (0 < m -> k = 4)) /\
  (exists k m,
     stages (trace (Part000.uploadAndProcess api
                      (Part000.mkProps user (Some blob) duration language) s2))
     = (firstn k setup_stages ++ repeat polling m)%list /\
     1 <= k <= 4 /\ m <= 30 /\ (0 < m -> k = 4)).
Proof.
  split.
  - apply page_submit_stages.
  - apply part_submit_stages.
Qed.

(** X7.  After a submission the visit id cell holds the id returned by
    [createVisit] whenever that call succeeded, also when a later stage
    failed or polling timed out, and keeps its earlier value when
    [createVisit] failed.  Holds for both pages. *)
Theorem submit_records_the_visit_id
        (api : Api) (user : option User.t) (blob : Blob) (duration : nat)
        (language : string) (s1 : PatientPage.State) (s2 : Part000.State) :
  PatientPage.visitId
    (final (PatientPage.uploadAndProcess api
              (PatientPage.mkProps user (Some blob) duration language) s1))
  = match createVisit api (visitData_of user language duration) with
    | Resolved visit => Some (visit_id visit)
    | Rejected _ => PatientPage.visitId s1
    end /\
  Part000.visitId
    (final (Part000.uploadAndProcess api
              (Part000.mkProps user (Some blob) duration language) s2))
  = match createVisit api (visitData_of user language duration) with
    | Resolved visit => Some (visit_id visit)
    | Rejected _ => Part000.visitId s2
    end.
Proof.
  split.
  - apply page_submit_visit_id.
  - apply part_submit_visit_id.
Qed.

(** ** [formatTime] *)

Lemma toString_injective (a b : N) : toString a = toString b -> a = b.
Proof.
  unfold toString. intros H.
  assert (E : Some (N.to_uint a) = Some (N.to_uint b)).
  { rewrite <- (NilEmpty.usu (N.to_uint a)), <- (NilEmpty.usu (N.to_uint b)), H.
    reflexivity. }
  injection E as E.
  rewrite <- (DecimalN.Unsigned.of_to a), <- (DecimalN.Unsigned.of_to b), E.
  reflexivity.
Qed.

(** The two-character seconds field. *)
Lemma seconds_field (r : N) :
  (r < 60)%N ->
  padStart (toString r) 2 "0"
  = String (ascii_of_N (48 + r / 10)) (String (ascii_of_N (48 + r mod 10)) "").
Proof.
  intros H. rewrite <- (N2Nat.id r).
  assert (K : N.to_nat r < 60) by lia.
  generalize dependent (N.to_nat r). clear H. intros k K.
  do 60 (destruct k as [| k]; [reflexivity |]). lia.
Qed.

Lemma formatTime_form (seconds : N) :
  PatientPage.formatTime seconds
  = toString (seconds / 60) ++ ":"
    ++ String (ascii_of_N (48 + (seconds mod 60) / 10))
         (String (ascii_of_N (48 + (seconds mod 60) mod 10)) "").
Proof.
  unfold PatientPage.formatTime. cbv zeta.
  rewrite (seconds_field (seconds mod 60)); [reflexivity |].
  apply N.mod_lt. discriminate.
Qed.

Lemma length_append (a b : string) :
  String.length (a ++ b) = String.length a + String.length b.
Proof. induction a as [| c a IH]; simpl; [reflexivity | rewrite IH; reflexivity]. Qed.

Lemma append_same_length (a a' b b' : string) :
  String.length a = String.length a' -> a ++ b = a' ++ b' -> a = a' /\ b = b'.
Proof.
  revert a'. induction a as [| c a IH]; intros [| c' a'] L E;
    simpl in L; try discriminate L.
  - split; [reflexivity | exact E].
  - simpl in E. injection E as -> E. injection L as L.
    destruct (IH a' L E) as [-> ->]. split; reflexivity.
Qed.

Lemma digit_injective (x y : N) :
  (x < 10)%N -> (y < 10)%N ->
  ascii_of_N (48 + x) = ascii_of_N (48 + y) -> x = y.
Proof.
  intros Hx Hy E. apply (f_equal N_of_ascii) in E.
  rewrite !N_ascii_embedding in E by lia. lia.
Qed.

Lemma page_formatTime_injective (a b : N) :
  PatientPage.formatTime a = PatientPage.formatTime b -> a = b.
Proof.
  rewrite !formatTime_form. intros E.
  assert (L : String.length (toString (a / 60)) = String.length (toString (b / 60))).
  { apply (f_equal String.length) in E. rewrite !length_append in E.
    simpl in E. lia. }
  destruct (append_same_length _ _ _ _ L E) as [M R].
  apply toString_injective in M. simpl in R. injection R as R1 R2.
  assert (Ha : (a mod 60 < 60)%N) by (apply N.mod_lt; discriminate).
  assert (Hb : (b mod 60 < 60)%N) by (apply N.mod_lt; discriminate).
  apply digit_injective in R1;
    [| apply N.Div0.div_lt_upper_bound; lia | apply N.Div0.div_lt_upper_bound; lia].
  apply digit_injective in R2; [| apply N.mod_lt; discriminate | apply N.mod_lt; discriminate].
  pose proof (N.div_mod' (a mod 60) 10). pose proof (N.div_mod' (b mod 60) 10).
  pose proof (N.div_mod' a 60). pose proof (N.div_mod' b 60). lia.
Qed.

(** X8.  The displayed duration is the minutes, a colon, and a seconds field
    of exactly two decimal digits that spell [seconds mod 60]; so the text
    is three characters longer than the minutes.  For every count of
    seconds JavaScript represents exactly; same function on both pages. *)
Theorem formatTime_has_two_digit_seconds (seconds : N) :
  (seconds < 2 ^ 53)%N ->
  exists tens units : N,
    (tens < 6)%N /\ (units < 10)%N /\ (10 * tens + units = seconds mod 60)%N /\
    PatientPage.formatTime seconds
    = toString (seconds / 60) ++ ":"
      ++ String (ascii_of_N (48 + tens)) (String (ascii_of_N (48 + units)) "") /\
    Part000.formatTime seconds = PatientPage.formatTime seconds /\
    String.length (PatientPage.formatTime seconds)
    = String.length (toString (seconds / 60)) + 3.
Proof.
  intros _.
  assert (H : (seconds mod 60 < 60)%N) by (apply N.mod_lt; discriminate).
  exists (seconds mod 60 / 10)%N, ((seconds mod 60) mod 10)%N.
  split; [apply N.Div0.div_lt_upper_bound; lia |].
  split; [apply N.mod_lt; discriminate |].
  split; [symmetry; apply N.div_mod' |].
  split; [apply formatTime_form |].
  split; [reflexivity |].
  rewrite formatTime_form, !length_append. reflexivity.
Qed.

Lemma formatTime_has_two_digit_seconds_witness :
  exists tens units : N,
    (tens < 6)%N /\ (units < 10)%N /\ (10 * tens + units = 125 mod 60)%N /\
    PatientPage.formatTime 125
    = toString (125 / 60) ++ ":"
      ++ String (ascii_of_N (48 + tens)) (String (ascii_of_N (48 + units)) "") /\
    Part000.formatTime 125 = PatientPage.formatTime 125 /\
    String.length (PatientPage.formatTime 125)
    = String.length (toString (125 / 60)) + 3.
Proof.
  apply (formatTime_has_two_digit_seconds 125). reflexivity.
Defined.

(** X9.  Two different durations are never displayed alike: [formatTime]
    is injective on the counts of seconds JavaScript represents exactly.
    Same function on both pages. *)
Theorem formatTime_is_injective (a b : N) :
  (a < 2 ^ 53)%N -> (b < 2 ^ 53)%N ->
  (PatientPage.formatTime a = PatientPage.formatTime b -> a = b) /\
  (Part000.formatTime a = Part000.formatTime b -> a = b).
Proof.
  intros _ _. split; apply page_formatTime_injective.
Qed.

Lemma formatTime_is_injective_witness :
  PatientPage.formatTime 59 <> PatientPage.formatTime 60 /\
  Part000.formatTime 59 <> Part000.formatTime 60.
Proof.
  destruct (formatTime_is_injective 59 60) as [A B].
  - reflexivity.
  - reflexivity.
  - split; intros E; [apply A in E | apply B in E]; discriminate E.
Defined.

Example formatTime_examples :
  PatientPage.formatTime 0 = "0:00" /\
  PatientPage.formatTime 59 = "0:59" /\
  PatientPage.formatTime 60 = "1:00" /\
  PatientPage.formatTime 605 = "10:05" /\
  Part000.formatTime 3599 = "59:59".
Proof. repeat split. Qed.

(** ** The chat responder *)

Lemma toLowerCase_app (a b : string) :
  toLowerCase (a ++ b) = toLowerCase a ++ toLowerCase b.
Proof. induction a as [| c a IH]; simpl; [reflexivity | rewrite IH; reflexivity]. Qed.

Lemma prefix_app (k b : string) : String.prefix k (k ++ b) = true.
Proof.
  induction k as [| c k IH]; simpl.
  - destruct b; reflexivity.
  - destruct (ascii_dec c c) as [_ | N]; [exact IH | contradiction].
Qed.

Lemma includes_prefix (s k : string) : String.prefix k s = true -> includes s k = true.
Proof. intros H. destruct s; cbn [includes]; rewrite H; reflexivity. Qed.

Lemma includes_app (a k b : string) : includes (a ++ k ++ b) k = true.
Proof.
  induction a as [| c a IH].
  - change ("" ++ k ++ b) with (k ++ b). apply includes_prefix, prefix_app.
  - simpl. rewrite IH. apply orb_true_r.
Qed.

(** X10.  A chat message that mentions a headache anywhere, in any mix of
    upper and lower case, gets the headache questions, whatever else it
    says: a mention of the chest or the heart in the same message does not
    bring up the warning to seek immediate medical attention. *)
Theorem headache_keyword_wins (before word after : string) :
  toLowerCase word = "headache" \/ toLowerCase word = "head pain" ->
  PatientPage.Chat.generateAIResponse (before ++ word ++ after)
  = PatientPage.Chat.headache_reply /\
  PatientPage.Chat.generateAIResponse (before ++ word ++ after)
  <> PatientPage.Chat.chest_reply.
Proof.
  intros H.
  assert (E : PatientPage.Chat.generateAIResponse (before ++ word ++ after)
              = PatientPage.Chat.headache_reply).
  { unfold PatientPage.Chat.generateAIResponse. cbv zeta.
    rewrite !toLowerCase_app.
    destruct H as [-> | ->]; rewrite includes_app;
      [reflexivity | rewrite orb_true_r; reflexivity]. }
  split; [exact E | rewrite E; discriminate].
Qed.

Lemma headache_keyword_wins_witness :
  PatientPage.Chat.generateAIResponse
    ("I have had a " ++ "HeadAche" ++ " and CHEST pain since morning")
  = PatientPage.Chat.headache_reply /\
  PatientPage.Chat.generateAIResponse
    ("I have had a " ++ "HeadAche" ++ " and CHEST pain since morning")
  <> PatientPage.Chat.chest_reply.
Proof.
  apply (headache_keyword_wins "I have had a " "HeadAche"
           " and CHEST pain since morning").
  left. reflexivity.
Defined.

(** ** The chat form *)

(** While the assistant is typing, editing the input field or submitting
    the form adds no message and schedules no reply. *)
Lemma chat_inert_while_typing (trim : string -> string)
      (events : list PatientPage.Chat.Event) :
  forall s : PatientPage.Chat.State,
    PatientPage.Chat.isTyping s = true ->
    Forall (fun e => match e with
                     | PatientPage.Chat.ReplyDue _ _ => False
                     | _ => True
                     end) events ->
    PatientPage.Chat.chatMessages (fst (PatientPage.Chat.play trim events s))
    = PatientPage.Chat.chatMessages s /\
    PatientPage.Chat.isTyping (fst (PatientPage.Chat.play trim events s)) = true /\
    snd (PatientPage.Chat.play trim events s) = [].
Proof.
  induction events as [| e events IH]; intros s T F.
  - repeat split. exact T.
  - inversion F as [| e' l He Hl]; subst.
    cbn [PatientPage.Chat.play].
    destruct e as [text | now | input now]; [| | contradiction].
    + cbn [PatientPage.Chat.react].
      destruct (IH (PatientPage.Chat.mkState (PatientPage.Chat.chatMessages s) text
                      (PatientPage.Chat.isTyping s)) T Hl) as (A & B & C).
      destruct (PatientPage.Chat.play trim events _) as [s'' later].
      cbn [fst snd] in *. repeat split; assumption.
    + cbn [PatientPage.Chat.react]. unfold PatientPage.Chat.handleChatSubmit.
      rewrite T, orb_true_r.
      destruct (IH s T Hl) as (A & B & C).
      destruct (PatientPage.Chat.play trim events s) as [s'' later].
      cbn [fst snd] in *. repeat split; assumption.
Qed.

Lemma chat_play_app (trim : string -> string)
      (first second : list PatientPage.Chat.Event) :
  forall s : PatientPage.Chat.State,
    PatientPage.Chat.play trim (first ++ second) s
    = (fst (PatientPage.Chat.play trim second
              (fst (PatientPage.Chat.play trim first s))),
       (snd (PatientPage.Chat.play trim first s)
        ++ snd (PatientPage.Chat.play trim second
                  (fst (PatientPage.Chat.play trim first s))))%list).
Proof.
  induction first as [| e first IH]; intros s.
  - cbn [app PatientPage.Chat.play fst snd].
    destruct (PatientPage.Chat.play trim second s). reflexivity.
  - cbn [app PatientPage.Chat.play].
    destruct (PatientPage.Chat.react trim e s) as [s' scheduled].
    rewrite IH.
    destruct (PatientPage.Chat.play trim first s') as [s'' later].
    cbn [fst snd].
    destruct (PatientPage.Chat.play trim second s'') as [s3 l3].
    cbn [fst snd]. destruct scheduled; reflexivity.
Qed.

(** X11.  A message submitted while the assistant is not typing and whose
    trimmed text is not empty is answered exactly once: the submission
    schedules one reply after 1500 ms; until that reply comes due, whatever
    the user types or submits adds no message and schedules nothing; and
    when it comes due the history is the old one followed by the user's
    message and the assistant's answer to that message as it was sent. *)
Theorem chat_message_gets_exactly_one_reply
        (trim : string -> string) (s : PatientPage.Chat.State) (now later : N)
        (events : list PatientPage.Chat.Event) :
  PatientPage.Chat.isTyping s = false ->
  trim (PatientPage.Chat.chatInput s) <> "" ->
  Forall (fun e => match e with
                   | PatientPage.Chat.ReplyDue _ _ => False
                   | _ => True
                   end) events ->
  snd (PatientPage.Chat.play trim
         (PatientPage.Chat.Submitted now :: events) s)
  = [(1500, PatientPage.Chat.chatInput s)] /\
  PatientPage.Chat.chatMessages
    (fst (PatientPage.Chat.play trim
            (PatientPage.Chat.Submitted now :: events
             ++ [PatientPage.Chat.ReplyDue (PatientPage.Chat.chatInput s) later]) s))
  = (PatientPage.Chat.chatMessages s
     ++ [PatientPage.Chat.mkMessage (toString now) PatientPage.Chat.user
           (PatientPage.Chat.chatInput s) now;
         PatientPage.Chat.mkMessage (toString (later + 1)) PatientPage.Chat.assistant
           (PatientPage.Chat.generateAIResponse (PatientPage.Chat.chatInput s))
           later])%list /\
  PatientPage.Chat.isTyping
    (fst (PatientPage.Chat.play trim
            (PatientPage.Chat.Submitted now :: events
             ++ [PatientPage.Chat.ReplyDue (PatientPage.Chat.chatInput s) later]) s))
  = false.
Proof.
  intros T B F.
  assert (E : PatientPage.Chat.handleChatSubmit trim now s
              = (PatientPage.Chat.mkState
                   (PatientPage.Chat.chatMessages s
                    ++ [PatientPage.Chat.mkMessage (toString now) PatientPage.Chat.user
                          (PatientPage.Chat.chatInput s) now])
                   "" true,
                 Some (1500, PatientPage.Chat.chatInput s))).
  { unfold PatientPage.Chat.handleChatSubmit. rewrite T.
    destruct (String.eqb_spec (trim (PatientPage.Chat.chatInput s)) "");
      [contradiction | reflexivity]. }
  set (s1 := PatientPage.Chat.mkState
                (PatientPage.Chat.chatMessages s
                 ++ [PatientPage.Chat.mkMessage (toString now) PatientPage.Chat.user
                       (PatientPage.Chat.chatInput s) now])
                "" true) in *.
  destruct (chat_inert_while_typing trim events s1 eq_refl F) as (M & Ty & Sch).
  split; [| split].
  - cbn [PatientPage.Chat.play PatientPage.Chat.react]. rewrite E.
    destruct (PatientPage.Chat.play trim events s1) as [s2 l2].
    cbn [fst snd] in *. rewrite Sch. reflexivity.
  - cbn [PatientPage.Chat.play PatientPage.Chat.react]. rewrite E.
    rewrite chat_play_app.
    destruct (PatientPage.Chat.play trim events s1) as [s2 l2].
    cbn [fst snd PatientPage.Chat.play PatientPage.Chat.react
         PatientPage.Chat.reply PatientPage.Chat.chatMessages] in *.
    rewrite M. subst s1. cbn [PatientPage.Chat.chatMessages].
    rewrite <- app_assoc. reflexivity.
  - cbn [PatientPage.Chat.play PatientPage.Chat.react]. rewrite E.
    rewrite chat_play_app.
    destruct (PatientPage.Chat.play trim events s1) as [s2 l2].
    reflexivity.
Qed.

Lemma chat_message_gets_exactly_one_reply_witness :
  snd (PatientPage.Chat.play (fun text => text)
         [PatientPage.Chat.Submitted 1000;
          PatientPage.Chat.Typed "and a fever";
          PatientPage.Chat.Submitted 1200]
         (PatientPage.Chat.mkState (PatientPage.Chat.chatMessages
                                      (PatientPage.Chat.mounted 0))
            "my chest hurts" false))
  = [(1500, "my chest hurts")].
Proof.
  apply (chat_message_gets_exactly_one_reply (fun text => text)
           (PatientPage.Chat.mkState (PatientPage.Chat.chatMessages
                                        (PatientPage.Chat.mounted 0))
              "my chest hurts" false)
           1000 2500
           [PatientPage.Chat.Typed "and a fever"; PatientPage.Chat.Submitted 1200]).
  - reflexivity.
  - discriminate.
  - repeat constructor.
Defined.

(** ** The login form *)




(** ** The level meter, further *)

Lemma sum_pointwise (quiet loud : list byte) :
  Forall2 (fun a b => (PatientPage.magnitude a <= PatientPage.magnitude b)%Z) quiet loud ->
  (fold_right Z.add 0%Z (map PatientPage.magnitude quiet)
   <= fold_right Z.add 0%Z (map PatientPage.magnitude loud))%Z.
Proof.
  induction 1 as [| a b quiet loud H F IH]; simpl; lia.
Qed.

Lemma level_value (dataArray : list byte) (audioLevel : Q) :
  List.length dataArray = PatientPage.frequencyBinCount ->
  PatientPage.updateLevel (Some dataArray) audioLevel
  = Some (Qmin 100 (inject_Z (fold_right Z.add 0%Z (map PatientPage.magnitude dataArray))
                    / inject_Z 128 * 1.5))%Q.
Proof.
  intros L. unfold PatientPage.updateLevel, PatientPage.average.
  rewrite (reduce_add_sum dataArray (bins_nonempty dataArray L)), L. reflexivity.
Qed.

Lemma scaled_mean_le (a b : Z) :
  (a <= b)%Z ->
  (inject_Z a / inject_Z 128 * 1.5 <= inject_Z b / inject_Z 128 * 1.5)%Q.
Proof.
  intros H. rewrite <- !(Qmake_Qdiv _ 128).
  unfold Qle, Qmult. cbn [Qnum Qden]. nia.
Qed.

(** X13.  The meter follows the signal: when every bin of one sample is at
    most the matching bin of another, the level shown for the first is at
    most the level shown for the second. *)
Theorem level_is_monotone (quiet loud : list byte) (audioLevel : Q) :
  List.length quiet = PatientPage.frequencyBinCount ->
  List.length loud = PatientPage.frequencyBinCount ->
  Forall2 (fun a b => (PatientPage.magnitude a <= PatientPage.magnitude b)%Z) quiet loud ->
  exists low high : Q,
    PatientPage.updateLevel (Some quiet) audioLevel = Some low /\
    PatientPage.updateLevel (Some loud) audioLevel = Some high /\
    (low <= high)%Q.
Proof.
  intros Lq Ll F.
  rewrite (level_value quiet audioLevel Lq), (level_value loud audioLevel Ll).
  eexists. eexists. split; [reflexivity |]. split; [reflexivity |].
  apply Q.min_le_compat_l, scaled_mean_le, sum_pointwise, F.
Qed.

Lemma level_is_monotone_witness :
  exists low high : Q,
    PatientPage.updateLevel (Some (repeat "020"%byte 128)) 0 = Some low /\
    PatientPage.updateLevel (Some (repeat "040"%byte 128)) 0 = Some high /\
    (low <= high)%Q.
Proof.
  apply (level_is_monotone (repeat "020"%byte 128) (repeat "040"%byte 128) 0).
  - reflexivity.
  - reflexivity.
  - repeat constructor; discriminate.
Defined.

(** X14.  The meter is pegged at 100 exactly when the magnitudes of the
    128 bins add up to 8534 or more, that is from a mean magnitude of
    about 66.7 out of 255; and it shows 0 exactly when every bin is 0. *)
Theorem level_saturation_and_silence (dataArray : list byte) (audioLevel : Q) :
  List.length dataArray = PatientPage.frequencyBinCount ->
  exists level : Q,
    PatientPage.updateLevel (Some dataArray) audioLevel = Some level /\
    ((level == 100)%Q <->
     (8534 <= fold_right Z.add 0%Z (map PatientPage.magnitude dataArray))%Z) /\
    ((level == 0)%Q <->
     Forall (fun b => PatientPage.magnitude b = 0%Z) dataArray).
Proof.
  intros L. rewrite (level_value dataArray audioLevel L).
  eexists. split; [reflexivity |].
  pose proof (sum_bounds dataArray) as B.
  assert (Z0 : fold_right Z.add 0%Z (map PatientPage.magnitude dataArray) = 0%Z <->
               Forall (fun b => PatientPage.magnitude b = 0%Z) dataArray).
  { clear. induction dataArray as [| b l IH]; simpl.
    - split; [constructor | reflexivity].
    - pose proof (magnitude_bounds b). pose proof (sum_bounds l).
      split.
      + intros H1. constructor; [lia |]. apply IH. lia.
      + intros H1. inversion H1 as [| b' l' Hb Hl]; subst. apply IH in Hl. lia. }
  generalize dependent (fold_right Z.add 0%Z (map PatientPage.magnitude dataArray)).
  intros total B Z0.
  assert (V : (inject_Z total / inject_Z 128 * 1.5 == 3 * total # 256)%Q).
  { rewrite <- (Qmake_Qdiv _ 128). unfold Qeq, Qmult. cbn [Qnum Qden]. lia. }
  split.
  - split.
    + intros H. destruct (Q.min_spec 100 (inject_Z total / inject_Z 128 * 1.5))
        as [[Lt E] | [Le E]].
      * rewrite V in Lt. unfold Qlt in Lt. cbn [Qnum Qden] in Lt. lia.
      * rewrite E, V in H. unfold Qeq in H. cbn [Qnum Qden] in H. lia.
    + intros H. apply Q.min_l. rewrite V. unfold Qle. cbn [Qnum Qden]. lia.
  - rewrite <- Z0. split.
    + intros H. destruct (Q.min_spec 100 (inject_Z total / inject_Z 128 * 1.5))
        as [[Lt E] | [Le E]].
      * rewrite E in H. discriminate H.
      * rewrite E, V in H. unfold Qeq in H. cbn [Qnum Qden] in H. lia.
    + intros ->. reflexivity.
Qed.

Lemma level_saturation_and_silence_witness :
  exists level : Q,
    PatientPage.updateLevel (Some (repeat "067"%byte 128)) 0 = Some level /\
    ((level == 100)%Q <->
     (8534 <= fold_right Z.add 0%Z
                (map PatientPage.magnitude (repeat "067"%byte 128)))%Z) /\
    ((level == 0)%Q <->
     Forall (fun b => PatientPage.magnitude b = 0%Z) (repeat "067"%byte 128)).
Proof.
  apply (level_saturation_and_silence (repeat "067"%byte 128) 0). reflexivity.
Defined.

(** ** The language shown and the language sent *)

Lemma language_entries_codes :
  map PatientPage.code PatientPage.LANGUAGE_ENTRIES = PatientPage.LANGUAGES.
Proof. reflexivity. Qed.

(** X15.  The language shown in the header is always one of the six
    entries: the entry of the stored language code when it is one of the
    six, and Hindi, the first entry, for any other code.  The submission
    does not make that substitution: for a code outside the list the page
    shows Hindi while [createVisit] is called with the code as stored. *)
Theorem language_shown_and_language_sent (language : string) :
  In (PatientPage.code (PatientPage.selectedLanguage language)) PatientPage.LANGUAGES /\
  (In language PatientPage.LANGUAGES ->
   PatientPage.code (PatientPage.selectedLanguage language) = language) /\
  (~ In language PatientPage.LANGUAGES ->
   PatientPage.code (PatientPage.selectedLanguage language) = "hi-IN" /\
   PatientPage.fullName (PatientPage.selectedLanguage language) = "Hindi" /\
   forall (api : Api) (user : option User.t) (blob : Blob) (duration : nat)
          (s : PatientPage.State),
     hd_error (trace (PatientPage.uploadAndProcess api
                        (PatientPage.mkProps user (Some blob) duration language) s))
     = Some (CreateVisit
               (VisitData.mk
                  (or_default (option_map User.user_id user) "DEMO_PATIENT")
                  (or_default (option_map User.clinic_id user) "CLINIC_DEMO")
                  language duration))).
Proof.
  assert (Known : In language PatientPage.LANGUAGES ->
                  PatientPage.code (PatientPage.selectedLanguage language) = language).
  { intros H. simpl in H.
    repeat (destruct H as [H | H]; [subst language; reflexivity |]).
    contradiction. }
  assert (Unknown : ~ In language PatientPage.LANGUAGES ->
                    PatientPage.selectedLanguage language
                    = nth 0 PatientPage.LANGUAGE_ENTRIES
                        (PatientPage.mkLanguage "" "" "")).
  { intros H. unfold PatientPage.selectedLanguage, PatientPage.LANGUAGE_ENTRIES.
    cbn [find PatientPage.code].
    repeat match goal with
           | |- context [String.eqb ?c language] =>
               destruct (String.eqb_spec c language) as [E | _];
               [exfalso; apply H; rewrite <- E; simpl; tauto |]
           end.
    reflexivity. }
  split; [| split].
  - destruct (in_dec string_dec language PatientPage.LANGUAGES) as [I | N].
    + rewrite (Known I). exact I.
    + rewrite (Unknown N). simpl. tauto.
  - exact Known.
  - intros N. rewrite (Unknown N). split; [reflexivity |]. split; [reflexivity |].
    intros api user blob duration s.
    apply (page_upload_first_call api user blob duration language s).
Qed.

Lemma language_shown_and_language_sent_witness :
  PatientPage.code (PatientPage.selectedLanguage "fr-FR") = "hi-IN" /\
  hd_error (trace (PatientPage.uploadAndProcess (scripted (fun _ => Resolved "COMPLETED"))
                     (PatientPage.mkProps None (Some ["x"%byte]) 4 "fr-FR")
                     page_mounted))
  = Some (CreateVisit (VisitData.mk "DEMO_PATIENT" "CLINIC_DEMO" "fr-FR" 4)).
Proof.
  destruct (proj2 (proj2 (language_shown_and_language_sent "fr-FR"))) as (C & _ & S).
  - simpl. intros H. repeat (destruct H as [H | H]; [discriminate H |]). exact H.
  - split; [exact C |].
    apply (S (scripted (fun _ => Resolved "COMPLETED")) None ["x"%byte] 4 page_mounted).
Defined.
